(** * AlmaAPITK: the API gateway

    A shallow embedding of the gateway code of the Alma API toolkit:

    - [ConfigManager]  (core/config_manager.py): environment variables,
      the SB / PROD environments and their headers;
    - [AlmaAPIClient]  (src/client/AlmaAPIClient.py): the stand-alone gateway
      with the SANDBOX / PRODUCTION environments, [switch_environment] and
      [safe_request];
    - [AlmaResponse], [BaseAPIClient]  (src/core/base_client.py): the
      normalised response, the rate limiter, the error mapping and the
      retrying request executor;
    - [AlmaClient]  (client.py): the facade that owns a [ConfigManager] and a
      [BaseAPIClient].

    Python objects are records, mutation is state passing, and a raised
    exception is a result of its own.  The state reached when an exception
    is raised is kept, as in Python: what a method assigned before it
    raises stays assigned.  Logging has no effect on what the methods return
    or raise and is left out.  Timestamps are exact rationals (seconds). *)

From Stdlib Require Import Ascii String Sorted QArith Lqa.
From stdpp Require Import gmap strings list pretty.
From Equations Require Import Equations.

Close Scope Q_scope.
Local Open Scope string_scope.

(** ** Python values *)

(** The values a JSON document parses to, and the bodies a caller sends. *)
#[warnings="-register-all"]
Inductive pyval : Type :=
| PyNone
| PyBool (b : bool)
| PyInt (n : Z)
| PyFloat (x : Q)
| PyStr (s : string)
| PyList (items : list pyval)
| PyDict (items : list (string * pyval)).

(** [isinstance(v, dict)], [isinstance(v, str)], [isinstance(v, list)]. *)
Definition is_dict (v : pyval) : bool :=
  match v with PyDict _ => true | _ => false end.
Definition is_str (v : pyval) : bool :=
  match v with PyStr _ => true | _ => false end.
Definition is_list (v : pyval) : bool :=
  match v with PyList _ => true | _ => false end.

(** Truth value of a value in a condition ([if errors:]). *)
Definition truthy (v : pyval) : bool :=
  match v with
  | PyNone => false
  | PyBool b => b
  | PyInt n => negb (n =? 0)%Z
  | PyFloat x => negb (Qeq_bool x 0)
  | PyStr s => negb (s =? "")
  | PyList l => match l with [] => false | _ => true end
  | PyDict d => match d with [] => false | _ => true end
  end.

(** [d[k]] and [k in d] on the items of a dict. *)
Fixpoint assoc (k : string) (d : list (string * pyval)) : option pyval :=
  match d with
  | [] => None
  | (k', v) :: d' => if k' =? k then Some v else assoc k d'
  end.

(** ** Strings *)

Definition upper_ascii (c : ascii) : ascii :=
  let n := nat_of_ascii c in
  if (97 <=? n)%nat && (n <=? 122)%nat then ascii_of_nat (n - 32) else c.

Definition lower_ascii (c : ascii) : ascii :=
  let n := nat_of_ascii c in
  if (65 <=? n)%nat && (n <=? 90)%nat then ascii_of_nat (n + 32) else c.

(** [s.upper()] and [s.lower()], on ASCII text. *)
Fixpoint upper (s : string) : string :=
  match s with
  | EmptyString => EmptyString
  | String c s' => String (upper_ascii c) (upper s')
  end.

Fixpoint lower (s : string) : string :=
  match s with
  | EmptyString => EmptyString
  | String c s' => String (lower_ascii c) (lower s')
  end.

(** The text is written in ASCII: every byte of it is below 128.  On such
    text [str.upper()] and [str.lower()] change the letters a-z and A-Z
    and nothing else, as [upper] and [lower] do.  On other text they
    follow the case mappings of Unicode, which [upper] and [lower] do not
    embed: the statements that depend on a name being none of the
    accepted ones are made for names written in ASCII. *)
Fixpoint is_ascii (s : string) : bool :=
  match s with
  | EmptyString => true
  | String c s' => (nat_of_ascii c <? 128)%nat && is_ascii s'
  end.

(** [s.startswith(p)]. *)
Definition startswith (p s : string) : bool := String.prefix p s.

(** [needle in s]. *)
Fixpoint contains (needle s : string) : bool :=
  String.prefix needle s ||
  match s with
  | EmptyString => false
  | String _ s' => contains needle s'
  end.

(** [s.lstrip('/')]. *)
Fixpoint lstrip_slash (s : string) : string :=
  match s with
  | String "/" s' => lstrip_slash s'
  | _ => s
  end.

(** [s.rstrip('/')]. *)
Fixpoint rstrip_slash (s : string) : string :=
  match s with
  | EmptyString => EmptyString
  | String c s' =>
      match rstrip_slash s' with
      | EmptyString => if Ascii.eqb c "/" then EmptyString else String c EmptyString
      | r => String c r
      end
  end.

(** A run of slashes. *)
Fixpoint slashes (n : nat) : string :=
  match n with
  | O => EmptyString
  | S k => String "/" (slashes k)
  end.

(** [f"{o}"] for an [Optional[str]]. *)
Definition fmt_opt (o : option string) : string := default "None" o.

(** Truth value of an [Optional[str]] ([if not self.api_key]). *)
Definition truthy_opt (o : option string) : bool :=
  match o with
  | Some s => negb (s =? "")
  | None => false
  end.

(** ** Exceptions *)

Inductive exn : Type :=
| AlmaAPIError (message : string) (status_code : option Z) (response_data : option pyval)
| AlmaRateLimitError (message : string) (status_code : option Z) (response_data : option pyval)
| AlmaAuthenticationError (message : string) (status_code : option Z) (response_data : option pyval)
| AlmaValidationError (message : string) (status_code : option Z) (response_data : option pyval)
| RequestException (message : string)
| HTTPError (message : string)
| JSONDecodeError (message : string)
| ValueError (message : string)
| EnvironmentError (message : string)
| AttributeError (message : string)
| IndexError (message : string)
| TypeError (message : string).

(** [except requests.RequestException]: the transport failures of
    [requests], and [HTTPError], which [raise_for_status] raises. *)
Definition is_RequestException (e : exn) : bool :=
  match e with RequestException _ | HTTPError _ => true | _ => false end.

(** [except json.JSONDecodeError]. *)
Definition is_JSONDecodeError (e : exn) : bool :=
  match e with JSONDecodeError _ => true | _ => false end.

(** [except Exception]. *)
Definition is_Exception (e : exn) : bool := true.

(** ** Results and the state-and-exception monad *)

Inductive result (A : Type) : Type :=
| Returns (a : A)
| Raises (e : exn).
Arguments Returns {A} a.
Arguments Raises {A} e.

(** A method of an object of state [St]: the result, and the state it
    leaves behind, also when it raises. *)
Definition M (St A : Type) : Type := St -> result A * St.

Definition ret {St A} (a : A) : M St A := fun s => (Returns a, s).

Definition raise {St A} (e : exn) : M St A := fun s => (Raises e, s).

Definition bind {St A B} (m : M St A) (k : A -> M St B) : M St B :=
  fun s =>
    match m s with
    | (Returns a, s') => k a s'
    | (Raises e, s') => (Raises e, s')
    end.

(** [try: m  except E as e: h e], for the exception class [E]. *)
Definition try_except {St A} (m : M St A) (E : exn -> bool) (h : exn -> M St A) : M St A :=
  fun s =>
    match m s with
    | (Raises e, s') => if E e then h e s' else (Raises e, s')
    | r => r
    end.

Definition get {St} : M St St := fun s => (Returns s, s).
Definition put {St} (s : St) : M St unit := fun _ => (Returns tt, s).
Definition modify {St} (f : St -> St) : M St unit := fun s => (Returns tt, f s).

(** Runs a method of a part of the state on the whole state. *)
Definition zoom {St Part A} (proj : St -> Part) (inj : Part -> St -> St)
    (m : M Part A) : M St A :=
  fun s => let '(r, p) := m (proj s) in (r, inj p s).

(** A computation that leaves the state as it is, and returns or raises
    something other than a transport failure; one that always raises. *)
Definition steady {St A} (m : M St A) : Prop :=
  forall st,
    (exists a, m st = (Returns a, st))
    \/ (exists e, m st = (Raises e, st) /\ is_RequestException e = false).

Definition raising {St A} (m : M St A) : Prop :=
  forall st, exists e, m st = (Raises e, st) /\ is_RequestException e = false.

Declare Scope monad_scope.
Delimit Scope monad_scope with monad.
Notation "x <- c ;; k" := (bind c (fun x => k))
  (at level 100, c at next level, right associativity) : monad_scope.
Notation "c ;; k" := (bind c (fun _ => k))
  (at level 100, right associativity) : monad_scope.
Local Open Scope monad_scope.

(** ** core/config_manager.py *)

Module ConfigManager.

Definition REQUIRED_ENV_VARS : list string :=
  [ "ALMA_SB_API_KEY"; "ALMA_PROD_API_KEY"; "AWS_ACCESS_KEY"; "AWS_SECRET";
    "ALMA_SB_BUCKET_NAME"; "ALMA_PROD_BUCKET_NAME" ].

Record t : Type := mk {
  env : gmap string string;
  current_environment : option string;
  api_key_sb : option string;
  api_key_prod : option string;
  aws_access_key : option string;
  aws_secret_key : option string;
  sb_bucket_name : option string;
  prod_bucket_name : option string;
  inst_code : string;
  base_url : string;
  headers : option (gmap string string)
}.

Definition set_current_environment (v : option string) (c : t) : t :=
  mk (env c) v (api_key_sb c) (api_key_prod c) (aws_access_key c)
     (aws_secret_key c) (sb_bucket_name c) (prod_bucket_name c)
     (inst_code c) (base_url c) (headers c).

Definition set_headers_field (v : option (gmap string string)) (c : t) : t :=
  mk (env c) (current_environment c) (api_key_sb c) (api_key_prod c)
     (aws_access_key c) (aws_secret_key c) (sb_bucket_name c)
     (prod_bucket_name c) (inst_code c) (base_url c) v.

(** The six assignments of [load_env_variables], each [self.env.get(..)]. *)
Definition set_loaded (c : t) : t :=
  mk (env c) (current_environment c)
     (env c !! "ALMA_SB_API_KEY") (env c !! "ALMA_PROD_API_KEY")
     (env c !! "AWS_ACCESS_KEY") (env c !! "AWS_SECRET")
     (env c !! "ALMA_SB_BUCKET_NAME") (env c !! "ALMA_PROD_BUCKET_NAME")
     (inst_code c) (base_url c) (headers c).

Definition json_headers (key : option string) : gmap string string :=
  <["authorization" := "apikey " ++ fmt_opt key]>
    (<["accept" := "application/json"]>
       (<["content-type" := "application/json; charset=utf-8"]> ∅)).

Definition set_headers (environment : string) : M t unit :=
  self <- get ;;
  if environment =? "SB" then
    modify (set_headers_field (Some (json_headers (api_key_sb self))))
  else if environment =? "PROD" then
    modify (set_headers_field (Some (json_headers (api_key_prod self))))
  else
    raise (ValueError ("Invalid environment: " ++ environment)).

Definition load_env_variables : M t unit :=
  self <- get ;;
  let missing_vars := filter (fun var => env self !! var = None) REQUIRED_ENV_VARS in
  match missing_vars with
  | _ :: _ =>
      raise (EnvironmentError
               ("Missing required environment variables: "
                ++ String.concat ", " missing_vars))
  | [] =>
      modify set_loaded ;;
      self <- get ;;
      if truthy_opt (current_environment self)
      then set_headers (fmt_opt (current_environment self))
      else ret tt
  end.

(** [self.env = env or os.environ]: an absent or empty mapping gives way
    to the process environment. *)
Definition env_or (env : option (gmap string string)) (os_environ : gmap string string)
    : gmap string string :=
  match env with
  | Some e => if bool_decide (e = ∅) then os_environ else e
  | None => os_environ
  end.

(** The fields [__init__] assigns before it loads the variables. *)
Definition blank (e : gmap string string) : t :=
  mk e None None None None None None None
     "972TAU_INST" "https://api-eu.hosted.exlibrisgroup.com" None.

(** [ConfigManager(env)]: the object, or the exception its construction
    ends with. *)
Definition __init__ (env : option (gmap string string)) (os_environ : gmap string string)
    : result t :=
  match load_env_variables (blank (env_or env os_environ)) with
  | (Returns _, self) => Returns self
  | (Raises e, _) => Raises e
  end.

Definition set_environment (environment : string) : M t unit :=
  modify (set_current_environment (Some (upper environment))) ;;
  self <- get ;;
  set_headers (fmt_opt (current_environment self)).

Definition get_api_key (self : t) : option string :=
  match current_environment self with
  | Some "SB" => api_key_sb self
  | Some "PROD" => api_key_prod self
  | _ => None
  end.

Definition get_bucket_name (self : t) : option string :=
  match current_environment self with
  | Some "SB" => sb_bucket_name self
  | Some "PROD" => prod_bucket_name self
  | _ => None
  end.

Definition get_base_url (self : t) : string := base_url self.
Definition get_headers (self : t) : option (gmap string string) := headers self.

End ConfigManager.

(** ** The world outside the process *)

(** A [requests.Response]: [json_body] is what [response.json()] returns,
    [None] when it raises [JSONDecodeError]. *)
Module Response.

Record t : Type := mk {
  status_code : Z;
  headers : list (string * string);
  text : string;
  json_body : option pyval
}.

(** [response.headers.get(name, '')]: the header names of a response are
    matched without regard to case. *)
Fixpoint header_get (name : string) (hs : list (string * string)) : string :=
  match hs with
  | [] => ""
  | (k, v) :: hs' => if lower k =? lower name then v else header_get name hs'
  end.

(** [response.raise_for_status()] raises for 400 <= status < 600, and
    [response.ok] is true when it does not. *)
Definition ok (r : t) : bool :=
  negb ((400 <=? status_code r)%Z && (status_code r <? 600)%Z).

(** [response.raise_for_status()]. *)
Definition raise_for_status {St} (r : t) : M St unit :=
  if ok r then ret tt else raise (HTTPError "HTTP error").

(** [response.json()]. *)
Definition json {St} (r : t) : M St pyval :=
  match json_body r with
  | Some v => ret v
  | None => raise (JSONDecodeError "Expecting value")
  end.

End Response.

(** The [json=] or [data=] argument of a call to [requests]. *)
Inductive payload : Type :=
| NoBody
| Json (data : pyval)
| Data (data : pyval).

Record http_request : Type := mk_request {
  verb : string;
  url : string;
  req_headers : gmap string string;
  body : payload;
  params : option (gmap string string);
  timeout : option Z
}.

(** What one call to [requests] ends with: a response, or a transport
    failure ([requests.RequestException]). *)
Inductive reply : Type :=
| Reply (r : Response.t)
| Failure (message : string).

(** Where the process sleeps. *)
Inductive sleep_site : Type := RateLimit | Backoff.

Inductive event : Type :=
| Sleep (site : sleep_site) (seconds : Q)
| Request (r : http_request).

(** The process environment, the clock, the remote API (its answer to the
    call number [calls], for each request), and what the process did so
    far. *)
Record world : Type := mk_world {
  environ : gmap string string;
  clock : Q;
  remote : nat -> http_request -> reply;
  calls : nat;
  trace : list event
}.

Definition getself {T W} : M (T * W) T := fun s => (Returns (fst s), s).
Definition setself {T W} (f : T -> T) : M (T * W) unit :=
  fun s => (Returns tt, (f (fst s), snd s)).

(** [os.getenv(name)]. *)
Definition getenv {T} (name : string) : M (T * world) (option string) :=
  fun s => (Returns (environ (snd s) !! name), s).

(** [time.time()]. *)
Definition time_time {T} : M (T * world) Q :=
  fun s => (Returns (clock (snd s)), s).

(** The world after [seconds] of sleep, and after one more request. *)
Definition slept (site : sleep_site) (seconds : Q) (w : world) : world :=
  mk_world (environ w) (clock w + seconds)%Q (remote w) (calls w)
           (trace w ++ [Sleep site seconds]).

Definition sent (req : http_request) (w : world) : world :=
  mk_world (environ w) (clock w) (remote w) (S (calls w))
           (trace w ++ [Request req]).

(** [time.sleep(seconds)]. *)
Definition time_sleep {T} (site : sleep_site) (seconds : Q) : M (T * world) unit :=
  fun s => (Returns tt, (fst s, slept site seconds (snd s))).

(** [requests.get / post / put / delete]. *)
Definition send {T} (req : http_request) : M (T * world) Response.t :=
  fun s =>
    match remote (snd s) (calls (snd s)) req with
    | Reply r => (Returns r, (fst s, sent req (snd s)))
    | Failure msg => (Raises (RequestException msg), (fst s, sent req (snd s)))
    end.

(** [x < y] on timestamps. *)
Definition Qlt_bool (x y : Q) : bool := negb (Qle_bool y x).

(** The sleeps of the retry branch, and the requests sent, in order. *)
Definition backoffs (tr : list event) : list Q :=
  omap (fun ev => match ev with Sleep Backoff d => Some d | _ => None end) tr.

Definition requests (tr : list event) : list http_request :=
  omap (fun ev => match ev with Request r => Some r | _ => None end) tr.

(** The requests sent and the sleeps of the retry branch, in the order
    they happened: what the process did, without the sleeps of the rate
    limiter. *)
Definition retry_events (tr : list event) : list event :=
  List.filter (fun ev => match ev with Sleep RateLimit _ => false | _ => true end) tr.

(** ** src/client/AlmaAPIClient.py *)

Module AlmaAPIClient.

Record t : Type := mk {
  environment : string;
  api_key : option string;
  base_url : string;
  default_headers : gmap string string
}.

Definition state : Type := t * world.

Definition set_environment (v : string) (c : t) : t :=
  mk v (api_key c) (base_url c) (default_headers c).
Definition set_api_key (v : option string) (c : t) : t :=
  mk (environment c) v (base_url c) (default_headers c).
Definition set_base_url (v : string) (c : t) : t :=
  mk (environment c) (api_key c) v (default_headers c).
Definition set_default_headers (v : gmap string string) (c : t) : t :=
  mk (environment c) (api_key c) (base_url c) v.

Definition URL : string := "https://api-eu.hosted.exlibrisgroup.com".

Definition _load_configuration : M state unit :=
  self <- getself ;;
  (if environment self =? "SANDBOX" then
     key <- getenv "ALMA_SB_API_KEY" ;;
     setself (set_api_key key) ;;
     if negb (truthy_opt key)
     then raise (ValueError "ALMA_SB_API_KEY environment variable not set")
     else ret tt
   else if environment self =? "PRODUCTION" then
     key <- getenv "ALMA_PROD_API_KEY" ;;
     setself (set_api_key key) ;;
     if negb (truthy_opt key)
     then raise (ValueError "ALMA_PROD_API_KEY environment variable not set")
     else ret tt
   else
     raise (ValueError "Environment must be 'SANDBOX' or 'PRODUCTION'")) ;;
  setself (set_base_url URL).

Definition headers_of (key : option string) : gmap string string :=
  <["Authorization" := "apikey " ++ fmt_opt key]>
    (<["Accept" := "application/json"]>
       (<["Content-Type" := "application/json"]> ∅)).

Definition _setup_headers : M state unit :=
  self <- getself ;;
  setself (set_default_headers (headers_of (api_key self))).

(** The object before [__init__] has assigned [api_key], [base_url] and
    [default_headers]; no method reads them before they are assigned. *)
Definition blank (environment : string) : t := mk environment None "" ∅.

(** [AlmaAPIClient(environment)]: the object, or the exception its
    construction ends with. *)
Definition __init__ (environment : string) (w : world) : result t :=
  match (_load_configuration ;; _setup_headers) (blank (upper environment), w) with
  | (Returns _, (self, _)) => Returns self
  | (Raises e, _) => Raises e
  end.

Definition _build_url (endpoint : string) : M state string :=
  self <- getself ;;
  ret (base_url self ++ "/" ++ lstrip_slash endpoint).

Definition _prepare_headers (content_type : option string) : M state (gmap string string) :=
  self <- getself ;;
  let headers := default_headers self in
  ret (if truthy_opt content_type then
         let headers := <["Content-Type" := fmt_opt content_type]> headers in
         if fmt_opt content_type =? "application/xml"
         then <["Accept" := "application/xml"]> headers
         else headers
       else headers).

(** [if custom_headers: headers.update(custom_headers)]. *)
Definition update_with (custom_headers : option (gmap string string))
    (headers : gmap string string) : gmap string string :=
  match custom_headers with
  | Some c => c ∪ headers
  | None => headers
  end.

Definition get (endpoint : string) (params : option (gmap string string))
    (custom_headers : option (gmap string string)) : M state Response.t :=
  url <- _build_url endpoint ;;
  headers <- _prepare_headers None ;;
  send (mk_request "GET" url (update_with custom_headers headers) NoBody params None).

(** [json=data] for a dict sent without a content type, [data=data]
    otherwise. *)
Definition body_of (data : pyval) (content_type : option string) : payload :=
  if is_dict data && negb (truthy_opt content_type) then Json data else Data data.

Definition post (endpoint : string) (data : pyval) (params : option (gmap string string))
    (content_type : option string) (custom_headers : option (gmap string string))
    : M state Response.t :=
  url <- _build_url endpoint ;;
  headers <- _prepare_headers content_type ;;
  send (mk_request "POST" url (update_with custom_headers headers)
                   (body_of data content_type) params None).

Definition put (endpoint : string) (data : pyval) (params : option (gmap string string))
    (content_type : option string) (custom_headers : option (gmap string string))
    : M state Response.t :=
  url <- _build_url endpoint ;;
  headers <- _prepare_headers content_type ;;
  send (mk_request "PUT" url (update_with custom_headers headers)
                   (body_of data content_type) params None).

Definition delete (endpoint : string) (params : option (gmap string string))
    (custom_headers : option (gmap string string)) : M state Response.t :=
  url <- _build_url endpoint ;;
  headers <- _prepare_headers None ;;
  send (mk_request "DELETE" url (update_with custom_headers headers) NoBody params None).

Definition switch_environment (new_environment : string) : M state unit :=
  self <- getself ;;
  let old_env := environment self in
  setself (set_environment (upper new_environment)) ;;
  try_except (_load_configuration ;; _setup_headers) is_Exception
    (fun e =>
       setself (set_environment old_env) ;;
       _load_configuration ;;
       _setup_headers ;;
       raise e).

Definition get_environment (self : t) : string := environment self.
Definition get_base_url (self : t) : string := base_url self.

(** The keyword arguments [safe_request] forwards: [None] is an argument
    the caller did not pass. *)
Record kwargs : Type := mk_kwargs {
  kw_data : option pyval;
  kw_params : option (gmap string string);
  kw_content_type : option string;
  kw_custom_headers : option (gmap string string)
}.

Definition no_kwargs : kwargs := mk_kwargs None None None None.

(** [get] and [delete] take no [data] and no [content_type]: passing one
    is a [TypeError]. *)
Definition takes_no_body (kw : kwargs) (m : M state Response.t) : M state Response.t :=
  match kw_data kw, kw_content_type kw with
  | None, None => m
  | _, _ => raise (TypeError "got an unexpected keyword argument")
  end.

(** The branch of [safe_request] on the method. *)
Definition call_method (method endpoint : string) (kw : kwargs) : M state Response.t :=
  if method =? "GET" then
    takes_no_body kw (get endpoint (kw_params kw) (kw_custom_headers kw))
  else if method =? "POST" then
    post endpoint (default PyNone (kw_data kw)) (kw_params kw)
         (kw_content_type kw) (kw_custom_headers kw)
  else if method =? "PUT" then
    put endpoint (default PyNone (kw_data kw)) (kw_params kw)
        (kw_content_type kw) (kw_custom_headers kw)
  else if method =? "DELETE" then
    takes_no_body kw (delete endpoint (kw_params kw) (kw_custom_headers kw))
  else raise (ValueError ("Unsupported method: " ++ method)).

(** The two [except] clauses of the one [try]: neither handler raises, so
    they nest. *)
Definition safe_request (method endpoint : string) (kw : kwargs) : M state pyval :=
  try_except (try_except
    (let method := upper method in
     response <- call_method method endpoint kw ;;
     Response.raise_for_status response ;;
     try_except (Response.json response) is_Exception
       (fun _ => ret (PyStr (Response.text response))))
    is_RequestException
    (fun _ => ret PyNone))
    is_Exception
    (fun _ => ret PyNone).

Definition test_connection : M state bool :=
  try_except
    (response <- get "almaws/v1/conf/libraries" None None ;;
     ret (Response.status_code response =? 200)%Z)
    is_Exception
    (fun _ => ret false).

(** The gateways a caller can hold in the world [w]: constructed, then
    switched any number of times, with or without success. *)
Inductive reachable (w : world) : t -> Prop :=
| reach_init (environment : string) (self : t) :
    __init__ environment w = Returns self -> reachable w self
| reach_switch (self : t) (new_environment : string) (r : result unit) (s' : state) :
    reachable w self ->
    switch_environment new_environment (self, w) = (r, s') ->
    reachable w (fst s').

(** The key stored for an environment. *)
Definition stored_key (w : world) (environment : string) : option string :=
  if environment =? "SANDBOX" then environ w !! "ALMA_SB_API_KEY"
  else if environment =? "PRODUCTION" then environ w !! "ALMA_PROD_API_KEY"
  else None.

End AlmaAPIClient.

(** ** src/core/base_client.py *)

Module AlmaResponse.

Record t : Type := mk {
  data : pyval;
  status_code : Z;
  headers : list (string * string);
  success : bool;
  request_url : option string;
  request_method : option string
}.

Definition __init__ (data : pyval) (status_code : Z) (headers : list (string * string))
    (request_url request_method : option string) : t :=
  mk data status_code headers
     ((200 <=? status_code)%Z && (status_code <? 300)%Z)
     request_url request_method.

Section Json.

(** [json.loads], [None] when it raises [JSONDecodeError], and
    [json.dumps]. *)
Variable json_loads : string -> option pyval.
Variable json_dumps : pyval -> string.

Definition json (self : t) : result pyval :=
  match data self with
  | PyStr s =>
      match json_loads s with
      | Some v => Returns v
      | None => Raises (JSONDecodeError "Expecting value")
      end
  | d => Returns d
  end.

Definition text (self : t) : pyval :=
  if is_dict (data self) then PyStr (json_dumps (data self)) else data self.

End Json.

End AlmaResponse.

Module BaseAPIClient.

Definition DEFAULT_RATE_LIMIT : Z := 100.
Definition RETRY_STATUS_CODES : list Z := [429; 500; 502; 503; 504]%Z.
Definition MAX_RETRIES : nat := 3.
Definition RETRY_DELAY : Z := 1.

(** The [config_manager] field is read by [__init__] only, and is the
    object the caller passed: it is kept by the caller. *)
Record t : Type := mk {
  base_url : string;
  headers : option (gmap string string);
  _request_times : list Q;
  _rate_limit : Z
}.

Definition state : Type := t * world.

Definition set_base_url (v : string) (c : t) : t :=
  mk v (headers c) (_request_times c) (_rate_limit c).
Definition set_headers (v : option (gmap string string)) (c : t) : t :=
  mk (base_url c) v (_request_times c) (_rate_limit c).
Definition set_request_times (v : list Q) (c : t) : t :=
  mk (base_url c) (headers c) v (_rate_limit c).
Definition set_rate_limit (v : Z) (c : t) : t :=
  mk (base_url c) (headers c) (_request_times c) v.

Definition _validate_config (self : t) : result unit :=
  if base_url self =? "" then
    Raises (AlmaValidationError "Base URL is not configured" None None)
  else
    match headers self with
    | None =>
        Raises (AlmaValidationError "API authorization headers are not configured" None None)
    | Some h =>
        match h !! "authorization" with
        | None =>
            Raises (AlmaValidationError "API authorization headers are not configured" None None)
        | Some a =>
            if negb (startswith "apikey " a)
            then Raises (AlmaValidationError "Invalid API key format" None None)
            else Returns tt
        end
    end.

Definition __init__ (config_manager : ConfigManager.t) : result t :=
  let self := mk (ConfigManager.get_base_url config_manager)
                 (ConfigManager.get_headers config_manager)
                 [] DEFAULT_RATE_LIMIT in
  match _validate_config self with
  | Returns _ => Returns self
  | Raises e => Raises e
  end.

Definition _enforce_rate_limit : M state unit :=
  now <- time_time ;;
  setself (fun self =>
    set_request_times
      (List.filter (fun t => Qlt_bool (now - t) 60) (_request_times self)) self) ;;
  self <- getself ;;
  (if (_rate_limit self <=? Z.of_nat (length (_request_times self)))%Z then
     match _request_times self with
     | [] => raise (IndexError "list index out of range")
     | oldest :: _ =>
         let sleep_time := (60 - (now - oldest))%Q in
         if Qlt_bool 0 sleep_time
         then time_sleep RateLimit sleep_time
         else ret tt
     end
   else ret tt) ;;
  setself (fun self => set_request_times (_request_times self ++ [now]) self).

Definition _build_url (endpoint : string) : M state string :=
  self <- getself ;;
  if startswith "http" endpoint then ret endpoint
  else ret (rstrip_slash (base_url self) ++ "/" ++ lstrip_slash endpoint).

Definition _prepare_headers (content_type accept : string) : M state (gmap string string) :=
  self <- getself ;;
  match headers self with
  | None => raise (AttributeError "'NoneType' object has no attribute 'copy'")
  | Some headers =>
      let headers :=
        if lower content_type =? "xml"
        then <["Content-Type" := "application/xml;charset=utf-8"]> headers
        else <["Content-Type" := "application/json;charset=utf-8"]> headers in
      let headers :=
        if lower accept =? "xml"
        then <["Accept" := "application/xml"]> headers
        else <["Accept" := "application/json"]> headers in
      ret headers
  end.

Definition _parse_response {St} (response : Response.t) : M St pyval :=
  let content_type :=
    lower (Response.header_get "Content-Type" (Response.headers response)) in
  if contains "application/json" content_type then
    try_except (Response.json response) is_JSONDecodeError
      (fun _ => ret (PyStr (Response.text response)))
  else ret (PyStr (Response.text response)).

(** [v.get(k, dflt)]: only a dict has the method. *)
Definition py_get {St} (v : pyval) (k : string) (dflt : pyval) : M St pyval :=
  match v with
  | PyDict d => ret (default dflt (assoc k d))
  | _ => raise (AttributeError "object has no attribute 'get'")
  end.

Section Formatting.

(** [str(v)], as an f-string formats a value. *)
Variable py_str : pyval -> string.

(** The block of [_handle_error_response] that extracts the Alma error
    information: the message, extended by what the body says. *)
Definition extract_error_information (error_data : pyval) (error_message : string)
    : M state string :=
  match error_data with
  | PyDict d =>
      match assoc "errorList" d with
      | Some error_list =>
          errors <- py_get error_list "error" (PyList []) ;;
          if truthy errors then
            let error_details :=
              match errors with
              | PyList (first :: _) => first
              | _ => errors
              end in
            m <- py_get error_details "errorMessage" (PyStr "Unknown error") ;;
            ret (error_message ++ ": " ++ py_str m)
          else ret error_message
      | None =>
          match assoc "error_description" d with
          | Some descr => ret (error_message ++ ": " ++ py_str descr)
          | None => ret error_message
          end
      end
  | _ => ret error_message
  end.

Definition _handle_error_response (response : Response.t)
    (request_method url : string) : M state unit :=
  let status_code := Response.status_code response in
  error_data <-
    try_except (_parse_response response) is_Exception
      (fun _ => ret (PyStr (Response.text response))) ;;
  let error_message :=
    request_method ++ " " ++ url ++ " failed with status " ++ py_str (PyInt status_code) in
  error_message <- extract_error_information error_data error_message ;;
  if (status_code =? 401)%Z then
    raise (AlmaAuthenticationError error_message (Some status_code) (Some error_data))
  else if (status_code =? 429)%Z then
    raise (AlmaRateLimitError error_message (Some status_code) (Some error_data))
  else if existsb (Z.eqb status_code) [400; 422]%Z then
    raise (AlmaValidationError error_message (Some status_code) (Some error_data))
  else
    raise (AlmaAPIError error_message (Some status_code) (Some error_data)).

(** The call to [requests] for a method, [json=data] for a dict and
    [data=data] otherwise. *)
Definition dispatch (method url : string) (headers : gmap string string)
    (data : pyval) (params : option (gmap string string)) : M state Response.t :=
  let body := if is_dict data then Json data else Data data in
  if upper method =? "GET" then
    send (mk_request "GET" url headers NoBody params (Some 30%Z))
  else if upper method =? "POST" then
    send (mk_request "POST" url headers body params (Some 30%Z))
  else if upper method =? "PUT" then
    send (mk_request "PUT" url headers body params (Some 30%Z))
  else if upper method =? "DELETE" then
    send (mk_request "DELETE" url headers NoBody params (Some 30%Z))
  else
    raise (AlmaValidationError ("Unsupported HTTP method: " ++ method) None None).

(** The last statements of [_make_request]. *)
Definition parse_and_return (response : Response.t) (method url : string)
    : M state AlmaResponse.t :=
  parsed_data <- _parse_response response ;;
  ret (AlmaResponse.__init__ parsed_data (Response.status_code response)
         (Response.headers response) (Some url) (Some method)).

(** [str(e)] of a transport failure. *)
Definition exn_message (e : exn) : string :=
  match e with
  | RequestException m | HTTPError m => m
  | _ => ""
  end.

(** The retry condition [status in RETRY_STATUS_CODES and retry_count <
    MAX_RETRIES] is tested in two steps, the second with [lt_dec], whose
    proof bounds the recursion; the two branches that do not retry are
    the one fall-through of the source. *)
Equations? _make_request (method url : string) (headers : gmap string string)
    (data : pyval) (params : option (gmap string string)) (retry_count : nat)
    : M state AlmaResponse.t by wf (MAX_RETRIES - retry_count) lt :=
  _make_request method url headers data params retry_count :=
    _enforce_rate_limit ;;
    try_except
      (response <- dispatch method url headers data params ;;
       if negb (Response.ok response) then
         if existsb (Z.eqb (Response.status_code response)) RETRY_STATUS_CODES then
           match lt_dec retry_count MAX_RETRIES with
           | left _ =>
               let delay := (RETRY_DELAY * 2 ^ Z.of_nat retry_count)%Z in
               time_sleep Backoff (inject_Z delay) ;;
               _make_request method url headers data params (retry_count + 1)
           | right _ =>
               _handle_error_response response method url ;;
               parse_and_return response method url
           end
         else
           _handle_error_response response method url ;;
           parse_and_return response method url
       else parse_and_return response method url)
      is_RequestException
      (fun e => raise (AlmaAPIError ("Network error: " ++ exn_message e) None None)).
Proof. unfold MAX_RETRIES in *. lia. Qed.

Definition get (endpoint : string) (params : option (gmap string string))
    (accept : string) : M state AlmaResponse.t :=
  url <- _build_url endpoint ;;
  headers <- _prepare_headers "json" accept ;;
  _make_request "GET" url headers PyNone params 0.

Definition post (endpoint : string) (data : pyval) (content_type accept : string)
    (params : option (gmap string string)) : M state AlmaResponse.t :=
  url <- _build_url endpoint ;;
  headers <- _prepare_headers content_type accept ;;
  _make_request "POST" url headers data params 0.

Definition put (endpoint : string) (data : pyval) (content_type accept : string)
    (params : option (gmap string string)) : M state AlmaResponse.t :=
  url <- _build_url endpoint ;;
  headers <- _prepare_headers content_type accept ;;
  _make_request "PUT" url headers data params 0.

Definition delete (endpoint : string) (params : option (gmap string string))
    : M state AlmaResponse.t :=
  url <- _build_url endpoint ;;
  headers <- _prepare_headers "json" "json" ;;
  _make_request "DELETE" url headers PyNone params 0.

Definition test_connection : M state bool :=
  try_except
    (response <- get "almaws/v1/conf/institutions" None "json" ;;
     ret (AlmaResponse.success response))
    is_Exception
    (fun _ => ret false).

End Formatting.

(** *** Vocabulary of the statements about the executor *)

(** The four methods [_make_request] has a branch for. *)
Definition supported (method : string) : bool :=
  (upper method =? "GET") || (upper method =? "POST")
  || (upper method =? "PUT") || (upper method =? "DELETE").

(** The request [dispatch] sends for a supported method. *)
Definition request_of (method url : string) (headers : gmap string string)
    (data : pyval) (params : option (gmap string string)) : http_request :=
  mk_request (upper method) url headers
    (if (upper method =? "GET") || (upper method =? "DELETE") then NoBody
     else if is_dict data then Json data else Data data)
    params (Some 30%Z).

(** The error bodies whose message [_handle_error_response] can read: a
    body that is no dict, a dict without [errorList], or a dict whose
    [errorList] is a dict with an [error] entry that is absent, falsy, a
    dict, or a list that starts with a dict. *)
Definition readable_error (error_data : pyval) : bool :=
  match error_data with
  | PyDict d =>
      match assoc "errorList" d with
      | Some (PyDict error_list) =>
          let errors := default (PyList []) (assoc "error" error_list) in
          if truthy errors then
            match errors with
            | PyList (first :: _) => is_dict first
            | _ => is_dict errors
            end
          else true
      | Some _ => false
      | None => true
      end
  | _ => true
  end.

(** The error of a failure status, with its message and the body. *)
Definition error_of_status (status : Z) (message : string) (error_data : pyval) : exn :=
  if (status =? 401)%Z then AlmaAuthenticationError message (Some status) (Some error_data)
  else if (status =? 429)%Z then AlmaRateLimitError message (Some status) (Some error_data)
  else if (status =? 400)%Z || (status =? 422)%Z
       then AlmaValidationError message (Some status) (Some error_data)
  else AlmaAPIError message (Some status) (Some error_data).

(** The delay before the retry that follows the attempt [retry_count]. *)
Definition backoff_delay (retry_count : nat) : Q :=
  inject_Z (RETRY_DELAY * 2 ^ Z.of_nat retry_count).

(** [k] attempts of [req] that are retried, the first of them numbered
    [retry_count]: each is the request, and then the wait of its number,
    which so comes before the next attempt. *)
Definition retried (req : http_request) (retry_count k : nat) : list event :=
  flat_map (fun i => [Request req; Sleep Backoff (backoff_delay i)]) (seq retry_count k).

(** [s'] is [s] after [k] more attempts of [req] that were retried, the
    first of them numbered [retry_count]: the configuration of the gateway
    and the remote API are the same, [k] more calls were made, all of
    [req], and the retry branch slept [k] more times, for the delays of
    the attempts [retry_count], ..., [retry_count + k - 1]. *)
Definition after_retries (req : http_request) (retry_count k : nat) (s s' : state) : Prop :=
  base_url (fst s') = base_url (fst s)
  /\ headers (fst s') = headers (fst s)
  /\ _rate_limit (fst s') = _rate_limit (fst s)
  /\ environ (snd s') = environ (snd s)
  /\ remote (snd s') = remote (snd s)
  /\ calls (snd s') = (calls (snd s) + k)%nat
  /\ backoffs (trace (snd s')) =
       (backoffs (trace (snd s)) ++ List.map backoff_delay (seq retry_count k))%list
  /\ requests (trace (snd s')) = (requests (trace (snd s)) ++ replicate k req)%list.

(** [s'] is [s] after a call that made [m] requests, all of [req], and
    slept [k] times in the retry branch, the first attempt numbered
    [retry_count]. *)
Definition attempts (req : http_request) (retry_count k m : nat) (s s' : state) : Prop :=
  base_url (fst s') = base_url (fst s)
  /\ headers (fst s') = headers (fst s)
  /\ _rate_limit (fst s') = _rate_limit (fst s)
  /\ environ (snd s') = environ (snd s)
  /\ remote (snd s') = remote (snd s)
  /\ calls (snd s') = (calls (snd s) + m)%nat
  /\ backoffs (trace (snd s')) =
       (backoffs (trace (snd s)) ++ List.map backoff_delay (seq retry_count k))%list
  /\ requests (trace (snd s')) = (requests (trace (snd s)) ++ replicate m req)%list.

(** The caller issues a call when the clock reads [t]; a run of calls. *)
Definition call_at (t : Q) : M state unit :=
  fun s =>
    _enforce_rate_limit
      (fst s, mk_world (environ (snd s)) t (remote (snd s)) (calls (snd s)) (trace (snd s))).

Fixpoint calls_at (ts : list Q) : M state unit :=
  match ts with
  | [] => ret tt
  | t :: ts' => call_at t ;; calls_at ts'
  end.

End BaseAPIClient.


(** ** client.py *)

Module AlmaClient.

(** The [ConfigManager] is the one object the client and its
    [BaseAPIClient] both refer to; the domain clients hold no state. *)
Record t : Type := mk {
  config_manager : ConfigManager.t;
  base_client : BaseAPIClient.t
}.

Definition state : Type := t * world.

Definition set_config_manager (v : ConfigManager.t) (c : t) : t :=
  mk v (base_client c).
Definition set_base_client (v : BaseAPIClient.t) (c : t) : t :=
  mk (config_manager c) v.

(** A method of [self.config_manager]. *)
Definition on_config {A} (m : M ConfigManager.t A) : M state A :=
  zoom (fun s : state => config_manager (fst s))
       (fun c s => (set_config_manager c (fst s), snd s)) m.

(** A method of [self.base_client]. *)
Definition on_base_client {A} (m : M BaseAPIClient.state A) : M state A :=
  zoom (fun s : state => (base_client (fst s), snd s))
       (fun b s => (set_base_client (fst b) (fst s), snd b)) m.

Section Formatting.

Variable py_str : pyval -> string.

Definition test_connection : M state bool :=
  try_except (on_base_client (BaseAPIClient.test_connection py_str))
    is_Exception
    (fun _ => ret false).

Definition switch_environment (environment : string) : M state bool :=
  try_except
    (on_config (ConfigManager.set_environment environment) ;;
     setself (fun self =>
       set_base_client
         (BaseAPIClient.set_headers
            (ConfigManager.get_headers (config_manager self)) (base_client self))
         self) ;;
     setself (fun self =>
       set_base_client
         (BaseAPIClient.set_base_url
            (ConfigManager.get_base_url (config_manager self)) (base_client self))
         self) ;;
     connected <- test_connection ;;
     if connected then ret true else ret false)
    is_Exception
    (fun _ => ret false).

(** [AlmaClient(environment, config_manager)]: the object, or the
    exception its construction ends with, and the world after the
    connection test. *)
Definition __init__ (environment : string) (config_manager : option ConfigManager.t)
    (w : world) : result t * world :=
  let made :=
    match config_manager with
    | Some c => Returns c
    | None => ConfigManager.__init__ None (environ w)
    end in
  match made with
  | Raises e => (Raises e, w)
  | Returns c =>
      match ConfigManager.set_environment environment c with
      | (Raises e, _) => (Raises e, w)
      | (Returns _, c) =>
          match BaseAPIClient.__init__ c with
          | Raises e => (Raises e, w)
          | Returns b =>
              let '(_, (self, w')) := test_connection (mk c b, w) in
              (Returns self, w')
          end
      end
  end.

End Formatting.

Definition get_current_environment (self : t) : option string :=
  ConfigManager.current_environment (config_manager self).

Definition set_rate_limit (requests_per_minute : Z) : M state unit :=
  if (requests_per_minute <=? 0)%Z
  then raise (ValueError "Rate limit must be positive")
  else setself (fun self =>
         set_base_client
           (BaseAPIClient.set_rate_limit requests_per_minute (base_client self)) self).

(** The dict [get_rate_limit_status] returns. *)
Record rate_limit_status : Type := mk_status {
  requests_in_last_minute : Z;
  rate_limit : Z;
  requests_remaining : Z
}.

Definition get_rate_limit_status (self : t) : rate_limit_status :=
  let recorded := Z.of_nat (length (BaseAPIClient._request_times (base_client self))) in
  let limit := BaseAPIClient._rate_limit (base_client self) in
  mk_status recorded limit (Z.max 0 (limit - recorded)).

(** The clients a caller can hold: constructed, then used through the
    methods of the client and the verbs of its base client, while time
    passes. *)
Inductive reachable (py_str : pyval -> string) : state -> Prop :=
| reach_init (environment : string) (config_manager : option ConfigManager.t)
    (w w' : world) (self : t) :
    __init__ py_str environment config_manager w = (Returns self, w') ->
    reachable py_str (self, w')
| reach_switch (s s' : state) (environment : string) (r : result bool) :
    reachable py_str s ->
    switch_environment py_str environment s = (r, s') ->
    reachable py_str s'
| reach_set_rate_limit (s s' : state) (requests_per_minute : Z) (r : result unit) :
    reachable py_str s ->
    set_rate_limit requests_per_minute s = (r, s') ->
    reachable py_str s'
| reach_test_connection (s s' : state) (r : result bool) :
    reachable py_str s ->
    test_connection py_str s = (r, s') ->
    reachable py_str s'
| reach_get (s s' : state) (endpoint : string) (params : option (gmap string string))
    (accept : string) (r : result AlmaResponse.t) :
    reachable py_str s ->
    on_base_client (BaseAPIClient.get py_str endpoint params accept) s = (r, s') ->
    reachable py_str s'
| reach_post (s s' : state) (endpoint : string) (data : pyval) (content_type accept : string)
    (params : option (gmap string string)) (r : result AlmaResponse.t) :
    reachable py_str s ->
    on_base_client (BaseAPIClient.post py_str endpoint data content_type accept params) s
      = (r, s') ->
    reachable py_str s'
| reach_put (s s' : state) (endpoint : string) (data : pyval) (content_type accept : string)
    (params : option (gmap string string)) (r : result AlmaResponse.t) :
    reachable py_str s ->
    on_base_client (BaseAPIClient.put py_str endpoint data content_type accept params) s
      = (r, s') ->
    reachable py_str s'
| reach_delete (s s' : state) (endpoint : string) (params : option (gmap string string))
    (r : result AlmaResponse.t) :
    reachable py_str s ->
    on_base_client (BaseAPIClient.delete py_str endpoint params) s = (r, s') ->
    reachable py_str s'
| reach_wait (s : state) (t : Q) :
    reachable py_str s ->
    reachable py_str
      (fst s, mk_world (environ (snd s)) t (remote (snd s)) (calls (snd s)) (trace (snd s))).

(** The base client passes the validation of its construction, its rate
    limit is positive, and it holds the base URL and the headers of the
    configuration. *)
Definition configured (self : t) : Prop :=
  BaseAPIClient._validate_config (base_client self) = Returns tt
  /\ (0 < BaseAPIClient._rate_limit (base_client self))%Z
  /\ BaseAPIClient.base_url (base_client self) = ConfigManager.base_url (config_manager self)
  /\ BaseAPIClient.headers (base_client self) = ConfigManager.headers (config_manager self).

(** The remote API is unreachable. *)
Definition unreachable (w : world) : Prop :=
  forall i req, exists message, remote w i req = Failure message.

End AlmaClient.


(** ** Text helpers of the callers *)

(** [s.replace(c, new)] for a one-character [c]. *)
Fixpoint replace_char (c : ascii) (new : string) (s : string) : string :=
  match s with
  | EmptyString => EmptyString
  | String a s' =>
      if Ascii.eqb a c then new ++ replace_char c new s'
      else String a (replace_char c new s')
  end.

(** Text is held in its UTF-8 encoding.  The white space [str.strip()]
    removes: U+0009 to U+000D, U+001C to U+0020, which are one byte each,
    and U+0085, U+00A0, U+1680, U+2000 to U+200A, U+2028, U+2029, U+202F,
    U+205F and U+3000, which are two or three. *)
Definition is_space (c : ascii) : bool :=
  let n := nat_of_ascii c in
  ((9 <=? n)%nat && (n <=? 13)%nat) || ((28 <=? n)%nat && (n <=? 32)%nat).

(** U+0085 is C2 85 and U+00A0 is C2 A0. *)
Definition is_space2 (a b : ascii) : bool :=
  let x := nat_of_ascii a in
  let y := nat_of_ascii b in
  (x =? 194)%nat && ((y =? 133)%nat || (y =? 160)%nat).

(** U+1680 is E1 9A 80; U+2000 to U+200A are E2 80 80 to E2 80 8A, U+2028
    is E2 80 A8, U+2029 is E2 80 A9 and U+202F is E2 80 AF; U+205F is
    E2 81 9F; U+3000 is E3 80 80. *)
Definition is_space3 (a b c : ascii) : bool :=
  let x := nat_of_ascii a in
  let y := nat_of_ascii b in
  let z := nat_of_ascii c in
  ((x =? 225)%nat && (y =? 154)%nat && (z =? 128)%nat)
  || ((x =? 226)%nat && (y =? 128)%nat
      && (((128 <=? z)%nat && (z <=? 138)%nat)
          || (z =? 168)%nat || (z =? 169)%nat || (z =? 175)%nat))
  || ((x =? 226)%nat && (y =? 129)%nat && (z =? 159)%nat)
  || ((x =? 227)%nat && (y =? 128)%nat && (z =? 128)%nat).

(** The number of bytes of the white-space character the text starts
    with, 0 when it starts with none. *)
Definition space_width (s : string) : nat :=
  match s with
  | String a r =>
      if is_space a then 1
      else
        match r with
        | String b r' =>
            if is_space2 a b then 2
            else
              match r' with
              | String c _ => if is_space3 a b c then 3 else 0
              | EmptyString => 0
              end
        | EmptyString => 0
        end
  | EmptyString => 0
  end.

(** [s.lstrip()]. *)
Fixpoint lstrip (s : string) : string :=
  match s with
  | EmptyString => EmptyString
  | String _ r1 =>
      match space_width s with
      | 1 => lstrip r1
      | 2 => match r1 with
             | String _ r2 => lstrip r2
             | EmptyString => s
             end
      | 3 => match r1 with
             | String _ (String _ r3) => lstrip r3
             | _ => s
             end
      | _ => s
      end
  end.

(** The text is nothing but white space. *)
Fixpoint all_space (s : string) : bool :=
  match s with
  | EmptyString => true
  | String _ r1 =>
      match space_width s with
      | 1 => all_space r1
      | 2 => match r1 with
             | String _ r2 => all_space r2
             | EmptyString => false
             end
      | 3 => match r1 with
             | String _ (String _ r3) => all_space r3
             | _ => false
             end
      | _ => false
      end
  end.

(** [s.rstrip()]: the text up to the white space it ends with. *)
Fixpoint rstrip (s : string) : string :=
  if all_space s then EmptyString
  else
    match s with
    | EmptyString => EmptyString
    | String c s' => String c (rstrip s')
    end.

(** [s.strip()]. *)
Definition strip (s : string) : string := rstrip (lstrip s).

(** [s.split(sep)[-1]] for a non-empty [sep]: the text after the last of
    the occurrences of [sep] that a scan from the left finds, the whole
    of [s] when there is none.  [skip] counts the characters of an
    occurrence still to pass over. *)
Fixpoint last_piece_from (sep : string) (skip : nat) (s last : string) : string :=
  match s with
  | EmptyString => last
  | String _ s' =>
      match skip with
      | S k => last_piece_from sep k s' last
      | O =>
          if String.prefix sep s
          then last_piece_from sep (String.length sep - 1) s'
                 (String.substring (String.length sep) (String.length s) s)
          else last_piece_from sep 0 s' last
      end
  end.

Definition split_last (sep s : string) : string := last_piece_from sep 0 s s.

(** [c in s], and: an occurrence of [sep] in [p ++ rest] begins in [p]. *)
Fixpoint occurs (c : ascii) (s : string) : bool :=
  match s with
  | EmptyString => false
  | String a s' => Ascii.eqb a c || occurs c s'
  end.

Fixpoint begins_in (sep p rest : string) : bool :=
  match p with
  | EmptyString => false
  | String _ p' => String.prefix sep (p ++ rest) || begins_in sep p' rest
  end.

(** ** domains/bibs.py *)

Module BibliographicRecords.

(** The object holds the [BaseAPIClient] it was given: its methods run on
    the state of that client. *)
Definition state : Type := BaseAPIClient.state.

(** [ord(char) >= 32 or char in '\n\t\r']: in UTF-8 the bytes below 128
    are the characters below U+0080, and every byte of another character
    is 128 or above, so the test is made byte by byte. *)
Definition keeps (c : ascii) : bool :=
  let n := nat_of_ascii c in
  (32 <=? n)%nat || (n =? 10)%nat || (n =? 9)%nat || (n =? 13)%nat.

Fixpoint keep_printable (s : string) : string :=
  match s with
  | EmptyString => EmptyString
  | String c s' => if keeps c then String c (keep_printable s') else keep_printable s'
  end.

(** The double quote. *)
Definition dquote : ascii := ascii_of_nat 34.

(** The five [replace] calls, in the order of the source. *)
Definition escape (s : string) : string :=
  replace_char "'" "&apos;"
    (replace_char dquote "&quot;"
       (replace_char ">" "&gt;"
          (replace_char "<" "&lt;"
             (replace_char "&" "&amp;" s)))).

Definition _sanitize_xml_text (text : string) : string :=
  if text =? "" then ""
  else strip (escape (keep_printable text)).

(** The entity a character is written as in XML text, and the text
    escaped in one pass, character by character. *)
Definition entity (c : ascii) : string :=
  if Ascii.eqb c "&" then "&amp;"
  else if Ascii.eqb c "<" then "&lt;"
  else if Ascii.eqb c ">" then "&gt;"
  else if Ascii.eqb c dquote then "&quot;"
  else if Ascii.eqb c "'" then "&apos;"
  else String c EmptyString.

Fixpoint escape_once (s : string) : string :=
  match s with
  | EmptyString => EmptyString
  | String c s' => entity c ++ escape_once s'
  end.

(** The characters [_sanitize_xml_text] takes out or writes as an
    entity, the ampersand apart, which starts an entity: those with a
    code below 32 other than tab, newline and carriage return, and [<],
    [>], the double quote and the apostrophe. *)
Definition unsafe (c : ascii) : bool :=
  negb (keeps c) || Ascii.eqb c "<" || Ascii.eqb c ">" || Ascii.eqb c dquote
  || Ascii.eqb c "'".

Section Formatting.

Variable py_str : pyval -> string.

Definition get_record (mms_id view : string) (expand : option string)
    : M state AlmaResponse.t :=
  if mms_id =? "" then raise (AlmaValidationError "MMS ID is required" None None)
  else
    let params : gmap string string := <["view" := view]> ∅ in
    let params :=
      if truthy_opt expand then <["expand" := fmt_opt expand]> params else params in
    let endpoint := "almaws/v1/bibs/" ++ mms_id in
    BaseAPIClient.get py_str endpoint (Some params) "json".

Definition search_records (q : string) (limit offset : Z) (order_by : option string)
    (direction : string) : M state AlmaResponse.t :=
  if q =? "" then raise (AlmaValidationError "Search query is required" None None)
  else if (100 <? limit)%Z then
    raise (AlmaValidationError "Limit cannot exceed 100" None None)
  else
    let params : gmap string string :=
      <["q" := q]>
        (<["limit" := py_str (PyInt limit)]>
           (<["offset" := py_str (PyInt offset)]>
              (<["order_by" := if truthy_opt order_by then fmt_opt order_by else "mms_id"]>
                 (<["direction" := direction]> ∅)))) in
    BaseAPIClient.get py_str "almaws/v1/bibs" (Some params) "json".

Definition delete_record (mms_id : string) (override_attached_items : bool)
    : M state AlmaResponse.t :=
  if mms_id =? "" then raise (AlmaValidationError "MMS ID is required" None None)
  else
    let params : gmap string string :=
      if override_attached_items then <["override" := "attached_items"]> ∅ else ∅ in
    let endpoint := "almaws/v1/bibs/" ++ mms_id in
    BaseAPIClient.delete py_str endpoint (Some params).

End Formatting.

End BibliographicRecords.

(** ** src/domains/admin.py *)

Module Admin.

(** The object holds the [AlmaAPIClient] it was given: its methods run on
    the state of that client. *)
Definition state : Type := AlmaAPIClient.state.

(** [v.get(k, dflt)]: only a dict has the method. *)
Definition py_get (v : pyval) (k : string) (dflt : pyval) : M state pyval :=
  match v with
  | PyDict d => ret (default dflt (assoc k d))
  | _ => raise (AttributeError "object has no attribute 'get'")
  end.

(** [for member in members]: the items of a list, the characters of a
    string; a dict is wrapped by the caller, and nothing else iterates. *)
Definition iterate (v : pyval) : M state (list pyval) :=
  match v with
  | PyList l => ret l
  | PyStr s => ret (List.map (fun c => PyStr (String c EmptyString)) (list_ascii_of_string s))
  | PyDict d => ret (List.map (fun kv => PyStr (fst kv)) d)
  | _ => raise (TypeError "object is not iterable")
  end.

(** One turn of the loop of [_extract_mms_ids_from_members]: the link of
    the member, and the text after [/bibs/] when both are not empty; a
    link that is no string is skipped by the [except] of the loop. *)
Definition extract_one (member : pyval) : M state (list string) :=
  link <- py_get member "link" (PyStr "") ;;
  if truthy link then
    match link with
    | PyStr l =>
        let mms_id := split_last "/bibs/" l in
        if mms_id =? "" then ret [] else ret [mms_id]
    | _ => ret []
    end
  else ret [].

Fixpoint _extract_mms_ids_from_members (members : list pyval) : M state (list string) :=
  match members with
  | [] => ret []
  | member :: rest =>
      ids <- extract_one member ;;
      more <- _extract_mms_ids_from_members rest ;;
      ret (ids ++ more)%list
  end.

Definition _get_set_info (set_id : string) : M state pyval :=
  let endpoint := "almaws/v1/conf/sets/" ++ set_id in
  response <- AlmaAPIClient.get endpoint None None ;;
  Response.raise_for_status response ;;
  Response.json response.

(** The request for the description of a set, as the gateway sends
    it. *)
Definition info_request (self : AlmaAPIClient.t) (set_id : string) : http_request :=
  mk_request "GET" (AlmaAPIClient.base_url self ++ "/almaws/v1/conf/sets/" ++ set_id)
    (AlmaAPIClient.default_headers self) NoBody None None.

Section Formatting.

Variable py_str : pyval -> string.

Definition _get_set_members_page (set_id : string) (offset limit : Z) : M state pyval :=
  let endpoint := "almaws/v1/conf/sets/" ++ set_id ++ "/members" in
  let params : gmap string string :=
    <["limit" := py_str (PyInt limit)]> (<["offset" := py_str (PyInt offset)]> ∅) in
  response <- AlmaAPIClient.get endpoint (Some params) None ;;
  Response.raise_for_status response ;;
  Response.json response.

(** The request for the page of members that starts at an offset, as the
    gateway sends it. *)
Definition page_request (self : AlmaAPIClient.t) (set_id : string) (offset : Z)
    : http_request :=
  mk_request "GET"
    (AlmaAPIClient.base_url self ++ "/almaws/v1/conf/sets/" ++ set_id ++ "/members")
    (AlmaAPIClient.default_headers self) NoBody
    (Some (<["limit" := py_str (PyInt 100)]> (<["offset" := py_str (PyInt offset)]> ∅)))
    None.

(** [range(0, total, 100)]. *)
Definition page_offsets (total : Z) : list Z :=
  List.map (fun i => (100 * Z.of_nat i)%Z) (seq 0 (Z.to_nat ((total + 99) / 100))).

(** The body of the loop over the pages. *)
Definition one_page (set_id : string) (offset : Z) : M state (list string) :=
  members_response <- _get_set_members_page set_id offset 100 ;;
  members <- py_get members_response "member" (PyList []) ;;
  members <- (if is_dict members then ret [members] else iterate members) ;;
  _extract_mms_ids_from_members members.

Fixpoint all_pages (set_id : string) (offsets : list Z) (all_mms_ids : list string)
    : M state (list string) :=
  match offsets with
  | [] => ret all_mms_ids
  | offset :: rest =>
      page_mms_ids <- one_page set_id offset ;;
      all_pages set_id rest (all_mms_ids ++ page_mms_ids)%list
  end.

(** [total_members == 0]. *)
Definition is_zero (v : pyval) : bool :=
  match v with
  | PyInt n => (n =? 0)%Z
  | PyFloat x => Qeq_bool x 0
  | PyBool b => negb b
  | _ => false
  end.

(** The integer [range] takes a value for. *)
Definition as_index (v : pyval) : M state Z :=
  match v with
  | PyInt n => ret n
  | PyBool b => ret (if b then 1 else 0)%Z
  | _ => raise (TypeError "object cannot be interpreted as an integer")
  end.

(** The [except Exception] of [get_set_members] prints and raises again:
    it changes nothing. *)
Definition get_set_members (set_id : string) : M state (list string) :=
  if set_id =? "" then raise (ValueError "Set ID is required")
  else
    set_info <- _get_set_info set_id ;;
    content <- py_get set_info "content" (PyDict []) ;;
    content_type <- py_get content "value" (PyStr "") ;;
    match content_type with
    | PyStr "BIB_MMS" =>
        number <- py_get set_info "number_of_members" (PyDict []) ;;
        total_members <- py_get number "value" (PyInt 0) ;;
        if is_zero total_members then ret []
        else
          total <- as_index total_members ;;
          all_pages set_id (page_offsets total) []
    | _ =>
        raise (ValueError ("Invalid set type: expected 'BIB_MMS', found '"
                           ++ py_str content_type ++ "'"))
    end.

End Formatting.

End Admin.

(** ** Sample inputs *)

Module Samples.

Definition full_environ : gmap string string :=
  list_to_map
    [ ("ALMA_SB_API_KEY", "sb-key"); ("ALMA_PROD_API_KEY", "prod-key");
      ("AWS_ACCESS_KEY", "access"); ("AWS_SECRET", "secret");
      ("ALMA_SB_BUCKET_NAME", "sb-bucket"); ("ALMA_PROD_BUCKET_NAME", "prod-bucket") ].

(** Only the sandbox key and the storage settings are set. *)
Definition sandbox_only_environ : gmap string string :=
  delete "ALMA_PROD_API_KEY" full_environ.

Definition json_reply (status : Z) (v : pyval) : reply :=
  Reply (Response.mk status [("Content-Type", "application/json;charset=UTF-8")] "" (Some v)).

(** A remote API that answers every call with 200 and an empty object. *)
Definition remote_ok : nat -> http_request -> reply :=
  fun _ _ => json_reply 200 (PyDict []).

Definition world_of (environ : gmap string string) (remote : nat -> http_request -> reply)
    : world :=
  mk_world environ 0 remote 0 [].

(** A rendering of values for the sample runs: exact on strings and
    integers. *)
Definition str_of (v : pyval) : string :=
  match v with
  | PyStr s => s
  | PyInt n => pretty n
  | PyNone => "None"
  | PyBool true => "True"
  | PyBool false => "False"
  | PyFloat _ => "<float>"
  | PyList _ => "<list>"
  | PyDict _ => "<dict>"
  end.

(** The manager constructed from the full configuration. *)
Definition config0 : ConfigManager.t :=
  ConfigManager.set_loaded (ConfigManager.blank full_environ).

Definition world0 : world := world_of full_environ remote_ok.

(** A world in which the production key is missing, and the sandbox
    gateway constructed in it. *)
Definition world_sandbox_only : world := world_of sandbox_only_environ remote_ok.

Definition gateway_sandbox : AlmaAPIClient.t :=
  AlmaAPIClient.mk "SANDBOX" (Some "sb-key") AlmaAPIClient.URL
    (AlmaAPIClient.headers_of (Some "sb-key")).

(** The client [AlmaClient('PROD')] constructs in [world0], and the
    world after its connection test. *)
Definition config_prod : ConfigManager.t :=
  snd (ConfigManager.set_environment "PROD" config0).

Definition client_prod : AlmaClient.t :=
  AlmaClient.mk config_prod
    (BaseAPIClient.mk (ConfigManager.base_url config_prod)
       (ConfigManager.headers config_prod) [0%Q] BaseAPIClient.DEFAULT_RATE_LIMIT).

Definition world1 : world := snd (AlmaClient.__init__ str_of "PROD" None world0).

(** A fresh base client for the production environment, and the same
    with a limit of two requests a minute. *)
Definition base_prod : BaseAPIClient.t :=
  BaseAPIClient.mk (ConfigManager.base_url config_prod)
    (ConfigManager.headers config_prod) [] BaseAPIClient.DEFAULT_RATE_LIMIT.

Definition base_limit2 : BaseAPIClient.t := BaseAPIClient.set_rate_limit 2 base_prod.

Definition bib_url : string :=
  "https://api-eu.hosted.exlibrisgroup.com/almaws/v1/bibs/991000000000541".

(** A remote API that answers with the statuses of a list, one a call,
    then with 200. *)
Definition remote_statuses (statuses : list Z) : nat -> http_request -> reply :=
  fun n _ => json_reply (nth n statuses 200%Z) (PyDict []).



(** A [json.loads] and a [json.dumps] that know the empty documents, for
    the sample runs. *)
Definition loads_empty (s : string) : option pyval :=
  if s =? "{}" then Some (PyDict [])
  else if s =? "[]" then Some (PyList [])
  else if s =? "null" then Some PyNone
  else None.

Definition dumps_empty (v : pyval) : string :=
  match v with
  | PyDict [] => "{}"
  | PyList [] => "[]"
  | _ => "null"
  end.

(** A plain-text response. *)
Definition plain_text : Response.t :=
  Response.mk 200 [("Content-Type", "text/plain")] "pong" None.

(** A JSON response with one field. *)
Definition json_count : Response.t :=
  Response.mk 200 [("content-type", "application/json;charset=UTF-8")] ""
    (Some (PyDict [("total_record_count", PyInt 3)])).

(** The sandbox gateway facing a remote API that answers 404, and one
    that is unreachable. *)
Definition sandbox_facing_404 : AlmaAPIClient.state :=
  (gateway_sandbox, world_of full_environ (remote_statuses [404%Z])).

(** A remote API that is unreachable. *)
Definition remote_down : nat -> http_request -> reply :=
  fun _ _ => Failure "Connection refused".

(** A remote API that answers 401 with an [errorList] that is a list. *)
Definition remote_odd_error : nat -> http_request -> reply :=
  fun _ _ => json_reply 401 (PyDict [("errorList", PyList [])]).

(** The production client facing a remote API that answers in turn with
    the statuses of a list. *)
Definition facing (statuses : list Z) : BaseAPIClient.state :=
  (base_prod, world_of full_environ (remote_statuses statuses)).

Definition json_request_headers : gmap string string :=
  <["Accept" := "application/json"]>
    (<["Content-Type" := "application/json;charset=utf-8"]>
       (ConfigManager.json_headers (Some "prod-key"))).

Definition sandbox_facing_outage : AlmaAPIClient.state :=
  (gateway_sandbox, world_of full_environ remote_down).

Definition bib_request : http_request :=
  BaseAPIClient.request_of "GET" bib_url json_request_headers PyNone None.

(** The description of a set of bibliographic records with [total]
    members, a page of members with the links of the records of a list,
    and a remote API that answers with the description of a set of 150
    and then with its two pages. *)
Definition set_info_reply (total : Z) : Response.t :=
  Response.mk 200 [("Content-Type", "application/json;charset=UTF-8")] ""
    (Some (PyDict [("content", PyDict [("value", PyStr "BIB_MMS")]);
                   ("number_of_members", PyDict [("value", PyInt total)])])).

Definition member_of (id : string) : pyval :=
  PyDict [("id", PyStr id);
          ("link", PyStr ("https://api-eu.hosted.exlibrisgroup.com/almaws/v1/bibs/" ++ id))].

Definition member_page (ids : list string) : Response.t :=
  Response.mk 200 [("Content-Type", "application/json;charset=UTF-8")] ""
    (Some (PyDict [("member", PyList (List.map member_of ids))])).

Definition remote_set : nat -> http_request -> reply :=
  fun n _ =>
    match n with
    | 0 => Reply (set_info_reply 150)
    | 1 => Reply (member_page ["991"; "992"])
    | _ => Reply (member_page ["993"])
    end.

End Samples.

(** * Properties *)

Lemma bind_returns {St A B} (m : M St A) (k : A -> M St B) s a s' :
  m s = (Returns a, s') -> bind m k s = k a s'.
Proof. intros H. unfold bind. rewrite H. reflexivity. Qed.

Lemma bind_raises {St A B} (m : M St A) (k : A -> M St B) s e s' :
  m s = (Raises e, s') -> bind m k s = (Raises e, s').
Proof. intros H. unfold bind. rewrite H. reflexivity. Qed.

Lemma bind_assoc {St A B C} (m : M St A) (k : A -> M St B) (h : B -> M St C) s :
  bind (bind m k) h s = bind m (fun a => bind (k a) h) s.
Proof. unfold bind. destruct (m s) as [[a | e] s']; reflexivity. Qed.

Lemma bind_ext {St A B} (m : M St A) (k1 k2 : A -> M St B) s :
  (forall a s', k1 a s' = k2 a s') -> bind m k1 s = bind m k2 s.
Proof. intros H. unfold bind. destruct (m s) as [[a | e] s']; [apply H | reflexivity]. Qed.

Lemma bind_ret_r {St} (m : M St unit) s : bind m (fun _ => ret tt) s = m s.
Proof. unfold bind, ret. destruct (m s) as [[[] | e] s']; reflexivity. Qed.

Lemma steady_ret {St A} (a : A) : steady (@ret St A a).
Proof. intros st. left. eexists. reflexivity. Qed.

Lemma steady_raise {St A} (e : exn) :
  is_RequestException e = false -> steady (@raise St A e).
Proof. intros H st. right. eexists. split; [reflexivity | exact H]. Qed.

Lemma steady_bind {St A B} (m : M St A) (k : A -> M St B) :
  steady m -> (forall a, steady (k a)) -> steady (bind m k).
Proof.
  intros Hm Hk st. unfold bind.
  destruct (Hm st) as [[a Ha] | [e [He Hne]]]; rewrite ?Ha, ?He.
  - apply Hk.
  - right. eauto.
Qed.

Lemma raising_raise {St A} (e : exn) :
  is_RequestException e = false -> raising (@raise St A e).
Proof. intros H st. eexists. split; [reflexivity | exact H]. Qed.

Lemma raising_bind {St A B} (m : M St A) (k : A -> M St B) :
  steady m -> (forall a, raising (k a)) -> raising (bind m k).
Proof.
  intros Hm Hk st. unfold bind.
  destruct (Hm st) as [[a Ha] | [e [He Hne]]]; rewrite ?Ha, ?He.
  - apply Hk.
  - eauto.
Qed.

Lemma eqb_string_false (a b : string) : a <> b -> (a =? b) = false.
Proof. apply String.eqb_neq. Qed.

(** ** Construction of the configuration *)

Module ConfigManagerFacts.
Import ConfigManager.

Lemma missing_vars_spec (e : gmap string string) (var : string) :
  var ∈ filter (fun v => e !! v = None) REQUIRED_ENV_VARS
  <-> var ∈ REQUIRED_ENV_VARS /\ e !! var = None.
Proof. rewrite list_elem_of_filter. tauto. Qed.

Lemma init_missing (e : option (gmap string string)) (os_environ : gmap string string) :
  filter (fun v => env_or e os_environ !! v = None) REQUIRED_ENV_VARS <> [] ->
  __init__ e os_environ =
    Raises (EnvironmentError
              ("Missing required environment variables: "
               ++ String.concat ", "
                    (filter (fun v => env_or e os_environ !! v = None) REQUIRED_ENV_VARS))).
Proof.
  intros Hne. unfold __init__, load_env_variables, bind, get. cbn [blank env].
  destruct (filter _ REQUIRED_ENV_VARS) as [|v l]; [congruence | reflexivity].
Qed.

Lemma init_complete (e : option (gmap string string)) (os_environ : gmap string string) :
  filter (fun v => env_or e os_environ !! v = None) REQUIRED_ENV_VARS = [] ->
  __init__ e os_environ = Returns (set_loaded (blank (env_or e os_environ))).
Proof.
  intros Hnil. unfold __init__, load_env_variables, bind, get. cbn [blank env].
  rewrite Hnil. reflexivity.
Qed.

(** C7.  When a required variable is absent from the configuration,
    constructing the [ConfigManager] raises [EnvironmentError], at once and
    in one evaluation, and the message lists the absent names: all of
    them, and only them.  When every required variable is present the
    construction returns the object, and its six settings are the values
    of the configuration.  The error of the configuration is the error of
    the client: [AlmaClient], constructing its own [ConfigManager], ends
    with it and sends nothing. *)
Theorem load_env_variables_fails_fast
    (e : option (gmap string string)) (os_environ : gmap string string) :
  let cfg := env_or e os_environ in
  ((exists var, var ∈ REQUIRED_ENV_VARS /\ cfg !! var = None) ->
   exists missing_vars,
     __init__ e os_environ =
       Raises (EnvironmentError
                 ("Missing required environment variables: "
                  ++ String.concat ", " missing_vars))
     /\ missing_vars <> []
     /\ forall var, var ∈ missing_vars <-> var ∈ REQUIRED_ENV_VARS /\ cfg !! var = None)
  /\
  ((forall var, var ∈ REQUIRED_ENV_VARS -> is_Some (cfg !! var)) ->
   exists self,
     __init__ e os_environ = Returns self
     /\ api_key_sb self = cfg !! "ALMA_SB_API_KEY"
     /\ api_key_prod self = cfg !! "ALMA_PROD_API_KEY"
     /\ aws_access_key self = cfg !! "AWS_ACCESS_KEY"
     /\ aws_secret_key self = cfg !! "AWS_SECRET"
     /\ sb_bucket_name self = cfg !! "ALMA_SB_BUCKET_NAME"
     /\ prod_bucket_name self = cfg !! "ALMA_PROD_BUCKET_NAME")
  /\
  (forall (py_str : pyval -> string) (environment : string) (w : world) (err : exn),
     __init__ None (environ w) = Raises err ->
     AlmaClient.__init__ py_str environment None w = (Raises err, w)).
Proof.
  intros cfg. split; [| split].
  - intros [var [Hreq Habs]].
    assert (Hin : var ∈ filter (fun v => cfg !! v = None) REQUIRED_ENV_VARS)
      by (apply missing_vars_spec; auto).
    assert (Hne : filter (fun v => cfg !! v = None) REQUIRED_ENV_VARS <> []).
    { intros Hnil. rewrite Hnil in Hin. inversion Hin. }
    exists (filter (fun v => cfg !! v = None) REQUIRED_ENV_VARS).
    split; [apply init_missing; exact Hne |].
    split; [exact Hne |]. intros v. apply missing_vars_spec.
  - intros Hall.
    assert (Hnil : filter (fun v => cfg !! v = None) REQUIRED_ENV_VARS = []).
    { destruct (filter _ REQUIRED_ENV_VARS) as [|v l] eqn:Hf; [reflexivity |].
      assert (Hin : v ∈ filter (fun v => cfg !! v = None) REQUIRED_ENV_VARS)
        by (rewrite Hf; left).
      apply missing_vars_spec in Hin. destruct Hin as [Hreq Habs].
      destruct (Hall v Hreq) as [x Hx]. congruence. }
    exists (set_loaded (blank cfg)).
    split; [apply init_complete; exact Hnil |].
    repeat split.
  - intros py_str environment w err Hinit.
    unfold AlmaClient.__init__. rewrite Hinit. reflexivity.
Qed.

Lemma load_env_variables_fails_fast_witness :
  (exists missing_vars,
     __init__ (Some Samples.sandbox_only_environ) ∅ =
       Raises (EnvironmentError
                 ("Missing required environment variables: "
                  ++ String.concat ", " missing_vars))
     /\ missing_vars <> []
     /\ forall var, var ∈ missing_vars <->
          var ∈ REQUIRED_ENV_VARS
          /\ env_or (Some Samples.sandbox_only_environ) ∅ !! var = None)
  /\
  (exists self,
     __init__ None Samples.full_environ = Returns self
     /\ api_key_sb self = Some "sb-key"
     /\ api_key_prod self = Some "prod-key")
  /\
  AlmaClient.__init__ Samples.str_of "PROD" None Samples.world_sandbox_only
  = (Raises (EnvironmentError
               "Missing required environment variables: ALMA_PROD_API_KEY"),
     Samples.world_sandbox_only).
Proof.
  split; [| split].
  - apply (proj1 (load_env_variables_fails_fast (Some Samples.sandbox_only_environ) ∅)).
    exists "ALMA_PROD_API_KEY". split; [| reflexivity].
    apply list_elem_of_In. simpl. tauto.
  - destruct (proj1 (proj2 (load_env_variables_fails_fast None Samples.full_environ)))
      as [self [Hinit [Hsb [Hprod _]]]].
    + intros var Hvar. apply list_elem_of_In in Hvar. simpl in Hvar.
      destruct Hvar as [<- | [<- | [<- | [<- | [<- | [<- | []]]]]]];
        vm_compute; eauto.
    + exists self. split; [exact Hinit |]. split; [rewrite Hsb | rewrite Hprod]; reflexivity.
  - apply (proj2 (proj2 (load_env_variables_fails_fast None ∅))).
    vm_compute. reflexivity.
Defined.

End ConfigManagerFacts.

(** ** Environment resolution *)

Module ResolutionFacts.

Lemma alma_init_sandbox (w : world) (environment key : string) :
  upper environment = "SANDBOX" ->
  environ w !! "ALMA_SB_API_KEY" = Some key ->
  key <> "" ->
  AlmaAPIClient.__init__ environment w =
    Returns (AlmaAPIClient.mk "SANDBOX" (Some key) AlmaAPIClient.URL
               (AlmaAPIClient.headers_of (Some key))).
Proof.
  intros Hup Hkey Hne.
  unfold AlmaAPIClient.__init__, AlmaAPIClient._load_configuration,
    AlmaAPIClient._setup_headers, bind, getself, setself, getenv, raise, ret.
  rewrite Hup. cbn. rewrite Hkey. cbn.
  rewrite (eqb_string_false key "" Hne). reflexivity.
Qed.

Lemma alma_init_production (w : world) (environment key : string) :
  upper environment = "PRODUCTION" ->
  environ w !! "ALMA_PROD_API_KEY" = Some key ->
  key <> "" ->
  AlmaAPIClient.__init__ environment w =
    Returns (AlmaAPIClient.mk "PRODUCTION" (Some key) AlmaAPIClient.URL
               (AlmaAPIClient.headers_of (Some key))).
Proof.
  intros Hup Hkey Hne.
  unfold AlmaAPIClient.__init__, AlmaAPIClient._load_configuration,
    AlmaAPIClient._setup_headers, bind, getself, setself, getenv, raise, ret.
  rewrite Hup. cbn. rewrite Hkey. cbn.
  rewrite (eqb_string_false key "" Hne). reflexivity.
Qed.

Lemma alma_init_unknown (w : world) (environment : string) :
  upper environment <> "SANDBOX" ->
  upper environment <> "PRODUCTION" ->
  AlmaAPIClient.__init__ environment w =
    Raises (ValueError "Environment must be 'SANDBOX' or 'PRODUCTION'").
Proof.
  intros H1 H2.
  unfold AlmaAPIClient.__init__, AlmaAPIClient._load_configuration,
    AlmaAPIClient._setup_headers, bind, getself, setself, getenv, raise, ret.
  cbn. rewrite (eqb_string_false _ _ H1), (eqb_string_false _ _ H2). reflexivity.
Qed.

Lemma set_environment_sb (c : ConfigManager.t) (environment : string) :
  upper environment = "SB" ->
  ConfigManager.set_environment environment c =
    (Returns tt,
     ConfigManager.set_headers_field
       (Some (ConfigManager.json_headers (ConfigManager.api_key_sb c)))
       (ConfigManager.set_current_environment (Some "SB") c)).
Proof.
  intros Hup.
  unfold ConfigManager.set_environment, ConfigManager.set_headers, bind, modify, get.
  rewrite Hup. reflexivity.
Qed.

Lemma set_environment_prod (c : ConfigManager.t) (environment : string) :
  upper environment = "PROD" ->
  ConfigManager.set_environment environment c =
    (Returns tt,
     ConfigManager.set_headers_field
       (Some (ConfigManager.json_headers (ConfigManager.api_key_prod c)))
       (ConfigManager.set_current_environment (Some "PROD") c)).
Proof.
  intros Hup.
  unfold ConfigManager.set_environment, ConfigManager.set_headers, bind, modify, get.
  rewrite Hup. reflexivity.
Qed.

Lemma set_environment_unknown (c : ConfigManager.t) (environment : string) :
  upper environment <> "SB" ->
  upper environment <> "PROD" ->
  ConfigManager.set_environment environment c =
    (Raises (ValueError ("Invalid environment: " ++ upper environment)),
     ConfigManager.set_current_environment (Some (upper environment)) c).
Proof.
  intros H1 H2.
  unfold ConfigManager.set_environment, ConfigManager.set_headers, bind, modify, get, raise.
  cbn. rewrite (eqb_string_false _ _ H1), (eqb_string_false _ _ H2). reflexivity.
Qed.

Lemma init_loaded (e : option (gmap string string)) (os_environ : gmap string string)
    (c : ConfigManager.t) :
  ConfigManager.__init__ e os_environ = Returns c ->
  c = ConfigManager.set_loaded (ConfigManager.blank (ConfigManager.env_or e os_environ))
  /\ forall var, var ∈ ConfigManager.REQUIRED_ENV_VARS ->
       is_Some (ConfigManager.env_or e os_environ !! var).
Proof.
  intros Hinit.
  destruct (filter (fun v => ConfigManager.env_or e os_environ !! v = None)
              ConfigManager.REQUIRED_ENV_VARS) as [|v l] eqn:Hf.
  - rewrite (ConfigManagerFacts.init_complete _ _ Hf) in Hinit.
    split; [congruence |].
    intros var Hvar.
    destruct (ConfigManager.env_or e os_environ !! var) eqn:Hlook; [eauto |].
    assert (Hin : var ∈ filter (fun v => ConfigManager.env_or e os_environ !! v = None)
                          ConfigManager.REQUIRED_ENV_VARS)
      by (apply ConfigManagerFacts.missing_vars_spec; auto).
    rewrite Hf in Hin. inversion Hin.
  - rewrite ConfigManagerFacts.init_missing in Hinit by (rewrite Hf; discriminate).
    discriminate.
Qed.

(** C2, as the code has it.  Each of the two resolvers has a vocabulary of
    its own, matched without regard to case.  [AlmaAPIClient] resolves
    SANDBOX and PRODUCTION, in any mix of upper and lower case: when the
    key of the environment is stored and not empty, construction selects
    it and builds the authorization header from it; every other name
    written in ASCII raises [ValueError].  [ConfigManager.set_environment]
    resolves SB and PROD, in any mix of upper and lower case: on a
    constructed manager it selects the stored key of the environment and
    builds the authorization header from it; every other name written in
    ASCII raises [ValueError]. *)
Theorem resolution_per_resolver :
  (forall (w : world) (environment key : string),
     key <> "" ->
     (upper environment = "SANDBOX" /\ environ w !! "ALMA_SB_API_KEY" = Some key)
     \/ (upper environment = "PRODUCTION" /\ environ w !! "ALMA_PROD_API_KEY" = Some key) ->
     exists self,
       AlmaAPIClient.__init__ environment w = Returns self
       /\ AlmaAPIClient.environment self = upper environment
       /\ AlmaAPIClient.api_key self = Some key
       /\ AlmaAPIClient.default_headers self !! "Authorization" = Some ("apikey " ++ key))
  /\
  (forall (w : world) (environment : string),
     is_ascii environment = true ->
     upper environment <> "SANDBOX" ->
     upper environment <> "PRODUCTION" ->
     AlmaAPIClient.__init__ environment w =
       Raises (ValueError "Environment must be 'SANDBOX' or 'PRODUCTION'"))
  /\
  (forall (e : option (gmap string string)) (os_environ : gmap string string)
          (c : ConfigManager.t) (environment : string),
     ConfigManager.__init__ e os_environ = Returns c ->
     upper environment = "SB" \/ upper environment = "PROD" ->
     exists key c',
       ConfigManager.env_or e os_environ
         !! (if upper environment =? "SB" then "ALMA_SB_API_KEY" else "ALMA_PROD_API_KEY")
       = Some key
       /\ ConfigManager.set_environment environment c = (Returns tt, c')
       /\ ConfigManager.current_environment c' = Some (upper environment)
       /\ ConfigManager.get_api_key c' = Some key
       /\ exists h, ConfigManager.get_headers c' = Some h
                    /\ h !! "authorization" = Some ("apikey " ++ key))
  /\
  (forall (c : ConfigManager.t) (environment : string),
     is_ascii environment = true ->
     upper environment <> "SB" ->
     upper environment <> "PROD" ->
     fst (ConfigManager.set_environment environment c) =
       Raises (ValueError ("Invalid environment: " ++ upper environment))).
Proof.
  split; [| split; [| split]].
  - intros w environment key Hne [[Hup Hkey] | [Hup Hkey]].
    + eexists. split; [apply alma_init_sandbox; eauto |].
      rewrite Hup. repeat split.
    + eexists. split; [apply alma_init_production; eauto |].
      rewrite Hup. repeat split.
  - intros w environment _. apply alma_init_unknown.
  - intros e os_environ c environment Hinit Hup.
    destruct (init_loaded _ _ _ Hinit) as [-> Hall].
    destruct Hup as [Hup | Hup]; rewrite Hup; cbn [String.eqb Ascii.eqb Bool.eqb].
    + destruct (Hall "ALMA_SB_API_KEY") as [key Hkey];
        [apply list_elem_of_In; simpl; tauto |].
      exists key. eexists. split; [exact Hkey |].
      split; [apply set_environment_sb; exact Hup |].
      cbn. rewrite Hkey. repeat split. eexists. split; reflexivity.
    + destruct (Hall "ALMA_PROD_API_KEY") as [key Hkey];
        [apply list_elem_of_In; simpl; tauto |].
      exists key. eexists. split; [exact Hkey |].
      split; [apply set_environment_prod; exact Hup |].
      cbn. rewrite Hkey. repeat split. eexists. split; reflexivity.
  - intros c environment _ H1 H2. rewrite set_environment_unknown by assumption.
    reflexivity.
Qed.

Lemma resolution_per_resolver_witness :
  (exists self,
     AlmaAPIClient.__init__ "sandbox" Samples.world0 = Returns self
     /\ AlmaAPIClient.environment self = "SANDBOX"
     /\ AlmaAPIClient.api_key self = Some "sb-key"
     /\ AlmaAPIClient.default_headers self !! "Authorization" = Some "apikey sb-key")
  /\ AlmaAPIClient.__init__ "test" Samples.world0 =
       Raises (ValueError "Environment must be 'SANDBOX' or 'PRODUCTION'")
  /\ (exists key c',
        Samples.full_environ !! "ALMA_PROD_API_KEY" = Some key
        /\ ConfigManager.set_environment "prod" Samples.config0 = (Returns tt, c')
        /\ ConfigManager.current_environment c' = Some "PROD"
        /\ ConfigManager.get_api_key c' = Some key
        /\ exists h, ConfigManager.get_headers c' = Some h
                     /\ h !! "authorization" = Some ("apikey " ++ key))
  /\ fst (ConfigManager.set_environment "test" Samples.config0) =
       Raises (ValueError "Invalid environment: TEST").
Proof.
  destruct resolution_per_resolver as [H1 [H2 [H3 H4]]].
  split; [| split; [| split]].
  - apply (H1 Samples.world0 "sandbox" "sb-key"); [discriminate |].
    left. split; reflexivity.
  - apply (H2 Samples.world0 "test"); [reflexivity | discriminate | discriminate].
  - apply (H3 None Samples.full_environ Samples.config0 "prod");
      [reflexivity | right; reflexivity].
  - apply (H4 Samples.config0 "test"); [reflexivity | discriminate | discriminate].
Defined.

(** C2 fails as stated: the aliases are not interchangeable.  With every
    key stored, [AlmaAPIClient] rejects SB and PROD, and
    [ConfigManager.set_environment] rejects SANDBOX and PRODUCTION. *)
Lemma alias_rejected :
  AlmaAPIClient.__init__ "SB" Samples.world0 =
    Raises (ValueError "Environment must be 'SANDBOX' or 'PRODUCTION'")
  /\ AlmaAPIClient.__init__ "PROD" Samples.world0 =
       Raises (ValueError "Environment must be 'SANDBOX' or 'PRODUCTION'")
  /\ ConfigManager.__init__ None Samples.full_environ = Returns Samples.config0
  /\ fst (ConfigManager.set_environment "SANDBOX" Samples.config0) =
       Raises (ValueError "Invalid environment: SANDBOX")
  /\ fst (ConfigManager.set_environment "PRODUCTION" Samples.config0) =
       Raises (ValueError "Invalid environment: PRODUCTION").
Proof. repeat split; vm_compute; reflexivity. Qed.

End ResolutionFacts.

(** ** Switching environments *)

Module SwitchFacts.

Ltac run_alma :=
  unfold AlmaAPIClient.switch_environment, AlmaAPIClient.__init__,
    AlmaAPIClient._load_configuration, AlmaAPIClient._setup_headers,
    try_except, bind, getself, setself, getenv, raise, ret, is_Exception;
  cbn [fst snd AlmaAPIClient.environment AlmaAPIClient.api_key
       AlmaAPIClient.base_url AlmaAPIClient.default_headers
       AlmaAPIClient.set_environment AlmaAPIClient.set_api_key
       AlmaAPIClient.set_base_url AlmaAPIClient.set_default_headers
       AlmaAPIClient.blank negb truthy_opt].

(** A gateway resolved for its environment: the key is the stored one, it
    is not empty, and the headers are built from it. *)
Lemma stored_key_cases (w : world) (environment key : string) :
  AlmaAPIClient.stored_key w environment = Some key ->
  (environment = "SANDBOX" /\ environ w !! "ALMA_SB_API_KEY" = Some key)
  \/ (environment = "PRODUCTION" /\ environ w !! "ALMA_PROD_API_KEY" = Some key).
Proof.
  unfold AlmaAPIClient.stored_key.
  destruct (environment =? "SANDBOX") eqn:E1.
  - apply String.eqb_eq in E1. auto.
  - destruct (environment =? "PRODUCTION") eqn:E2; [| discriminate].
    apply String.eqb_eq in E2. auto.
Qed.

Lemma load_resolved (w : world) (environment key : string) (k0 : option string)
    (u0 : string) (h0 : gmap string string) :
  key <> "" ->
  AlmaAPIClient.stored_key w environment = Some key ->
  (AlmaAPIClient._load_configuration ;; AlmaAPIClient._setup_headers)%monad
    (AlmaAPIClient.mk environment k0 u0 h0, w)
  = (Returns tt,
     (AlmaAPIClient.mk environment (Some key) AlmaAPIClient.URL
        (AlmaAPIClient.headers_of (Some key)), w)).
Proof.
  intros Hne Hkey.
  destruct (stored_key_cases _ _ _ Hkey) as [[-> Hlook] | [-> Hlook]];
    run_alma; cbn; rewrite Hlook; cbn;
    rewrite (eqb_string_false key "" Hne); destruct w; reflexivity.
Qed.

Lemma load_unresolved (w : world) (environment : string) (k0 : option string)
    (u0 : string) (h0 : gmap string string) :
  truthy_opt (AlmaAPIClient.stored_key w environment) = false ->
  exists e k1,
    (AlmaAPIClient._load_configuration ;; AlmaAPIClient._setup_headers)%monad
      (AlmaAPIClient.mk environment k0 u0 h0, w)
    = (Raises e, (AlmaAPIClient.mk environment k1 u0 h0, w)).
Proof.
  unfold AlmaAPIClient.stored_key. intros Hno. run_alma.
  destruct (environment =? "SANDBOX") eqn:E1.
  - cbn [fst snd]. destruct (environ w !! "ALMA_SB_API_KEY") as [k|] eqn:Hk.
    + cbn in Hno |- *. rewrite Hno. cbn. destruct w; eauto.
    + cbn. destruct w; eauto.
  - destruct (environment =? "PRODUCTION") eqn:E2.
    + cbn [fst snd]. destruct (environ w !! "ALMA_PROD_API_KEY") as [k|] eqn:Hk.
      * cbn in Hno |- *. rewrite Hno. cbn. destruct w; eauto.
      * cbn. destruct w; eauto.
    + destruct w; eauto.
Qed.

Lemma switch_cases (w : world) (self : AlmaAPIClient.t) (new_environment key : string) :
  key <> "" ->
  AlmaAPIClient.stored_key w (AlmaAPIClient.environment self) = Some key ->
  self = AlmaAPIClient.mk (AlmaAPIClient.environment self) (Some key) AlmaAPIClient.URL
           (AlmaAPIClient.headers_of (Some key)) ->
  (exists k',
     k' <> "" /\ AlmaAPIClient.stored_key w (upper new_environment) = Some k'
     /\ AlmaAPIClient.switch_environment new_environment (self, w) =
          (Returns tt,
           (AlmaAPIClient.mk (upper new_environment) (Some k') AlmaAPIClient.URL
              (AlmaAPIClient.headers_of (Some k')), w)))
  \/ (truthy_opt (AlmaAPIClient.stored_key w (upper new_environment)) = false
      /\ exists e,
           AlmaAPIClient.switch_environment new_environment (self, w) = (Raises e, (self, w))).
Proof.
  intros Hne Hkey Hself.
  destruct self as [env0 k0 u0 h0]. cbn in Hkey, Hself.
  change (AlmaAPIClient.switch_environment new_environment
            (AlmaAPIClient.mk env0 k0 u0 h0, w))
    with (try_except (AlmaAPIClient._load_configuration ;; AlmaAPIClient._setup_headers)
            is_Exception
            (fun e =>
               setself (AlmaAPIClient.set_environment env0) ;;
               AlmaAPIClient._load_configuration ;;
               AlmaAPIClient._setup_headers ;;
               raise e)
            (AlmaAPIClient.mk (upper new_environment) k0 u0 h0, w)).
  unfold try_except.
  destruct (truthy_opt (AlmaAPIClient.stored_key w (upper new_environment))) eqn:Htruthy.
  - left. destruct (AlmaAPIClient.stored_key w (upper new_environment)) as [k'|] eqn:Hk';
      [| discriminate].
    assert (Hk'ne : k' <> "").
    { intros ->. discriminate. }
    exists k'. split; [exact Hk'ne |]. split; [reflexivity |].
    rewrite (load_resolved w (upper new_environment) k' k0 u0 h0 Hk'ne Hk').
    reflexivity.
  - right. split; [reflexivity |].
    destruct (load_unresolved w (upper new_environment) k0 u0 h0 Htruthy) as [e [k1 Hload]].
    exists e. rewrite Hload. cbn [is_Exception].
    change ((setself (AlmaAPIClient.set_environment env0) ;;
             AlmaAPIClient._load_configuration ;;
             AlmaAPIClient._setup_headers ;;
             raise e)%monad
              (AlmaAPIClient.mk (upper new_environment) k1 u0 h0, w))
      with ((AlmaAPIClient._load_configuration ;;
             AlmaAPIClient._setup_headers ;;
             @raise _ unit e)%monad (AlmaAPIClient.mk env0 k1 u0 h0, w)).
    rewrite <- bind_assoc.
    rewrite (bind_returns _ _ _ _ _ (load_resolved w env0 key k1 u0 h0 Hne Hkey)).
    unfold raise. rewrite Hself. reflexivity.
Qed.

(** Every gateway a caller can hold is resolved for its environment. *)
Lemma reachable_resolved (w : world) (self : AlmaAPIClient.t) :
  AlmaAPIClient.reachable w self ->
  exists key,
    key <> ""
    /\ AlmaAPIClient.stored_key w (AlmaAPIClient.environment self) = Some key
    /\ self = AlmaAPIClient.mk (AlmaAPIClient.environment self) (Some key)
                AlmaAPIClient.URL (AlmaAPIClient.headers_of (Some key)).
Proof.
  induction 1 as [environment self Hinit | self new_environment r s' Hreach IH Hswitch].
  - unfold AlmaAPIClient.__init__, AlmaAPIClient.blank in Hinit.
    destruct (truthy_opt (AlmaAPIClient.stored_key w (upper environment))) eqn:Htruthy.
    + destruct (AlmaAPIClient.stored_key w (upper environment)) as [k'|] eqn:Hk';
        [| discriminate].
      assert (Hk'ne : k' <> "") by (intros ->; discriminate).
      rewrite (load_resolved w (upper environment) k' None "" ∅ Hk'ne Hk') in Hinit.
      injection Hinit as <-. exists k'. cbn. auto.
    + destruct (load_unresolved w (upper environment) None "" ∅ Htruthy) as [e [k1 Hload]].
      rewrite Hload in Hinit. discriminate.
  - destruct IH as [key [Hne [Hkey Hself]]].
    destruct (switch_cases w self new_environment key Hne Hkey Hself)
      as [[k' [Hk'ne [Hk' Hsw]]] | [_ [e Hsw]]];
      rewrite Hsw in Hswitch; injection Hswitch as <- <-; cbn [fst].
    + exists k'. cbn. auto.
    + exists key. auto.
Qed.

Lemma alma_client_switch_unknown (py_str : pyval -> string) (s : AlmaClient.state)
    (environment : string) :
  upper environment <> "SB" ->
  upper environment <> "PROD" ->
  AlmaClient.switch_environment py_str environment s =
    (Returns false,
     (AlmaClient.set_config_manager
        (ConfigManager.set_current_environment (Some (upper environment))
           (AlmaClient.config_manager (fst s)))
        (fst s),
      snd s)).
Proof.
  intros H1 H2. unfold AlmaClient.switch_environment, try_except.
  erewrite bind_raises.
  2:{ unfold AlmaClient.on_config, zoom.
      rewrite (ResolutionFacts.set_environment_unknown _ _ H1 H2). reflexivity. }
  reflexivity.
Qed.

(** C3, as the code has it.  [AlmaAPIClient.switch_environment]: for a
    gateway constructed and switched in a world whose process environment
    stays as it is, a switch to a name written in ASCII that is unknown,
    or whose key is missing or empty, raises, and every switch that raises
    leaves the gateway (environment, key, headers and base URL) and the
    world exactly as they were.  [AlmaClient.switch_environment] reports a
    failed switch by returning [False] and does not raise; on a name
    written in ASCII other than SB and PROD, in any mix of upper and lower
    case, it sends nothing and leaves the headers, the base URL and the
    rate-limit state of its base client, and the headers of its
    configuration, as they were. *)
Theorem failed_switch_keeps_gateway :
  (forall (w : world) (self : AlmaAPIClient.t) (new_environment : string),
     AlmaAPIClient.reachable w self ->
     is_ascii new_environment = true ->
     truthy_opt (AlmaAPIClient.stored_key w (upper new_environment)) = false ->
     exists e,
       AlmaAPIClient.switch_environment new_environment (self, w) = (Raises e, (self, w)))
  /\
  (forall (w : world) (self : AlmaAPIClient.t) (new_environment : string)
          (e : exn) (s' : AlmaAPIClient.state),
     AlmaAPIClient.reachable w self ->
     AlmaAPIClient.switch_environment new_environment (self, w) = (Raises e, s') ->
     s' = (self, w))
  /\
  (forall (py_str : pyval -> string) (s : AlmaClient.state) (environment : string),
     is_ascii environment = true ->
     upper environment <> "SB" ->
     upper environment <> "PROD" ->
     exists c',
       AlmaClient.switch_environment py_str environment s = (Returns false, (c', snd s))
       /\ AlmaClient.base_client c' = AlmaClient.base_client (fst s)
       /\ ConfigManager.get_headers (AlmaClient.config_manager c')
          = ConfigManager.get_headers (AlmaClient.config_manager (fst s))
       /\ ConfigManager.get_base_url (AlmaClient.config_manager c')
          = ConfigManager.get_base_url (AlmaClient.config_manager (fst s)))
  /\
  (forall (py_str : pyval -> string) (s : AlmaClient.state) (environment : string),
     exists b s', AlmaClient.switch_environment py_str environment s = (Returns b, s')).
Proof.
  split; [| split; [| split]].
  - intros w self new_environment Hreach _ Hno.
    destruct (reachable_resolved w self Hreach) as [key [Hne [Hkey Hself]]].
    destruct (switch_cases w self new_environment key Hne Hkey Hself)
      as [[k' [Hk'ne [Hk' _]]] | [_ Hsw]]; [| exact Hsw].
    rewrite Hk' in Hno. cbn in Hno.
    rewrite (eqb_string_false k' "" Hk'ne) in Hno. discriminate.
  - intros w self new_environment e s' Hreach Hsw.
    destruct (reachable_resolved w self Hreach) as [key [Hne [Hkey Hself]]].
    destruct (switch_cases w self new_environment key Hne Hkey Hself)
      as [[k' [_ [_ Hok]]] | [_ [e' Hfail]]]; congruence.
  - intros py_str s environment _ H1 H2. eexists.
    split; [apply alma_client_switch_unknown; assumption |].
    repeat split.
  - intros py_str s environment. unfold AlmaClient.switch_environment, try_except.
    match goal with |- context [?body s] => destruct (body s) as [[b | e] s'] end;
      cbn; eauto.
Qed.

Lemma failed_switch_keeps_gateway_witness :
  (exists e,
     AlmaAPIClient.switch_environment "production"
       (Samples.gateway_sandbox, Samples.world_sandbox_only)
     = (Raises e, (Samples.gateway_sandbox, Samples.world_sandbox_only)))
  /\ (exists e,
        AlmaAPIClient.switch_environment "staging"
          (Samples.gateway_sandbox, Samples.world_sandbox_only)
        = (Raises e, (Samples.gateway_sandbox, Samples.world_sandbox_only)))
  /\ snd (AlmaAPIClient.switch_environment "production"
            (Samples.gateway_sandbox, Samples.world_sandbox_only))
     = (Samples.gateway_sandbox, Samples.world_sandbox_only)
  /\ (exists c',
        AlmaClient.switch_environment Samples.str_of "staging"
          (Samples.client_prod, Samples.world1)
        = (Returns false, (c', Samples.world1))
        /\ AlmaClient.base_client c' = AlmaClient.base_client Samples.client_prod).
Proof.
  destruct failed_switch_keeps_gateway as [H1 [H2 [H3 _]]].
  assert (Hreach : AlmaAPIClient.reachable Samples.world_sandbox_only Samples.gateway_sandbox).
  { apply (AlmaAPIClient.reach_init _ "sandbox"). reflexivity. }
  split; [| split; [| split]].
  - apply H1; [exact Hreach | reflexivity | reflexivity].
  - apply H1; [exact Hreach | reflexivity | reflexivity].
  - apply (H2 Samples.world_sandbox_only Samples.gateway_sandbox "production"
             (ValueError "ALMA_PROD_API_KEY environment variable not set"));
      [exact Hreach |].
    vm_compute. reflexivity.
  - destruct (H3 Samples.str_of (Samples.client_prod, Samples.world1) "staging")
      as [c' [Hsw [Hbase _]]]; [reflexivity | discriminate | discriminate |].
    exists c'. split; [exact Hsw | exact Hbase].
Defined.

(** C3 fails as stated on [AlmaClient.switch_environment]: a switch of the
    production client to an unknown name raises nothing, it returns
    [False], and the client then reports the unknown name as its
    environment. *)
Lemma alma_client_switch_keeps_unknown_name :
  AlmaClient.__init__ Samples.str_of "PROD" None Samples.world0
    = (Returns Samples.client_prod, Samples.world1)
  /\ AlmaClient.get_current_environment Samples.client_prod = Some "PROD"
  /\ fst (AlmaClient.switch_environment Samples.str_of "XX"
            (Samples.client_prod, Samples.world1)) = Returns false
  /\ AlmaClient.get_current_environment
       (fst (snd (AlmaClient.switch_environment Samples.str_of "XX"
                    (Samples.client_prod, Samples.world1)))) = Some "XX".
Proof. repeat split; vm_compute; reflexivity. Qed.

End SwitchFacts.

(** ** The soft requests of [AlmaAPIClient] *)

Module SafeRequestFacts.
Import AlmaAPIClient.

(** A verb raises before it sends, or it sends one request from the state
    it was called in. *)
Lemma call_method_cases (method endpoint : string) (kw : kwargs) (s : state) :
  (exists e, call_method method endpoint kw s = (Raises e, s))
  \/ (exists req, call_method method endpoint kw s = send req s).
Proof.
  unfold call_method, takes_no_body, get, post, put, delete.
  destruct (method =? "GET");
    [| destruct (method =? "POST");
       [| destruct (method =? "PUT"); [| destruct (method =? "DELETE")]]].
  1, 4: destruct (kw_data kw), (kw_content_type kw);
    try (left; eexists; reflexivity); right; eexists; reflexivity.
  1, 2: right; eexists; reflexivity.
  left. eexists. reflexivity.
Qed.

(** [safe_request] never raises, and what it returns for a call the
    remote API fails is [None]. *)
Lemma safe_request_soft (method endpoint : string) (kw : kwargs) (s : state) :
  exists v s',
    safe_request method endpoint kw s = (Returns v, s')
    /\ ((forall req,
           match remote (snd s) (calls (snd s)) req with
           | Reply r => Response.ok r = false
           | Failure _ => True
           end) ->
        v = PyNone).
Proof.
  unfold safe_request, try_except at 1 2. unfold bind at 1.
  destruct (call_method_cases (upper method) endpoint kw s) as [[e He] | [req Hreq]].
  - rewrite He. destruct (is_RequestException e); eexists; eexists; split; reflexivity || auto.
  - rewrite Hreq. unfold send.
    destruct (remote (snd s) (calls (snd s)) req) as [r | msg] eqn:Hreply.
    + unfold bind, Response.raise_for_status.
      destruct (Response.ok r) eqn:Hok.
      * unfold ret, try_except, Response.json.
        destruct (Response.json_body r); cbn;
          eexists; eexists; (split; [reflexivity |]);
          intros Hfail; specialize (Hfail req); rewrite Hreply in Hfail; congruence.
      * cbn. eexists. eexists. split; [reflexivity | auto].
    + cbn. eexists. eexists. split; [reflexivity | auto].
Qed.

End SafeRequestFacts.

(** ** The rate limiter *)

Module RateLimitFacts.
Import BaseAPIClient.

Lemma Qlt_bool_iff (x y : Q) : Qlt_bool x y = true <-> (x < y)%Q.
Proof.
  unfold Qlt_bool. rewrite negb_true_iff. split.
  - intros H. apply Qnot_le_lt. intros Hle. apply Qle_bool_iff in Hle. congruence.
  - intros H. destruct (Qle_bool y x) eqn:E; [| reflexivity].
    apply Qle_bool_iff in E. exfalso. apply (Qlt_not_le _ _ H E).
Qed.

Lemma filter_all {A} (f : A -> bool) (l : list A) :
  (forall x, In x l -> f x = true) -> List.filter f l = l.
Proof.
  induction l as [|a l IH]; intros H; [reflexivity |].
  cbn. rewrite (H a) by (left; reflexivity).
  rewrite IH; [reflexivity |]. intros x Hx. apply H. right. exact Hx.
Qed.

(** The timestamps the limiter retains at the instant [now]. *)
Lemma enforce_below_limit (s : state) :
  let now := clock (snd s) in
  let kept := List.filter (fun t => Qlt_bool (now - t) 60) (_request_times (fst s)) in
  (Z.of_nat (length kept) < _rate_limit (fst s))%Z ->
  _enforce_rate_limit s =
    (Returns tt, (set_request_times (kept ++ [now]) (fst s), snd s)).
Proof.
  intros now kept Hlt. subst now kept. destruct s as [self w]. cbn [fst snd] in *.
  set (now := clock w) in *.
  set (kept := List.filter (fun t => Qlt_bool (now - t) 60) (_request_times self)) in *.
  unfold _enforce_rate_limit, bind, time_time, setself, getself.
  cbn [fst snd set_request_times _request_times _rate_limit].
  fold now. fold kept.
  destruct (Z.leb_spec (_rate_limit self) (Z.of_nat (length kept))); [lia |].
  reflexivity.
Qed.

Lemma enforce_at_limit (s : state) (oldest : Q) (rest : list Q) :
  let now := clock (snd s) in
  let kept := List.filter (fun t => Qlt_bool (now - t) 60) (_request_times (fst s)) in
  (_rate_limit (fst s) <= Z.of_nat (length kept))%Z ->
  kept = oldest :: rest ->
  (0 < 60 - (now - oldest))%Q
  /\ _enforce_rate_limit s =
       (Returns tt,
        (set_request_times (kept ++ [now]) (fst s),
         mk_world (environ (snd s)) (now + (60 - (now - oldest)))%Q (remote (snd s))
           (calls (snd s))
           (trace (snd s) ++ [Sleep RateLimit (60 - (now - oldest))%Q]))).
Proof.
  intros now kept Hle Hkept. subst now kept. destruct s as [self w].
  cbn [fst snd] in *.
  set (now := clock w) in *.
  set (kept := List.filter (fun t => Qlt_bool (now - t) 60) (_request_times self)) in *.
  assert (Hin : In oldest kept) by (rewrite Hkept; left; reflexivity).
  apply filter_In in Hin. destruct Hin as [_ Hwin]. apply Qlt_bool_iff in Hwin.
  assert (Hpos : (0 < 60 - (now - oldest))%Q) by lra.
  split; [exact Hpos |].
  unfold _enforce_rate_limit, bind, time_time, setself, getself, time_sleep, slept.
  cbn [fst snd set_request_times _request_times _rate_limit].
  fold now. fold kept. 
  destruct (Z.leb_spec (_rate_limit self) (Z.of_nat (length kept))); [| lia].
  rewrite Hkept. rewrite (proj2 (Qlt_bool_iff _ _) Hpos).
  reflexivity.
Qed.

Lemma last_cons_default {A} (l : list A) (a d d' : A) :
  List.last (a :: l) d = List.last (a :: l) d'.
Proof.
  revert a. induction l as [|b l IH]; intros a; [reflexivity |].
  change (List.last (b :: l) d = List.last (b :: l) d'). apply IH.
Qed.

Lemma calls_at_app (ts : list Q) (t : Q) (s : state) :
  calls_at (ts ++ [t]) s = (calls_at ts ;; call_at t)%monad s.
Proof.
  revert s. induction ts as [|a ts IH]; intros s; cbn [calls_at app].
  - rewrite bind_ret_r. reflexivity.
  - rewrite bind_assoc. apply bind_ext. intros _ s'. apply IH.
Qed.

(** Calls that all fall within one window, fewer than the limit allows:
    each is recorded and none sleeps. *)
Lemma calls_at_below_limit (ts pre : list Q) (self : t) (w : world) :
  _request_times self = pre ->
  (Z.of_nat (length pre + length ts) <= _rate_limit self)%Z ->
  (forall a b, In a (pre ++ ts) -> In b (pre ++ ts) -> (b - a < 60)%Q) ->
  calls_at ts (self, w) =
    (Returns tt,
     (set_request_times (pre ++ ts) self,
      mk_world (environ w) (List.last ts (clock w)) (remote w) (calls w) (trace w))).
Proof.
  revert pre self w. induction ts as [|t ts IH]; intros pre self w Hpre Hlen Hwin.
  - cbn. rewrite app_nil_r, <- Hpre. destruct self, w. reflexivity.
  - pose (w0 := mk_world (environ w) t (remote w) (calls w) (trace w)).
    assert (Hkept : List.filter (fun x => Qlt_bool (t - x) 60) (_request_times self) = pre).
    { rewrite Hpre. apply filter_all. intros x Hx. apply Qlt_bool_iff.
      apply Hwin; apply in_or_app; [left; exact Hx | right; left; reflexivity]. }
    assert (Hcall : call_at t (self, w) =
                    (Returns tt, (set_request_times (pre ++ [t]) self, w0))).
    { unfold call_at. cbn [fst snd]. fold w0.
      rewrite (enforce_below_limit (self, w0)); cbn [fst snd clock w0]; rewrite Hkept.
      - reflexivity.
      - cbn [length] in Hlen. lia. }
    cbn [calls_at]. rewrite (bind_returns _ _ _ _ _ Hcall).
    rewrite (IH (pre ++ [t])%list (set_request_times (pre ++ [t]) self) w0).
    + unfold set_request_times. cbn. rewrite <- app_assoc. cbn.
      destruct ts as [|q ts]; [reflexivity |].
      rewrite (last_cons_default ts q (clock w) t). reflexivity.
    + reflexivity.
    + cbn [_rate_limit set_request_times]. rewrite length_app. cbn [length] in *. lia.
    + intros a b Ha Hb. rewrite <- app_assoc in Ha, Hb. cbn in Ha, Hb.
      apply Hwin; assumption.
Qed.

Lemma filter_sorted_head (f : Q -> bool) (l : list Q) (a : Q) (rest : list Q) :
  StronglySorted Qle l ->
  List.filter f l = a :: rest ->
  forall x, In x (a :: rest) -> (a <= x)%Q.
Proof.
  induction l as [|y l IH]; intros Hs Hf x Hx; [discriminate |].
  apply StronglySorted_inv in Hs. destruct Hs as [Hs Hall].
  cbn in Hf. destruct (f y).
  - injection Hf as <- <-. destruct Hx as [<- | Hx]; [apply Qle_refl |].
    apply filter_In in Hx. destruct Hx as [Hx _].
    rewrite Forall_forall in Hall. apply Hall. apply list_elem_of_In. exact Hx.
  - eapply IH; eauto.
Qed.

End RateLimitFacts.

(** ** The request executor *)

Module ExecutorFacts.
Import BaseAPIClient.

Lemma backoffs_app (a b : list event) : backoffs (a ++ b) = (backoffs a ++ backoffs b)%list.
Proof. unfold backoffs. apply omap_app. Qed.

Lemma requests_app (a b : list event) : requests (a ++ b) = (requests a ++ requests b)%list.
Proof. unfold requests. apply omap_app. Qed.

Lemma retry_events_app (a b : list event) :
  retry_events (a ++ b) = (retry_events a ++ retry_events b)%list.
Proof. unfold retry_events. apply List.filter_app. Qed.

(** The limiter, however it ends, adds no request and no sleep of the
    retry branch. *)
Lemma enforce_keeps_order (s : state) :
  retry_events (trace (snd (snd (_enforce_rate_limit s)))) = retry_events (trace (snd s)).
Proof.
  destruct s as [self w].
  unfold _enforce_rate_limit, bind, time_time, setself, getself, time_sleep, slept, raise, ret.
  cbn [fst snd set_request_times _request_times _rate_limit].
  destruct (_rate_limit self <=? _)%Z; [| reflexivity].
  destruct (List.filter _ (_request_times self)) as [|oldest rest]; [reflexivity |].
  destruct (Qlt_bool 0 _); [| reflexivity].
  cbn [fst snd trace]. rewrite retry_events_app. cbn. apply app_nil_r.
Qed.

Lemma after_retries_refl (req : http_request) (rc : nat) (s : state) :
  after_retries req rc 0 s s.
Proof.
  unfold after_retries. cbn. rewrite !app_nil_r, Nat.add_0_r. repeat split.
Qed.

(** With a positive limit the limiter returns, and it is no attempt. *)
Lemma enforce_returns (req : http_request) (rc : nat) (s : state) :
  (0 < _rate_limit (fst s))%Z ->
  exists s1, _enforce_rate_limit s = (Returns tt, s1) /\ after_retries req rc 0 s s1.
Proof.
  intros Hpos.
  set (kept := List.filter (fun x => Qlt_bool (clock (snd s) - x) 60) (_request_times (fst s))).
  destruct (Z.ltb_spec (Z.of_nat (length kept)) (_rate_limit (fst s))) as [Hlt | Hge].
  - eexists. split; [apply RateLimitFacts.enforce_below_limit; exact Hlt |].
    unfold after_retries. cbn. rewrite !app_nil_r, Nat.add_0_r. repeat split.
  - destruct kept as [|oldest rest] eqn:Hkept; [cbn in Hge; lia |].
    destruct (RateLimitFacts.enforce_at_limit s oldest rest) as [_ Hrun].
    + fold kept. rewrite Hkept. exact Hge.
    + exact Hkept.
    + eexists. split; [exact Hrun |].
      unfold after_retries. cbn. rewrite backoffs_app, requests_app. cbn.
      rewrite !app_nil_r, Nat.add_0_r. repeat split.
Qed.

Lemma send_reply (req : http_request) (s : state) (r : Response.t) :
  remote (snd s) (calls (snd s)) req = Reply r ->
  send req s = (Returns r, (fst s, sent req (snd s))).
Proof. intros H. unfold send. rewrite H. reflexivity. Qed.

Lemma send_failure (req : http_request) (s : state) (message : string) :
  remote (snd s) (calls (snd s)) req = Failure message ->
  send req s = (Raises (RequestException message), (fst s, sent req (snd s))).
Proof. intros H. unfold send. rewrite H. reflexivity. Qed.

Lemma dispatch_supported (method url : string) (headers : gmap string string)
    (data : pyval) (params : option (gmap string string)) :
  supported method = true ->
  dispatch method url headers data params = send (request_of method url headers data params).
Proof.
  unfold supported, dispatch, request_of. intros Hs.
  destruct (upper method =? "GET") eqn:E1.
  { apply String.eqb_eq in E1. rewrite E1. reflexivity. }
  destruct (upper method =? "POST") eqn:E2.
  { apply String.eqb_eq in E2. rewrite E2. reflexivity. }
  destruct (upper method =? "PUT") eqn:E3.
  { apply String.eqb_eq in E3. rewrite E3. reflexivity. }
  destruct (upper method =? "DELETE") eqn:E4; [| discriminate].
  apply String.eqb_eq in E4. rewrite E4. reflexivity.
Qed.

Lemma dispatch_unsupported (method url : string) (headers : gmap string string)
    (data : pyval) (params : option (gmap string string)) :
  supported method = false ->
  dispatch method url headers data params =
    raise (AlmaValidationError ("Unsupported HTTP method: " ++ method) None None).
Proof.
  unfold supported, dispatch. intros Hs.
  destruct (upper method =? "GET"); [discriminate |].
  destruct (upper method =? "POST"); [discriminate |].
  destruct (upper method =? "PUT"); [discriminate |].
  destruct (upper method =? "DELETE"); [discriminate | reflexivity].
Qed.

(** [_parse_response] returns, whatever the response, and changes
    nothing. *)
Lemma parse_response_returns {St} (response : Response.t) (st : St) :
  exists v, _parse_response response st = (Returns v, st).
Proof.
  unfold _parse_response, try_except, Response.json, ret, raise.
  destruct (contains _ _); [| eauto].
  destruct (Response.json_body response); cbn; eauto.
Qed.

Section WithFormatting.

Variable py_str : pyval -> string.

Lemma steady_py_get (v : pyval) (k : string) (dflt : pyval) :
  steady (@py_get state v k dflt).
Proof.
  unfold py_get. destruct v; try (apply steady_raise; reflexivity). apply steady_ret.
Qed.

(** [_handle_error_response] raises, whatever the response, changes
    nothing, and what it raises is no transport failure. *)
Lemma steady_extract (error_data : pyval) (error_message : string) :
  steady (extract_error_information py_str error_data error_message).
Proof.
  unfold extract_error_information.
  destruct error_data as [| | | | |l|d]; try apply steady_ret.
  destruct (assoc "errorList" d) as [error_list|].
  - apply steady_bind; [apply steady_py_get |].
    intros errors. destruct (truthy errors); [| apply steady_ret].
    apply steady_bind; [apply steady_py_get |]. intros m. apply steady_ret.
  - destruct (assoc "error_description" d); apply steady_ret.
Qed.

(** On a body it can read, the extraction returns a message. *)
Lemma extract_readable (error_data : pyval) (error_message : string) (st : state) :
  readable_error error_data = true ->
  exists m, extract_error_information py_str error_data error_message st = (Returns m, st).
Proof.
  unfold readable_error, extract_error_information. intros Hread.
  destruct error_data as [| | | | |l|d]; try (eexists; reflexivity).
  destruct (assoc "errorList" d) as [error_list|].
  - destruct error_list as [| | | | |l|el]; try discriminate.
    unfold bind, py_get, ret.
    destruct (truthy (default (PyList []) (assoc "error" el))); [| eauto].
    destruct (default (PyList []) (assoc "error" el)) as [| | | | |[|first l]|d'];
      try discriminate; try (eexists; reflexivity).
    destruct first; try discriminate. eexists; reflexivity.
  - destruct (assoc "error_description" d); eexists; reflexivity.
Qed.

Lemma handle_error_raises (response : Response.t) (method url : string) :
  raising (_handle_error_response py_str response method url).
Proof.
  unfold _handle_error_response. apply raising_bind.
  { intros st. left. unfold try_except.
    destruct (parse_response_returns response st) as [v Hv]. rewrite Hv. eauto. }
  intros error_data. apply raising_bind; [apply steady_extract |].
  intros error_message.
  repeat match goal with |- context [if ?c then _ else _] => destruct c end;
    apply raising_raise; reflexivity.
Qed.

(** The mapping of [_handle_error_response], on a body it can read. *)
Lemma handle_error_mapping (response : Response.t) (method url : string) (st : state)
    (error_data : pyval) :
  _parse_response response st = (Returns error_data, st) ->
  readable_error error_data = true ->
  let status := Response.status_code response in
  exists m e,
    _handle_error_response py_str response method url st = (Raises e, st)
    /\ (status = 401%Z -> e = AlmaAuthenticationError m (Some status) (Some error_data))
    /\ (status = 429%Z -> e = AlmaRateLimitError m (Some status) (Some error_data))
    /\ (In status [400; 422]%Z -> e = AlmaValidationError m (Some status) (Some error_data))
    /\ (~ In status [401; 429; 400; 422]%Z ->
        e = AlmaAPIError m (Some status) (Some error_data)).
Proof.
  intros Hparse Hread status.
  destruct (extract_readable error_data
              (method ++ " " ++ url ++ " failed with status " ++ py_str (PyInt status))
              st Hread) as [m Hm].
  exists m.
  unfold _handle_error_response. unfold bind at 1, try_except. rewrite Hparse.
  fold status. unfold bind. rewrite Hm. unfold raise.
  destruct (Z.eqb_spec status 401) as [E1 | E1].
  { eexists. split; [reflexivity |]. cbn.
    repeat split; intros; try lia; try reflexivity; try (exfalso; intuition lia). }
  destruct (Z.eqb_spec status 429) as [E2 | E2].
  { eexists. split; [reflexivity |]. cbn.
    repeat split; intros; try lia; try reflexivity; try (exfalso; intuition lia). }
  cbn [existsb]. 
  destruct (Z.eqb_spec status 400) as [E3 | E3].
  { eexists. split; [reflexivity |]. cbn.
    repeat split; intros; try lia; try reflexivity; try (exfalso; intuition lia). }
  destruct (Z.eqb_spec status 422) as [E4 | E4].
  { eexists. split; [reflexivity |]. cbn.
    repeat split; intros; try lia; try reflexivity; try (exfalso; intuition lia). }
  eexists. split; [reflexivity |]. cbn.
  repeat split; intros; try lia; try reflexivity; try (exfalso; intuition lia).
Qed.

Lemma parse_and_return_returns (response : Response.t) (method url : string) (st : state) :
  exists parsed,
    _parse_response response st = (Returns parsed, st)
    /\ parse_and_return response method url st =
         (Returns (AlmaResponse.__init__ parsed (Response.status_code response)
                     (Response.headers response) (Some url) (Some method)), st).
Proof.
  destruct (parse_response_returns response st) as [parsed Hparse].
  exists parsed. split; [exact Hparse |].
  unfold parse_and_return. rewrite (bind_returns _ _ _ _ _ Hparse). reflexivity.
Qed.

Section Attempt.

Variables (method url : string) (headers : gmap string string) (data : pyval)
  (params : option (gmap string string)).

Let req : http_request := request_of method url headers data params.

(** The handler of [except requests.RequestException]. *)
Let network_error : exn -> M state AlmaResponse.t :=
  fun e => raise (AlmaAPIError ("Network error: " ++ exn_message e) None None).

(** An attempt the remote API answers with a response that is [ok]. *)
Lemma attempt_ok (retry_count : nat) (s s1 : state) (r : Response.t) :
  supported method = true ->
  _enforce_rate_limit s = (Returns tt, s1) ->
  remote (snd s1) (calls (snd s1)) req = Reply r ->
  Response.ok r = true ->
  _make_request py_str method url headers data params retry_count s =
    parse_and_return r method url (fst s1, sent req (snd s1)).
Proof.
  intros Hsup Henf Hreply Hok.
  rewrite _make_request_equation_1. rewrite (bind_returns _ _ _ _ _ Henf).
  unfold try_except. rewrite (dispatch_supported _ _ _ _ _ Hsup).
  fold req. rewrite (bind_returns _ _ _ _ _ (send_reply _ _ _ Hreply)). rewrite Hok. cbn [negb].
  destruct (parse_and_return_returns r method url (fst s1, sent req (snd s1)))
    as [parsed [_ Hret]].
  rewrite Hret. reflexivity.
Qed.

(** An attempt the remote API answers with a status of the retry list,
    while the budget lasts. *)
Lemma attempt_retried (retry_count : nat) (s s1 : state) (r : Response.t) :
  supported method = true ->
  _enforce_rate_limit s = (Returns tt, s1) ->
  remote (snd s1) (calls (snd s1)) req = Reply r ->
  In (Response.status_code r) RETRY_STATUS_CODES ->
  retry_count < MAX_RETRIES ->
  _make_request py_str method url headers data params retry_count s =
    try_except (_make_request py_str method url headers data params (retry_count + 1))
      is_RequestException network_error
      (fst s1, slept Backoff (backoff_delay retry_count) (sent req (snd s1))).
Proof.
  intros Hsup Henf Hreply Hretry Hbudget.
  rewrite (_make_request_equation_1 py_str method url headers data params retry_count).
  rewrite (bind_returns _ _ _ _ _ Henf).
  unfold try_except. rewrite (dispatch_supported _ _ _ _ _ Hsup).
  fold req. rewrite (bind_returns _ _ _ _ _ (send_reply _ _ _ Hreply)).
  assert (Hok : Response.ok r = false).
  { unfold Response.ok. cbn in Hretry.
    destruct Hretry as [<- | [<- | [<- | [<- | [<- | []]]]]]; reflexivity. }
  rewrite Hok. cbn [negb].
  assert (Hex : existsb (Z.eqb (Response.status_code r)) RETRY_STATUS_CODES = true).
  { apply existsb_exists. exists (Response.status_code r).
    split; [exact Hretry | apply Z.eqb_refl]. }
  rewrite Hex.
  destruct (lt_dec retry_count MAX_RETRIES) as [_ | Hn]; [| contradiction].
  reflexivity.
Qed.

(** An attempt the remote API answers with a failure status that is not
    retried: the status is not of the retry list, or the budget is spent. *)
Lemma attempt_surfaced (retry_count : nat) (s s1 : state) (r : Response.t) :
  supported method = true ->
  _enforce_rate_limit s = (Returns tt, s1) ->
  remote (snd s1) (calls (snd s1)) req = Reply r ->
  Response.ok r = false ->
  ~ In (Response.status_code r) RETRY_STATUS_CODES \/ MAX_RETRIES <= retry_count ->
  exists e,
    _handle_error_response py_str r method url (fst s1, sent req (snd s1))
      = (Raises e, (fst s1, sent req (snd s1)))
    /\ is_RequestException e = false
    /\ _make_request py_str method url headers data params retry_count s
       = (Raises e, (fst s1, sent req (snd s1))).
Proof.
  intros Hsup Henf Hreply Hok Hnot.
  destruct (handle_error_raises r method url (fst s1, sent req (snd s1)))
    as [e [Hraise Hne]].
  exists e. split; [exact Hraise |]. split; [exact Hne |].
  rewrite _make_request_equation_1. rewrite (bind_returns _ _ _ _ _ Henf).
  unfold try_except. rewrite (dispatch_supported _ _ _ _ _ Hsup).
  fold req. rewrite (bind_returns _ _ _ _ _ (send_reply _ _ _ Hreply)). rewrite Hok. cbn [negb].
  destruct (existsb (Z.eqb (Response.status_code r)) RETRY_STATUS_CODES) eqn:Hex.
  - destruct (lt_dec retry_count MAX_RETRIES) as [Hlt | _].
    + exfalso. destruct Hnot as [Hnot | Hle]; [| lia].
      apply Hnot. apply existsb_exists in Hex. destruct Hex as [x [Hx Heq]].
      apply Z.eqb_eq in Heq. subst x. exact Hx.
    + rewrite (bind_raises _ _ _ _ _ Hraise). rewrite Hne. reflexivity.
  - rewrite (bind_raises _ _ _ _ _ Hraise). rewrite Hne. reflexivity.
Qed.

(** An attempt that ends in a transport failure. *)
Lemma attempt_failed (retry_count : nat) (s s1 : state) (message : string) :
  supported method = true ->
  _enforce_rate_limit s = (Returns tt, s1) ->
  remote (snd s1) (calls (snd s1)) req = Failure message ->
  _make_request py_str method url headers data params retry_count s =
    (Raises (AlmaAPIError ("Network error: " ++ message) None None),
     (fst s1, sent req (snd s1))).
Proof.
  intros Hsup Henf Hreply.
  rewrite _make_request_equation_1. rewrite (bind_returns _ _ _ _ _ Henf).
  unfold try_except. rewrite (dispatch_supported _ _ _ _ _ Hsup).
  fold req. rewrite (bind_raises _ _ _ _ _ (send_failure _ _ _ Hreply)). reflexivity.
Qed.

(** A method [_make_request] has no branch for. *)
Lemma attempt_unsupported (retry_count : nat) (s s1 : state) :
  supported method = false ->
  _enforce_rate_limit s = (Returns tt, s1) ->
  _make_request py_str method url headers data params retry_count s =
    (Raises (AlmaValidationError ("Unsupported HTTP method: " ++ method) None None), s1).
Proof.
  intros Hsup Henf.
  rewrite _make_request_equation_1. rewrite (bind_returns _ _ _ _ _ Henf).
  unfold try_except. rewrite (dispatch_unsupported _ _ _ _ _ Hsup). reflexivity.
Qed.

Lemma after_retries_step (retry_count : nat) (s s1 : state) :
  after_retries req retry_count 0 s s1 ->
  after_retries req retry_count 1 s
    (fst s1, slept Backoff (backoff_delay retry_count) (sent req (snd s1))).
Proof.
  unfold after_retries. cbn.
  intros (Hb & Hh & Hl & He & Hr & Hc & Hbo & Hrq).
  rewrite !backoffs_app, !requests_app, Hbo, Hrq, Hc. cbn.
  rewrite !app_nil_r, Nat.add_0_r.
  repeat split; try assumption. lia.
Qed.

Lemma after_retries_trans (retry_count k : nat) (s s2 s3 : state) :
  after_retries req retry_count 1 s s2 ->
  after_retries req (retry_count + 1) k s2 s3 ->
  after_retries req retry_count (S k) s s3.
Proof.
  unfold after_retries. cbn.
  intros (Hb & Hh & Hl & He & Hr & Hc & Hbo & Hrq)
         (Hb' & Hh' & Hl' & He' & Hr' & Hc' & Hbo' & Hrq').
  rewrite Hbo', Hrq', Hbo, Hrq, Hc', Hc, <- !app_assoc.
  replace (retry_count + 1) with (S retry_count) by lia. cbn.
  repeat split; try congruence. lia.
Qed.

(** [k] attempts in a row that are retried: the call ends as the attempt
    numbered [retry_count + k] ends, unless that one lets a transport
    failure escape (it never does). *)
Lemma retries (k : nat) :
  forall (retry_count : nat) (s : state),
    supported method = true ->
    (0 < _rate_limit (fst s))%Z ->
    retry_count + k <= MAX_RETRIES ->
    (forall i, i < k ->
       exists r, remote (snd s) (calls (snd s) + i) req = Reply r
                 /\ In (Response.status_code r) RETRY_STATUS_CODES) ->
    exists s_k,
      after_retries req retry_count k s s_k
      /\ forall out st',
           _make_request py_str method url headers data params (retry_count + k) s_k
             = (out, st') ->
           match out with Raises e => is_RequestException e = false | Returns _ => True end ->
           _make_request py_str method url headers data params retry_count s = (out, st').
Proof.
  induction k as [|k IH]; intros retry_count s Hsup Hpos Hbudget Hreplies.
  - exists s. split; [apply after_retries_refl |].
    intros out st'. rewrite Nat.add_0_r. auto.
  - destruct (enforce_returns req retry_count s Hpos) as [s1 [Henf Hquiet]].
    destruct (Hreplies 0) as [r [Hreply Hretry]]; [lia |].
    pose proof Hquiet as (_ & _ & Hl & _ & Hr & Hc & _ & _).
    rewrite Nat.add_0_r in Hreply, Hc. rewrite <- Hr, <- Hc in Hreply.
    pose (s2 := (fst s1, slept Backoff (backoff_delay retry_count) (sent req (snd s1)))).
    assert (Hone : after_retries req retry_count 1 s s2)
      by (apply after_retries_step; exact Hquiet).
    destruct (IH (retry_count + 1) s2) as [s_k [Hafter Hend]].
    + exact Hsup.
    + cbn. rewrite Hl. exact Hpos.
    + lia.
    + intros i Hi. destruct (Hreplies (S i)) as [r' [Hr' Hretry']]; [lia |].
      exists r'. split; [| exact Hretry'].
      cbn. rewrite Hr, Hc. rewrite <- Hr'. f_equal. lia.
    + exists s_k. split; [eapply after_retries_trans; eauto |].
      intros out st' Hlast Hout.
      rewrite (attempt_retried retry_count s s1 r Hsup Henf Hreply Hretry) by lia.
      fold s2. unfold try_except.
      replace (retry_count + S k) with (retry_count + 1 + k) in Hlast by lia.
      rewrite (Hend out st' Hlast Hout).
      destruct out as [a | e]; [reflexivity |]. rewrite Hout. reflexivity.
Qed.

(** The same run, with the order of what happened: each of the [k]
    attempts is its request and then its wait. *)
Lemma retries_in_order (k : nat) :
  forall (retry_count : nat) (s : state),
    supported method = true ->
    (0 < _rate_limit (fst s))%Z ->
    retry_count + k <= MAX_RETRIES ->
    (forall i, i < k ->
       exists r, remote (snd s) (calls (snd s) + i) req = Reply r
                 /\ In (Response.status_code r) RETRY_STATUS_CODES) ->
    exists s_k,
      after_retries req retry_count k s s_k
      /\ retry_events (trace (snd s_k))
         = (retry_events (trace (snd s)) ++ retried req retry_count k)%list
      /\ forall out st',
           _make_request py_str method url headers data params (retry_count + k) s_k
             = (out, st') ->
           match out with Raises e => is_RequestException e = false | Returns _ => True end ->
           _make_request py_str method url headers data params retry_count s = (out, st').
Proof.
  induction k as [|k IH]; intros retry_count s Hsup Hpos Hbudget Hreplies.
  - exists s. split; [apply after_retries_refl |].
    split; [cbn; rewrite app_nil_r; reflexivity |].
    intros out st'. rewrite Nat.add_0_r. auto.
  - destruct (enforce_returns req retry_count s Hpos) as [s1 [Henf Hquiet]].
    pose proof (enforce_keeps_order s) as Horder. rewrite Henf in Horder. cbn [snd] in Horder.
    destruct (Hreplies 0) as [r [Hreply Hretry]]; [lia |].
    pose proof Hquiet as (_ & _ & Hl & _ & Hr & Hc & _ & _).
    rewrite Nat.add_0_r in Hreply, Hc. rewrite <- Hr, <- Hc in Hreply.
    pose (s2 := (fst s1, slept Backoff (backoff_delay retry_count) (sent req (snd s1)))).
    assert (Hone : after_retries req retry_count 1 s s2)
      by (apply after_retries_step; exact Hquiet).
    destruct (IH (retry_count + 1) s2) as [s_k [Hafter [Hevents Hend]]].
    + exact Hsup.
    + cbn. rewrite Hl. exact Hpos.
    + lia.
    + intros i Hi. destruct (Hreplies (S i)) as [r' [Hr' Hretry']]; [lia |].
      exists r'. split; [| exact Hretry'].
      cbn. rewrite Hr, Hc. rewrite <- Hr'. f_equal. lia.
    + exists s_k. split; [eapply after_retries_trans; eauto |].
      split.
      { rewrite Hevents. subst s2. cbn [snd slept sent trace].
        rewrite !retry_events_app, Horder. cbn [retry_events List.filter].
        unfold retried. replace (retry_count + 1) with (S retry_count) by lia.
        cbn [seq flat_map]. rewrite <- !app_assoc. reflexivity. }
      intros out st' Hlast Hout.
      rewrite (attempt_retried retry_count s s1 r Hsup Henf Hreply Hretry) by lia.
      fold s2. unfold try_except.
      replace (retry_count + S k) with (retry_count + 1 + k) in Hlast by lia.
      rewrite (Hend out st' Hlast Hout).
      destruct out as [a | e]; [reflexivity |]. rewrite Hout. reflexivity.
Qed.

End Attempt.

End WithFormatting.

Lemma parse_response_any_state {St St'} (response : Response.t) (st : St) (st' : St')
    (v : pyval) :
  _parse_response response st = (Returns v, st) ->
  _parse_response response st' = (Returns v, st').
Proof.
  unfold _parse_response, try_except, Response.json, ret, raise.
  destruct (contains _ _); [| congruence].
  destruct (Response.json_body response); cbn; congruence.
Qed.

(** C1.  A call whose first [k] attempts, [k] at most 3, are answered
    with statuses of the retry list, and whose next attempt is answered
    with a 2xx status, returns the normalised response of that answer with
    its success flag set, and raises nothing; it sent the same request
    [k + 1] times, and the retry branch slept [k] times, for 1 * 2^0, ...,
    1 * 2^(k-1) seconds.  Each wait comes before the next attempt: what
    the call did, the sleeps of the rate limiter apart, is attempt 0, the
    wait of 1 * 2^0 seconds, attempt 1, the wait of 1 * 2^1 seconds, and
    so on to the last attempt.  A call whose first four attempts
    are all answered with statuses of the retry list stops there with an
    error: four requests, with the three sleeps of 1, 2 and 4 seconds
    between them. *)
Theorem retry_with_backoff (py_str : pyval -> string) (method url : string)
    (headers : gmap string string) (data : pyval) (params : option (gmap string string))
    (s : state) :
  let req := request_of method url headers data params in
  supported method = true ->
  (0 < _rate_limit (fst s))%Z ->
  List.map backoff_delay (seq 0 MAX_RETRIES) = [1; 2; 4]%Q
  /\
  (forall (k : nat) (response : Response.t),
     k <= MAX_RETRIES ->
     (forall i, i < k ->
        exists r, remote (snd s) (calls (snd s) + i) req = Reply r
                  /\ In (Response.status_code r) RETRY_STATUS_CODES) ->
     remote (snd s) (calls (snd s) + k) req = Reply response ->
     (200 <= Response.status_code response < 300)%Z ->
     exists parsed s',
       _make_request py_str method url headers data params 0 s =
         (Returns (AlmaResponse.__init__ parsed (Response.status_code response)
                     (Response.headers response) (Some url) (Some method)), s')
       /\ _parse_response response s' = (Returns parsed, s')
       /\ AlmaResponse.success
            (AlmaResponse.__init__ parsed (Response.status_code response)
               (Response.headers response) (Some url) (Some method)) = true
       /\ backoffs (trace (snd s')) =
            (backoffs (trace (snd s)) ++ List.map backoff_delay (seq 0 k))%list
       /\ requests (trace (snd s')) =
            (requests (trace (snd s)) ++ replicate (S k) req)%list
       /\ retry_events (trace (snd s')) =
            (retry_events (trace (snd s)) ++ retried req 0 k ++ [Request req])%list)
  /\
  ((forall i, i < S MAX_RETRIES ->
      exists r, remote (snd s) (calls (snd s) + i) req = Reply r
                /\ In (Response.status_code r) RETRY_STATUS_CODES) ->
   exists e s',
     _make_request py_str method url headers data params 0 s = (Raises e, s')
     /\ backoffs (trace (snd s')) = (backoffs (trace (snd s)) ++ [1; 2; 4]%Q)%list
     /\ requests (trace (snd s')) =
          (requests (trace (snd s)) ++ replicate (S MAX_RETRIES) req)%list
     /\ retry_events (trace (snd s')) =
          (retry_events (trace (snd s))
           ++ [Request req; Sleep Backoff 1; Request req; Sleep Backoff 2;
               Request req; Sleep Backoff 4; Request req])%list).
Proof.
  intros req Hsup Hpos. split; [reflexivity |]. split.
  - intros k response Hk Hreplies Hlast Hstatus.
    destruct (retries_in_order py_str method url headers data params k 0 s Hsup Hpos Hk
                Hreplies) as [s_k [Hafter [Hevents Hend]]].
    pose proof Hafter as (_ & _ & Hl & _ & Hr & Hc & Hbo & Hrq).
    assert (Hpos' : (0 < _rate_limit (fst s_k))%Z) by (rewrite Hl; exact Hpos).
    destruct (enforce_returns req k s_k Hpos') as [s1 [Henf Hquiet]].
    pose proof (enforce_keeps_order s_k) as Horder. rewrite Henf in Horder.
    cbn [snd] in Horder.
    pose proof Hquiet as (_ & _ & _ & _ & Hr1 & Hc1 & Hbo1 & Hrq1).
    rewrite Nat.add_0_r in Hc1. rewrite !app_nil_r in Hbo1, Hrq1.
    assert (Hreply : remote (snd s1) (calls (snd s1)) req = Reply response)
      by (rewrite Hr1, Hc1, Hr, Hc; exact Hlast).
    assert (Hok : Response.ok response = true).
    { unfold Response.ok. destruct (Z.leb_spec 400 (Response.status_code response));
        [lia | reflexivity]. }
    destruct (parse_and_return_returns response method url (fst s1, sent req (snd s1)))
      as [parsed [Hparse Hret]].
    exists parsed, (fst s1, sent req (snd s1)).
    split.
    { apply (Hend _ _); [| exact I]. cbn [Nat.add].
      rewrite (attempt_ok py_str method url headers data params k s_k s1 response
                 Hsup Henf Hreply Hok).
      exact Hret. }
    split; [exact Hparse |]. split.
    { cbn. apply andb_true_iff. split; [apply Z.leb_le | apply Z.ltb_lt]; lia. }
    cbn [snd sent trace].
    rewrite backoffs_app, requests_app, retry_events_app, Hbo1, Hrq1, Hbo, Hrq, Horder,
      Hevents.
    cbn. rewrite app_nil_r, <- !app_assoc. split; [reflexivity |].
    split; [| reflexivity].
    f_equal. clear. induction k as [|k IH]; [reflexivity |].
    cbn. f_equal. exact IH.
  - intros Hreplies.
    destruct (retries_in_order py_str method url headers data params MAX_RETRIES 0 s
                Hsup Hpos)
      as [s_k [Hafter [Hevents Hend]]]; [lia | intros i Hi; apply Hreplies; lia |].
    pose proof Hafter as (_ & _ & Hl & _ & Hr & Hc & Hbo & Hrq).
    assert (Hpos' : (0 < _rate_limit (fst s_k))%Z) by (rewrite Hl; exact Hpos).
    destruct (enforce_returns req MAX_RETRIES s_k Hpos') as [s1 [Henf Hquiet]].
    pose proof (enforce_keeps_order s_k) as Horder. rewrite Henf in Horder.
    cbn [snd] in Horder.
    pose proof Hquiet as (_ & _ & _ & _ & Hr1 & Hc1 & Hbo1 & Hrq1).
    rewrite Nat.add_0_r in Hc1. rewrite !app_nil_r in Hbo1, Hrq1.
    destruct (Hreplies MAX_RETRIES) as [r [Hlast Hretry]]; [lia |].
    assert (Hreply : remote (snd s1) (calls (snd s1)) req = Reply r)
      by (rewrite Hr1, Hc1, Hr, Hc; exact Hlast).
    assert (Hok : Response.ok r = false).
    { unfold Response.ok. cbn in Hretry.
      destruct Hretry as [<- | [<- | [<- | [<- | [<- | []]]]]]; reflexivity. }
    destruct (attempt_surfaced py_str method url headers data params MAX_RETRIES s_k s1 r
                Hsup Henf Hreply Hok) as [e [_ [Hne Hrun]]]; [right; lia |].
    exists e, (fst s1, sent req (snd s1)). split.
    { apply (Hend _ _); [exact Hrun | exact Hne]. }
    cbn [snd sent trace].
    rewrite backoffs_app, requests_app, retry_events_app, Hbo1, Hrq1, Hbo, Hrq, Horder,
      Hevents.
    cbn. rewrite app_nil_r, <- !app_assoc. repeat split.
Qed.

Lemma retry_with_backoff_witness :
  (exists parsed s',
     _make_request Samples.str_of "GET" Samples.bib_url Samples.json_request_headers
       PyNone None 0 (Samples.facing [503%Z]) =
       (Returns (AlmaResponse.__init__ parsed 200
                   [("Content-Type", "application/json;charset=UTF-8")]
                   (Some Samples.bib_url) (Some "GET")), s')
     /\ backoffs (trace (snd s')) = [1%Q]
     /\ requests (trace (snd s')) = [Samples.bib_request; Samples.bib_request]
     /\ retry_events (trace (snd s'))
        = [Request Samples.bib_request; Sleep Backoff 1; Request Samples.bib_request])
  /\
  (exists e s',
     _make_request Samples.str_of "GET" Samples.bib_url Samples.json_request_headers
       PyNone None 0 (Samples.facing [503; 503; 503; 503]%Z) = (Raises e, s')
     /\ backoffs (trace (snd s')) = [1; 2; 4]%Q
     /\ requests (trace (snd s')) = replicate 4 Samples.bib_request
     /\ retry_events (trace (snd s'))
        = [Request Samples.bib_request; Sleep Backoff 1;
           Request Samples.bib_request; Sleep Backoff 2;
           Request Samples.bib_request; Sleep Backoff 4;
           Request Samples.bib_request]).
Proof.
  split.
  - destruct (retry_with_backoff Samples.str_of "GET" Samples.bib_url
                Samples.json_request_headers PyNone None (Samples.facing [503%Z]))
      as [_ [Hretry _]].
    + reflexivity.
    + reflexivity.
    + destruct (Hretry 1 (Response.mk 200
                   [("Content-Type", "application/json;charset=UTF-8")] ""
                   (Some (PyDict []))))
        as [parsed [s' [Hrun [_ [_ [Hbo [Hrq Hev]]]]]]].
      * unfold MAX_RETRIES. lia.
      * intros i Hi. assert (i = 0) as -> by lia.
        eexists. split; [reflexivity |]. cbn. tauto.
      * reflexivity.
      * cbn. lia.
      * exists parsed, s'. split; [exact Hrun |]. split; [exact Hbo |].
        split; [exact Hrq | exact Hev].
  - destruct (retry_with_backoff Samples.str_of "GET" Samples.bib_url
                Samples.json_request_headers PyNone None
                (Samples.facing [503; 503; 503; 503]%Z))
      as [_ [_ Hspent]].
    + reflexivity.
    + reflexivity.
    + apply Hspent. intros i Hi. eexists. split; [reflexivity |].
      unfold MAX_RETRIES in Hi.
      destruct i as [|[|[|[|i]]]]; [cbn; tauto .. | lia].
Defined.

(** C5, as the code has it.  A call whose first [k] attempts were retried
    and whose next attempt is answered with a status from 400 to 599 that
    is not retried (it is not of the retry list, or the three retries are
    spent) raises, when the message of the body can be read, the error of
    that status: 401 raises [AlmaAuthenticationError], 429 (after three
    retries) raises [AlmaRateLimitError], and 500, 502, 503 and 504 (after
    three retries) raise the base [AlmaAPIError]; each carries the status
    and the parsed body. *)
Theorem surfaced_error_by_status (py_str : pyval -> string) (method url : string)
    (headers : gmap string string) (data : pyval) (params : option (gmap string string))
    (s : state) (k : nat) (response : Response.t) (error_data : pyval) :
  let req := request_of method url headers data params in
  let status := Response.status_code response in
  supported method = true ->
  (0 < _rate_limit (fst s))%Z ->
  k <= MAX_RETRIES ->
  (forall i, i < k ->
     exists r, remote (snd s) (calls (snd s) + i) req = Reply r
               /\ In (Response.status_code r) RETRY_STATUS_CODES) ->
  remote (snd s) (calls (snd s) + k) req = Reply response ->
  (400 <= status < 600)%Z ->
  ~ In status RETRY_STATUS_CODES \/ k = MAX_RETRIES ->
  _parse_response response tt = (Returns error_data, tt) ->
  readable_error error_data = true ->
  exists m e s',
    _make_request py_str method url headers data params 0 s = (Raises e, s')
    /\ (status = 401%Z -> e = AlmaAuthenticationError m (Some 401%Z) (Some error_data))
    /\ (status = 429%Z -> e = AlmaRateLimitError m (Some 429%Z) (Some error_data))
    /\ (In status [500; 502; 503; 504]%Z ->
        e = AlmaAPIError m (Some status) (Some error_data))
    /\ backoffs (trace (snd s')) =
         (backoffs (trace (snd s)) ++ List.map backoff_delay (seq 0 k))%list
    /\ requests (trace (snd s')) = (requests (trace (snd s)) ++ replicate (S k) req)%list.
Proof.
  intros req status Hsup Hpos Hk Hreplies Hlast Hstatus Hnot Hparse Hread.
  destruct (retries py_str method url headers data params k 0 s Hsup Hpos Hk Hreplies)
    as [s_k [Hafter Hend]].
  pose proof Hafter as (_ & _ & Hl & _ & Hr & Hc & Hbo & Hrq).
  assert (Hpos' : (0 < _rate_limit (fst s_k))%Z) by (rewrite Hl; exact Hpos).
  destruct (enforce_returns req k s_k Hpos') as [s1 [Henf Hquiet]].
  pose proof Hquiet as (_ & _ & _ & _ & Hr1 & Hc1 & Hbo1 & Hrq1).
  rewrite Nat.add_0_r in Hc1. rewrite !app_nil_r in Hbo1, Hrq1.
  assert (Hreply : remote (snd s1) (calls (snd s1)) req = Reply response)
    by (rewrite Hr1, Hc1, Hr, Hc; exact Hlast).
  assert (Hok : Response.ok response = false).
  { unfold Response.ok. fold status.
    destruct (Z.leb_spec 400 status); [| lia].
    destruct (Z.ltb_spec status 600); [reflexivity | lia]. }
  destruct (attempt_surfaced py_str method url headers data params k s_k s1 response
              Hsup Henf Hreply Hok) as [e [Hraise [Hne Hrun]]].
  { destruct Hnot as [Hnot | ->]; [left; exact Hnot | right; lia]. }
  destruct (handle_error_mapping py_str response method url (fst s1, sent req (snd s1))
              error_data (parse_response_any_state _ _ _ _ Hparse) Hread)
    as [m [e' [Hraise' [H401 [H429 [_ Hother]]]]]].
  pose proof (eq_trans (eq_sym Hraise) Hraise') as Heq. injection Heq as Heq.
  subst e'.
  exists m, e, (fst s1, sent req (snd s1)).
  split; [apply (Hend _ _); [exact Hrun | exact Hne] |].
  split; [intros E; rewrite <- E; apply H401; exact E |].
  split; [intros E; rewrite <- E; apply H429; exact E |].
  split.
  { intros Hin. apply Hother. fold status. cbn in Hin |- *. lia. }
  cbn [snd sent trace]. rewrite backoffs_app, requests_app, Hbo1, Hrq1, Hbo, Hrq.
  cbn. rewrite app_nil_r, <- app_assoc. split; [reflexivity |].
  f_equal. clear. induction k as [|k IH]; [reflexivity |].
  cbn. f_equal. exact IH.
Qed.

Lemma surfaced_error_by_status_witness :
  (exists m s',
     _make_request Samples.str_of "GET" Samples.bib_url Samples.json_request_headers
       PyNone None 0 (Samples.facing [401%Z]) =
       (Raises (AlmaAuthenticationError m (Some 401%Z) (Some (PyDict []))), s'))
  /\ (exists m s',
        _make_request Samples.str_of "GET" Samples.bib_url Samples.json_request_headers
          PyNone None 0 (Samples.facing [429; 429; 429; 429]%Z) =
          (Raises (AlmaRateLimitError m (Some 429%Z) (Some (PyDict []))), s')
        /\ backoffs (trace (snd s')) = [1; 2; 4]%Q)
  /\ (exists m s',
        _make_request Samples.str_of "GET" Samples.bib_url Samples.json_request_headers
          PyNone None 0 (Samples.facing [503; 500; 502; 504]%Z) =
          (Raises (AlmaAPIError m (Some 504%Z) (Some (PyDict []))), s')
        /\ backoffs (trace (snd s')) = [1; 2; 4]%Q).
Proof.
  assert (Hretried : forall (statuses : list Z) (i : nat),
            Forall (fun x => In x RETRY_STATUS_CODES) statuses ->
            i < length statuses ->
            exists r,
              remote (snd (Samples.facing statuses)) (calls (snd (Samples.facing statuses)) + i)
                Samples.bib_request = Reply r
              /\ In (Response.status_code r) RETRY_STATUS_CODES).
  { intros statuses i Hall Hi. eexists. split; [reflexivity |].
    cbn [Response.status_code]. rewrite Forall_forall in Hall. apply Hall.
    apply list_elem_of_In. apply nth_In. exact Hi. }
  split; [| split].
  - destruct (surfaced_error_by_status Samples.str_of "GET" Samples.bib_url
                Samples.json_request_headers PyNone None (Samples.facing [401%Z]) 0
                (Response.mk 401 [("Content-Type", "application/json;charset=UTF-8")]
                   "" (Some (PyDict [])))
                (PyDict []))
      as [m [e [s' [Hrun [H401 _]]]]];
      try reflexivity.
    + unfold MAX_RETRIES. lia.
    + intros i Hi. lia.
    + cbn. lia.
    + left. cbn. intuition lia.
    + exists m, s'. rewrite Hrun, (H401 eq_refl). reflexivity.
  - destruct (surfaced_error_by_status Samples.str_of "GET" Samples.bib_url
                Samples.json_request_headers PyNone None
                (Samples.facing [429; 429; 429; 429]%Z) 3
                (Response.mk 429 [("Content-Type", "application/json;charset=UTF-8")]
                   "" (Some (PyDict [])))
                (PyDict []))
      as [m [e [s' [Hrun [_ [H429 [_ [Hbo _]]]]]]]];
      try reflexivity.
    + intros i Hi. apply (Hretried [429; 429; 429; 429]%Z i); [| cbn; lia].
      repeat constructor; cbn; tauto.
    + cbn. lia.
    + right. reflexivity.
    + exists m, s'. rewrite Hrun, (H429 eq_refl). split; [reflexivity | exact Hbo].
  - destruct (surfaced_error_by_status Samples.str_of "GET" Samples.bib_url
                Samples.json_request_headers PyNone None
                (Samples.facing [503; 500; 502; 504]%Z) 3
                (Response.mk 504 [("Content-Type", "application/json;charset=UTF-8")]
                   "" (Some (PyDict [])))
                (PyDict []))
      as [m [e [s' [Hrun [_ [_ [H5xx [Hbo _]]]]]]]];
      try reflexivity.
    + intros i Hi. apply (Hretried [503; 500; 502; 504]%Z i); [| cbn; lia].
      repeat constructor; cbn; tauto.
    + cbn. lia.
    + right. reflexivity.
    + exists m, s'. rewrite Hrun, H5xx by (cbn; tauto).
      split; [reflexivity | exact Hbo].
Defined.

(** C5 fails as stated on a response that is not successful and yet no
    failure for [requests]: a 304 answer is not retried, and it is
    returned as a response whose success flag is off; nothing is raised.
    And the error raised for a 503 answer, once the retries are spent, is
    of the base class [AlmaAPIError], the class raised for a 404 answer as
    well. *)
Lemma not_modified_is_returned :
  (exists a s',
     _make_request Samples.str_of "GET" Samples.bib_url Samples.json_request_headers
       PyNone None 0 (Samples.facing [304%Z]) = (Returns a, s')
     /\ AlmaResponse.status_code a = 304%Z
     /\ AlmaResponse.success a = false
     /\ backoffs (trace (snd s')) = []
     /\ requests (trace (snd s')) = [Samples.bib_request])
  /\ fst (_make_request Samples.str_of "GET" Samples.bib_url Samples.json_request_headers
            PyNone None 0 (Samples.facing [503; 503; 503; 503]%Z))
     = Raises (AlmaAPIError ("GET " ++ Samples.bib_url ++ " failed with status 503")
                 (Some 503%Z) (Some (PyDict [])))
  /\ fst (_make_request Samples.str_of "GET" Samples.bib_url Samples.json_request_headers
            PyNone None 0 (Samples.facing [404%Z]))
     = Raises (AlmaAPIError ("GET " ++ Samples.bib_url ++ " failed with status 404")
                 (Some 404%Z) (Some (PyDict []))).
Proof.
  split; [| split; vm_compute; reflexivity].
  eexists. eexists. split; [vm_compute; reflexivity |]. repeat split.
Qed.

(** The mapping is not reached when the message of the body cannot be
    read: a 401 answer whose [errorList] is a list surfaces as an
    [AttributeError]. *)
Lemma unreadable_error_body :
  fst (_make_request Samples.str_of "GET" Samples.bib_url Samples.json_request_headers
         PyNone None 0
         (Samples.base_prod, Samples.world_of Samples.full_environ Samples.remote_odd_error))
  = Raises (AttributeError "object has no attribute 'get'").
Proof. vm_compute. reflexivity. Qed.

(** C9.  An attempt answered with status 404 is the last one, whatever
    the retry count it was made with: the call raises at once, having sent
    that one request and slept for no retry; the error is the one
    [_handle_error_response] raises for the response, the base
    [AlmaAPIError] with the status and the body when the message of the
    body can be read. *)
Theorem not_found_is_not_retried (py_str : pyval -> string) (method url : string)
    (headers : gmap string string) (data : pyval) (params : option (gmap string string))
    (retry_count : nat) (s : state) (response : Response.t) :
  let req := request_of method url headers data params in
  supported method = true ->
  (0 < _rate_limit (fst s))%Z ->
  remote (snd s) (calls (snd s)) req = Reply response ->
  Response.status_code response = 404%Z ->
  exists e s',
    _make_request py_str method url headers data params retry_count s = (Raises e, s')
    /\ _handle_error_response py_str response method url s' = (Raises e, s')
    /\ backoffs (trace (snd s')) = backoffs (trace (snd s))
    /\ requests (trace (snd s')) = (requests (trace (snd s)) ++ [req])%list
    /\ calls (snd s') = S (calls (snd s))
    /\ forall error_data,
         _parse_response response tt = (Returns error_data, tt) ->
         readable_error error_data = true ->
         exists m, e = AlmaAPIError m (Some 404%Z) (Some error_data).
Proof.
  intros req Hsup Hpos Hreply Hstatus.
  destruct (enforce_returns req retry_count s Hpos) as [s1 [Henf Hquiet]].
  pose proof Hquiet as (_ & _ & _ & _ & Hr1 & Hc1 & Hbo1 & Hrq1).
  rewrite Nat.add_0_r in Hc1. rewrite !app_nil_r in Hbo1, Hrq1.
  assert (Hreply1 : remote (snd s1) (calls (snd s1)) req = Reply response)
    by (rewrite Hr1, Hc1; exact Hreply).
  assert (Hok : Response.ok response = false)
    by (unfold Response.ok; rewrite Hstatus; reflexivity).
  destruct (attempt_surfaced py_str method url headers data params retry_count s s1
              response Hsup Henf Hreply1 Hok) as [e [Hraise [Hne Hrun]]].
  { left. rewrite Hstatus. cbn. intuition lia. }
  exists e, (fst s1, sent req (snd s1)).
  split; [exact Hrun |]. split; [exact Hraise |].
  cbn [snd sent trace calls]. rewrite backoffs_app, requests_app, Hbo1, Hrq1, Hc1.
  cbn. rewrite app_nil_r. repeat split.
  intros error_data Hparse Hread.
  destruct (handle_error_mapping py_str response method url (fst s1, sent req (snd s1))
              error_data (parse_response_any_state _ _ _ _ Hparse) Hread)
    as [m [e' [Hraise' [_ [_ [_ Hother]]]]]].
  pose proof (eq_trans (eq_sym Hraise) Hraise') as Heq. injection Heq as Heq.
  subst e'. exists m. rewrite <- Hstatus. apply Hother.
  rewrite Hstatus. cbn. intuition lia.
Qed.

Lemma not_found_is_not_retried_witness :
  exists e s',
    _make_request Samples.str_of "GET" Samples.bib_url Samples.json_request_headers
      PyNone None 0 (Samples.facing [404%Z]) = (Raises e, s')
    /\ backoffs (trace (snd s')) = []
    /\ requests (trace (snd s')) = [Samples.bib_request]
    /\ exists m, e = AlmaAPIError m (Some 404%Z) (Some (PyDict [])).
Proof.
  destruct (not_found_is_not_retried Samples.str_of "GET" Samples.bib_url
              Samples.json_request_headers PyNone None 0 (Samples.facing [404%Z])
              (Response.mk 404 [("Content-Type", "application/json;charset=UTF-8")]
                 "" (Some (PyDict []))))
    as [e [s' [Hrun [_ [Hbo [Hrq [_ Hkind]]]]]]]; try reflexivity.
  exists e, s'. split; [exact Hrun |]. split; [exact Hbo |]. split; [exact Hrq |].
  apply Hkind; reflexivity.
Defined.



(** What [_make_request] returns was built from an answer that is no
    failure for [requests]; every other way a call can end is a raise. *)
Lemma make_request_returns_ok (py_str : pyval -> string) (method url : string)
    (headers : gmap string string) (data : pyval) (params : option (gmap string string))
    (n : nat) :
  forall (retry_count : nat) (s : state) (a : AlmaResponse.t) (s' : state),
    MAX_RETRIES - retry_count <= n ->
    _make_request py_str method url headers data params retry_count s = (Returns a, s') ->
    (AlmaResponse.status_code a < 400 \/ 600 <= AlmaResponse.status_code a)%Z.
Proof.
  induction n as [|n IH]; intros retry_count s a s' Hn Hrun.
  all: destruct (_enforce_rate_limit s) as [[[] | e] s1] eqn:Henf;
    [| rewrite _make_request_equation_1, (bind_raises _ _ _ _ _ Henf) in Hrun;
       discriminate].
  all: destruct (supported method) eqn:Hsup;
    [| rewrite (attempt_unsupported py_str method url headers data params retry_count
                  s s1 Hsup Henf) in Hrun; discriminate].
  all: destruct (remote (snd s1) (calls (snd s1))
                   (request_of method url headers data params)) as [r | msg] eqn:Hreply;
    [| rewrite (attempt_failed py_str method url headers data params retry_count
                  s s1 msg Hsup Henf Hreply) in Hrun; discriminate].
  all: destruct (Response.ok r) eqn:Hok;
    [ rewrite (attempt_ok py_str method url headers data params retry_count
                 s s1 r Hsup Henf Hreply Hok) in Hrun;
      destruct (parse_and_return_returns r method url
                  (fst s1, sent (request_of method url headers data params) (snd s1)))
        as [parsed [_ Hret]];
      rewrite Hret in Hrun; injection Hrun as <- _; cbn;
      unfold Response.ok in Hok; apply negb_true_iff, andb_false_iff in Hok;
      destruct Hok as [Hok | Hok]; [apply Z.leb_gt in Hok | apply Z.ltb_ge in Hok]; lia
    |].
  all: destruct (in_dec Z.eq_dec (Response.status_code r) RETRY_STATUS_CODES) as [Hin | Hnin];
    [| destruct (attempt_surfaced py_str method url headers data params retry_count
                   s s1 r Hsup Henf Hreply Hok (or_introl Hnin)) as [e [_ [_ He]]];
       rewrite He in Hrun; discriminate].
  all: destruct (lt_dec retry_count MAX_RETRIES) as [Hlt | Hge];
    [| destruct (attempt_surfaced py_str method url headers data params retry_count
                   s s1 r Hsup Henf Hreply Hok) as [e [_ [_ He]]]; [right; lia |];
       rewrite He in Hrun; discriminate].
  - lia.
  - rewrite (attempt_retried py_str method url headers data params retry_count
               s s1 r Hsup Henf Hreply Hin Hlt) in Hrun.
    unfold try_except in Hrun.
    destruct (_make_request py_str method url headers data params (retry_count + 1) _)
      as [[a' | e'] st''] eqn:Hnext.
    + injection Hrun as <- _. eapply (IH (retry_count + 1)); [lia | exact Hnext].
    + destruct (is_RequestException e'); discriminate.
Qed.

End ExecutorFacts.

(** ** The rolling window *)

Module WindowFacts.
Import BaseAPIClient.
Import RateLimitFacts.

(** C4.  One call of the limiter, at the instant [now]: it keeps the
    recorded timestamps less than 60 seconds old and drops the others;
    with fewer kept than the limit it records [now] and does not sleep;
    with as many kept as the limit, or more, it sleeps
    [60 - (now - oldest)] seconds, which is positive and ends at the
    instant [oldest + 60], and records [now]; [oldest], the first kept
    timestamp, is the earliest one when the timestamps were recorded in
    order.  On a fresh gateway with limit N, N calls that all fall within
    one window are recorded without a sleep, and a call that follows them
    within the window sleeps once, until the instant the first of them
    leaves the window.  The executor runs the limiter before it sends:
    with a positive limit the limiter returns, and a call that is not
    retried ends in the state the limiter left, one request later. *)
Theorem rate_limit_window :
  (forall s : state,
     let now := clock (snd s) in
     let kept :=
       List.filter (fun x => Qlt_bool (now - x) 60) (_request_times (fst s)) in
     (forall x, In x kept <-> In x (_request_times (fst s)) /\ (now - x < 60)%Q)
     /\ ((Z.of_nat (length kept) < _rate_limit (fst s))%Z ->
         _enforce_rate_limit s =
           (Returns tt, (set_request_times (kept ++ [now])%list (fst s), snd s)))
     /\ (forall oldest rest,
           (_rate_limit (fst s) <= Z.of_nat (length kept))%Z ->
           kept = oldest :: rest ->
           (StronglySorted Qle (_request_times (fst s)) ->
            forall x, In x kept -> (oldest <= x)%Q)
           /\ exists s',
                _enforce_rate_limit s = (Returns tt, s')
                /\ _request_times (fst s') = (kept ++ [now])%list
                /\ trace (snd s') =
                     (trace (snd s) ++ [Sleep RateLimit (60 - (now - oldest))%Q])%list
                /\ (0 < 60 - (now - oldest))%Q
                /\ (clock (snd s') == oldest + 60)%Q))
  /\
  (forall (self : t) (w : world) (ts : list Q),
     _request_times self = [] ->
     (Z.of_nat (length ts) <= _rate_limit self)%Z ->
     (forall a b, In a ts -> In b ts -> (b - a < 60)%Q) ->
     exists s',
       calls_at ts (self, w) = (Returns tt, s')
       /\ _request_times (fst s') = ts
       /\ trace (snd s') = trace w)
  /\
  (forall (self : t) (w : world) (oldest : Q) (ts : list Q) (t_last : Q),
     _request_times self = [] ->
     Z.of_nat (length (oldest :: ts)) = _rate_limit self ->
     (forall a b, In a (oldest :: ts ++ [t_last]) -> In b (oldest :: ts ++ [t_last]) ->
                  (b - a < 60)%Q) ->
     exists s',
       calls_at (oldest :: ts ++ [t_last]) (self, w) = (Returns tt, s')
       /\ trace (snd s') = (trace w ++ [Sleep RateLimit (60 - (t_last - oldest))%Q])%list
       /\ (0 < 60 - (t_last - oldest))%Q
       /\ (clock (snd s') == oldest + 60)%Q
       /\ ~ (clock (snd s') - oldest < 60)%Q)
  /\
  (forall (py_str : pyval -> string) (method url : string) (headers : gmap string string)
          (data : pyval) (params : option (gmap string string)) (retry_count : nat)
          (s : state),
     supported method = true ->
     (0 < _rate_limit (fst s))%Z ->
     exists s1,
       _enforce_rate_limit s = (Returns tt, s1)
       /\ ((exists r,
              remote (snd s1) (calls (snd s1))
                (request_of method url headers data params) = Reply r
              /\ In (Response.status_code r) RETRY_STATUS_CODES
              /\ retry_count < MAX_RETRIES)
           \/ snd (_make_request py_str method url headers data params retry_count s)
              = (fst s1, sent (request_of method url headers data params) (snd s1)))).
Proof.
  split; [| split; [| split]].
  - intros s now kept. split; [| split].
    + intros x. unfold kept. rewrite filter_In, Qlt_bool_iff. reflexivity.
    + apply enforce_below_limit.
    + intros oldest rest Hle Hkept. split.
      * intros Hsorted x Hx. rewrite Hkept in Hx.
        eapply filter_sorted_head; eauto.
      * destruct (enforce_at_limit s oldest rest Hle Hkept) as [Hpos Hrun].
        eexists. split; [exact Hrun |]. cbn.
        repeat split; [exact Hpos |].
        fold now. ring.
  - intros self w ts Hfresh Hlen Hwin.
    eexists. split; [apply (calls_at_below_limit ts [] self w Hfresh) |].
    + cbn [length]. lia.
    + exact Hwin.
    + cbn. auto.
  - intros self w oldest ts t_last Hfresh Hlen Hwin.
    change (oldest :: ts ++ [t_last])%list with ((oldest :: ts) ++ [t_last])%list.
    rewrite calls_at_app.
    assert (Hfirst := calls_at_below_limit (oldest :: ts) [] self w Hfresh).
    cbn [app length Nat.add] in Hfirst, Hlen.
    rewrite (bind_returns _ _ _ _ _ (Hfirst ltac:(lia)
               ltac:(intros a b Ha Hb; apply Hwin;
                     change (oldest :: ts ++ [t_last])%list
                       with ((oldest :: ts) ++ [t_last])%list;
                     apply in_or_app; left; assumption))).
    clear Hfirst.
    unfold call_at. cbn [fst snd environ remote calls trace].
    set (s0 := (set_request_times (oldest :: ts) self,
                mk_world (environ w) t_last (remote w) (calls w) (trace w))).
    assert (Hkept : List.filter (fun x => Qlt_bool (clock (snd s0) - x) 60)
                      (_request_times (fst s0)) = oldest :: ts).
    { cbn [s0 fst snd clock _request_times set_request_times].
      apply (filter_all _ (oldest :: ts)). intros x Hx. apply Qlt_bool_iff.
      apply Hwin; change (oldest :: ts ++ [t_last])%list
                    with ((oldest :: ts) ++ [t_last])%list;
        apply in_or_app; [left; exact Hx | right; left; reflexivity]. }
    destruct (enforce_at_limit s0 oldest ts) as [Hpos Hrun].
    + rewrite Hkept. cbn [fst s0 _rate_limit set_request_times length]. lia.
    + exact Hkept.
    + cbn [s0 fst snd clock] in Hpos, Hrun |- *.
      eexists. split; [exact Hrun |]. cbn [fst snd trace clock].
      split; [reflexivity |]. split; [exact Hpos |].
      split; [ring |]. intros Hlt. lra.
  - intros py_str method url headers data params retry_count s Hsup Hpos.
    destruct (ExecutorFacts.enforce_returns (request_of method url headers data params)
                retry_count s Hpos) as [s1 [Henf _]].
    exists s1. split; [exact Henf |].
    destruct (remote (snd s1) (calls (snd s1)) (request_of method url headers data params))
      as [r | msg] eqn:Hreply.
    + destruct (Response.ok r) eqn:Hok.
      * right.
        rewrite (ExecutorFacts.attempt_ok py_str method url headers data params
                   retry_count s s1 r Hsup Henf Hreply Hok).
        destruct (ExecutorFacts.parse_and_return_returns r method url
                    (fst s1, sent (request_of method url headers data params) (snd s1)))
          as [parsed [_ Hret]].
        rewrite Hret. reflexivity.
      * destruct (in_dec Z.eq_dec (Response.status_code r) RETRY_STATUS_CODES)
          as [Hin | Hnin];
          [destruct (lt_dec retry_count MAX_RETRIES) as [Hlt | Hge];
           [left; eauto |] |];
          right;
          (destruct (ExecutorFacts.attempt_surfaced py_str method url headers data params
                       retry_count s s1 r Hsup Henf Hreply Hok) as [e [_ [_ Hrun]]];
           [(left; assumption) || (right; lia) | rewrite Hrun; reflexivity]).
    + right.
      rewrite (ExecutorFacts.attempt_failed py_str method url headers data params
                 retry_count s s1 msg Hsup Henf Hreply).
      reflexivity.
Qed.

Lemma rate_limit_window_witness :
  (exists s',
     calls_at [0%Q; 1%Q] (Samples.base_limit2, Samples.world0) = (Returns tt, s')
     /\ _request_times (fst s') = [0%Q; 1%Q]
     /\ trace (snd s') = [])
  /\
  (exists s',
     calls_at [0%Q; 1%Q; 2%Q] (Samples.base_limit2, Samples.world0) = (Returns tt, s')
     /\ trace (snd s') = [Sleep RateLimit (60 - (2 - 0))%Q]
     /\ (clock (snd s') == 60)%Q)
  /\
  (exists s1,
     _enforce_rate_limit (Samples.facing [404%Z]) = (Returns tt, s1)
     /\ snd (_make_request Samples.str_of "GET" Samples.bib_url
               Samples.json_request_headers PyNone None 0 (Samples.facing [404%Z]))
        = (fst s1, sent Samples.bib_request (snd s1))).
Proof.
  destruct rate_limit_window as [_ [H2 [H3 H4]]].
  assert (Hwin : forall a b : Q,
            In a [0%Q; 1%Q; 2%Q] -> In b [0%Q; 1%Q; 2%Q] -> (b - a < 60)%Q).
  { intros a b Ha Hb. cbn in Ha, Hb.
    destruct Ha as [<- | [<- | [<- | []]]];
      destruct Hb as [<- | [<- | [<- | []]]]; reflexivity. }
  split; [| split].
  - apply (H2 Samples.base_limit2 Samples.world0 [0%Q; 1%Q]).
    + reflexivity.
    + cbn. lia.
    + intros a b Ha Hb. apply Hwin; cbn in *; tauto.
  - destruct (H3 Samples.base_limit2 Samples.world0 0%Q [1%Q] 2%Q)
      as [s' [Hrun [Htrace [_ [Hclock _]]]]].
    + reflexivity.
    + reflexivity.
    + exact Hwin.
    + exists s'. split; [exact Hrun |]. split; [exact Htrace |].
      rewrite Hclock. reflexivity.
  - destruct (H4 Samples.str_of "GET" Samples.bib_url Samples.json_request_headers
                PyNone None 0 (Samples.facing [404%Z]))
      as [s1 [Henf [[r [Hreply [Hin _]]] | Hend]]]; try reflexivity.
    + exfalso. vm_compute in Henf. injection Henf as <-.
      vm_compute in Hreply. injection Hreply as <-.
      cbn in Hin. intuition lia.
    + exists s1. split; [exact Henf | exact Hend].
Defined.

End WindowFacts.

(** ** Propagation of failures *)

Module PropagationFacts.

(** C6, as the code has it.  The request executor [_make_request] hands
    every failure to its caller as an exception: what it returns was built
    from an answer whose status is outside 400..599, a transport failure
    is raised as [AlmaAPIError], and a failure status that is not retried
    is raised as the error of [_handle_error_response].  The gateway
    [AlmaAPIClient] offers [safe_request] besides its verbs: it never
    raises, and it returns [None] for a call the remote API fails. *)
Theorem executor_raises_safe_request_softens :
  (forall (py_str : pyval -> string) (method url : string) (headers : gmap string string)
          (data : pyval) (params : option (gmap string string)) (retry_count : nat)
          (s s' : BaseAPIClient.state) (a : AlmaResponse.t),
     BaseAPIClient._make_request py_str method url headers data params retry_count s
       = (Returns a, s') ->
     (AlmaResponse.status_code a < 400 \/ 600 <= AlmaResponse.status_code a)%Z)
  /\
  (forall (py_str : pyval -> string) (method url : string) (headers : gmap string string)
          (data : pyval) (params : option (gmap string string)) (retry_count : nat)
          (s : BaseAPIClient.state) (message : string),
     BaseAPIClient.supported method = true ->
     (0 < BaseAPIClient._rate_limit (fst s))%Z ->
     remote (snd s) (calls (snd s))
       (BaseAPIClient.request_of method url headers data params) = Failure message ->
     exists s',
       BaseAPIClient._make_request py_str method url headers data params retry_count s
         = (Raises (AlmaAPIError ("Network error: " ++ message) None None), s'))
  /\
  (forall (py_str : pyval -> string) (method url : string) (headers : gmap string string)
          (data : pyval) (params : option (gmap string string)) (retry_count : nat)
          (s : BaseAPIClient.state) (response : Response.t),
     BaseAPIClient.supported method = true ->
     (0 < BaseAPIClient._rate_limit (fst s))%Z ->
     remote (snd s) (calls (snd s))
       (BaseAPIClient.request_of method url headers data params) = Reply response ->
     Response.ok response = false ->
     ~ In (Response.status_code response) BaseAPIClient.RETRY_STATUS_CODES
     \/ BaseAPIClient.MAX_RETRIES <= retry_count ->
     exists e s',
       BaseAPIClient._make_request py_str method url headers data params retry_count s
         = (Raises e, s')
       /\ BaseAPIClient._handle_error_response py_str response method url s'
          = (Raises e, s'))
  /\
  (forall (method endpoint : string) (kw : AlmaAPIClient.kwargs) (s : AlmaAPIClient.state),
     exists v s',
       AlmaAPIClient.safe_request method endpoint kw s = (Returns v, s')
       /\ ((forall req,
              match remote (snd s) (calls (snd s)) req with
              | Reply r => Response.ok r = false
              | Failure _ => True
              end) ->
           v = PyNone)).
Proof.
  split; [| split; [| split]].
  - intros py_str method url headers data params retry_count s s' a Hrun.
    eapply (ExecutorFacts.make_request_returns_ok py_str method url headers data params
              (BaseAPIClient.MAX_RETRIES - retry_count)); [| exact Hrun].
    lia.
  - intros py_str method url headers data params retry_count s message Hsup Hpos Hreply.
    destruct (ExecutorFacts.enforce_returns
                (BaseAPIClient.request_of method url headers data params)
                retry_count s Hpos) as [s1 [Henf Hquiet]].
    destruct Hquiet as (_ & _ & _ & _ & Hr1 & Hc1 & _ & _).
    rewrite Nat.add_0_r in Hc1. rewrite <- Hr1, <- Hc1 in Hreply.
    eexists.
    apply (ExecutorFacts.attempt_failed py_str method url headers data params
             retry_count s s1 message Hsup Henf Hreply).
  - intros py_str method url headers data params retry_count s response
      Hsup Hpos Hreply Hok Hnot.
    destruct (ExecutorFacts.enforce_returns
                (BaseAPIClient.request_of method url headers data params)
                retry_count s Hpos) as [s1 [Henf Hquiet]].
    destruct Hquiet as (_ & _ & _ & _ & Hr1 & Hc1 & _ & _).
    rewrite Nat.add_0_r in Hc1. rewrite <- Hr1, <- Hc1 in Hreply.
    destruct (ExecutorFacts.attempt_surfaced py_str method url headers data params
                retry_count s s1 response Hsup Henf Hreply Hok Hnot)
      as [e [Hraise [_ Hrun]]].
    eauto.
  - apply SafeRequestFacts.safe_request_soft.
Qed.

Lemma executor_raises_safe_request_softens_witness :
  (exists s',
     BaseAPIClient._make_request Samples.str_of "GET" Samples.bib_url
       Samples.json_request_headers PyNone None 0
       (Samples.base_prod, Samples.world_of Samples.full_environ Samples.remote_down)
     = (Raises (AlmaAPIError "Network error: Connection refused" None None), s'))
  /\ (exists e s',
        BaseAPIClient._make_request Samples.str_of "GET" Samples.bib_url
          Samples.json_request_headers PyNone None 0 (Samples.facing [403%Z])
        = (Raises e, s'))
  /\ (exists s',
        AlmaAPIClient.safe_request "GET" "almaws/v1/bibs/invalid_mms_id"
          AlmaAPIClient.no_kwargs Samples.sandbox_facing_outage
        = (Returns PyNone, s')).
Proof.
  destruct executor_raises_safe_request_softens as [_ [H2 [H3 H4]]].
  split; [| split].
  - apply (H2 Samples.str_of "GET" Samples.bib_url Samples.json_request_headers PyNone None 0
             (Samples.base_prod,
              Samples.world_of Samples.full_environ Samples.remote_down)
             "Connection refused"); reflexivity.
  - destruct (H3 Samples.str_of "GET" Samples.bib_url Samples.json_request_headers
                PyNone None 0 (Samples.facing [403%Z])
                (Response.mk 403 [("Content-Type", "application/json;charset=UTF-8")]
                   "" (Some (PyDict []))))
      as [e [s' [Hrun _]]]; try reflexivity.
    + left. cbn. intuition lia.
    + eauto.
  - destruct (H4 "GET" "almaws/v1/bibs/invalid_mms_id" AlmaAPIClient.no_kwargs
                Samples.sandbox_facing_outage) as [v [s' [Hrun Hnone]]].
    exists s'. rewrite Hrun, Hnone; [reflexivity |].
    intros req. exact I.
Defined.

(** C6 fails as stated on the gateway [AlmaAPIClient]: its [safe_request]
    turns a 404 answer, and an unreachable remote API, into the result
    [None]; nothing is raised to the caller. *)
Lemma safe_request_returns_none :
  fst (AlmaAPIClient.safe_request "GET" "almaws/v1/bibs/invalid_mms_id"
         AlmaAPIClient.no_kwargs Samples.sandbox_facing_404) = Returns PyNone
  /\ fst (AlmaAPIClient.safe_request "GET" "almaws/v1/bibs/invalid_mms_id"
            AlmaAPIClient.no_kwargs Samples.sandbox_facing_outage) = Returns PyNone.
Proof. split; vm_compute; reflexivity. Qed.

End PropagationFacts.

(** ** The normalised response *)

Module ResponseFacts.

(** C8.  A response constructed from a dict gives the dict back through
    [json()], and one constructed from a string gives the string back
    through [text()]; so does the response the executor constructs from
    what [_parse_response] returns: the raw text under a content type
    that is not JSON, the parsed dict under a JSON content type.  The
    success flag is set exactly for the statuses from 200 to 299. *)
Theorem response_round_trip (json_loads : string -> option pyval)
    (json_dumps : pyval -> string) :
  (forall items status headers url method,
     AlmaResponse.json json_loads
       (AlmaResponse.__init__ (PyDict items) status headers url method)
     = Returns (PyDict items))
  /\
  (forall s status headers url method,
     AlmaResponse.text json_dumps
       (AlmaResponse.__init__ (PyStr s) status headers url method)
     = PyStr s)
  /\
  (forall (response : Response.t) url method,
     contains "application/json"
       (lower (Response.header_get "Content-Type" (Response.headers response))) = false ->
     exists parsed,
       BaseAPIClient._parse_response response tt = (Returns parsed, tt)
       /\ AlmaResponse.text json_dumps
            (AlmaResponse.__init__ parsed (Response.status_code response)
               (Response.headers response) url method)
          = PyStr (Response.text response))
  /\
  (forall (response : Response.t) items url method,
     contains "application/json"
       (lower (Response.header_get "Content-Type" (Response.headers response))) = true ->
     Response.json_body response = Some (PyDict items) ->
     exists parsed,
       BaseAPIClient._parse_response response tt = (Returns parsed, tt)
       /\ AlmaResponse.json json_loads
            (AlmaResponse.__init__ parsed (Response.status_code response)
               (Response.headers response) url method)
          = Returns (PyDict items))
  /\
  (forall data status headers url method,
     AlmaResponse.success (AlmaResponse.__init__ data status headers url method) = true
     <-> (200 <= status < 300)%Z).
Proof.
  split; [| split; [| split; [| split]]].
  - reflexivity.
  - reflexivity.
  - intros response url method Hplain. exists (PyStr (Response.text response)).
    unfold BaseAPIClient._parse_response. rewrite Hplain. split; reflexivity.
  - intros response items url method Hjson Hbody. exists (PyDict items).
    unfold BaseAPIClient._parse_response, try_except, Response.json.
    rewrite Hjson, Hbody. split; reflexivity.
  - intros data status headers url method. cbn.
    rewrite andb_true_iff, Z.leb_le, Z.ltb_lt. reflexivity.
Qed.

Lemma response_round_trip_witness :
  (exists parsed,
     BaseAPIClient._parse_response Samples.plain_text tt = (Returns parsed, tt)
     /\ AlmaResponse.text Samples.dumps_empty
          (AlmaResponse.__init__ parsed 200 [("Content-Type", "text/plain")]
             (Some Samples.bib_url) (Some "GET"))
        = PyStr "pong")
  /\ (exists parsed,
        BaseAPIClient._parse_response Samples.json_count tt = (Returns parsed, tt)
        /\ AlmaResponse.json Samples.loads_empty
             (AlmaResponse.__init__ parsed 200
                [("content-type", "application/json;charset=UTF-8")]
                (Some Samples.bib_url) (Some "GET"))
           = Returns (PyDict [("total_record_count", PyInt 3)]))
  /\ AlmaResponse.success
       (AlmaResponse.__init__ PyNone 204 [] None None) = true.
Proof.
  destruct (response_round_trip Samples.loads_empty Samples.dumps_empty)
    as [_ [_ [H3 [H4 H5]]]].
  split; [| split].
  - apply (H3 Samples.plain_text (Some Samples.bib_url) (Some "GET")). reflexivity.
  - apply (H4 Samples.json_count [("total_record_count", PyInt 3)]
             (Some Samples.bib_url) (Some "GET")); reflexivity.
  - apply (proj2 (H5 PyNone 204%Z [] None None)). lia.
Defined.

End ResponseFacts.

(** ** What a call costs, whatever it is answered *)

Module BoundFacts.
Import BaseAPIClient.

Lemma attempts_refl (req : http_request) (rc : nat) (s : state) : attempts req rc 0 0 s s.
Proof.
  unfold attempts. cbn. rewrite !app_nil_r, Nat.add_0_r. repeat split.
Qed.

(** The limiter, however it ends, is no attempt: it changes the recorded
    timestamps, the clock and its own sleeps only. *)
Lemma enforce_quiet (req : http_request) (rc : nat) (s : state) :
  attempts req rc 0 0 s (snd (_enforce_rate_limit s)).
Proof.
  destruct s as [self w].
  unfold _enforce_rate_limit, bind, time_time, setself, getself, time_sleep, slept, raise, ret.
  cbn [fst snd set_request_times _request_times _rate_limit].
  destruct (_rate_limit self <=? _)%Z.
  - destruct (List.filter _ (_request_times self)) as [|oldest rest].
    + unfold attempts. cbn. rewrite !app_nil_r, Nat.add_0_r. repeat split.
    + destruct (Qlt_bool 0 _);
        unfold attempts; cbn;
        rewrite ?ExecutorFacts.backoffs_app, ?ExecutorFacts.requests_app; cbn;
        rewrite !app_nil_r, Nat.add_0_r; repeat split.
  - unfold attempts. cbn. rewrite !app_nil_r, Nat.add_0_r. repeat split.
Qed.

Lemma attempts_sent (req : http_request) (rc : nat) (s s1 : state) :
  attempts req rc 0 0 s s1 ->
  attempts req rc 0 1 s (fst s1, sent req (snd s1)).
Proof.
  unfold attempts. cbn.
  intros (Hb & Hh & Hl & He & Hr & Hc & Hbo & Hrq).
  rewrite ExecutorFacts.backoffs_app, ExecutorFacts.requests_app, Hbo, Hrq, Hc. cbn.
  rewrite !app_nil_r, Nat.add_0_r.
  repeat split; try assumption. lia.
Qed.

Lemma attempts_retry (req : http_request) (rc k m : nat) (s s1 s' : state) :
  attempts req rc 0 0 s s1 ->
  attempts req (rc + 1) k m
    (fst s1, slept Backoff (backoff_delay rc) (sent req (snd s1))) s' ->
  attempts req rc (S k) (S m) s s'.
Proof.
  unfold attempts. cbn.
  intros (Hb & Hh & Hl & He & Hr & Hc & Hbo & Hrq)
         (Hb' & Hh' & Hl' & He' & Hr' & Hc' & Hbo' & Hrq').
  rewrite !ExecutorFacts.backoffs_app in Hbo'.
  rewrite !ExecutorFacts.requests_app in Hrq'.
  cbn in Hbo', Hrq'. rewrite ?app_nil_r in Hbo', Hrq'.
  rewrite Hbo', Hrq', Hbo, Hrq, Hc', Hc, <- !app_assoc.
  replace (rc + 1) with (S rc) by lia. cbn.
  repeat split; try congruence. lia.
Qed.

Lemma try_except_state {St A} (m : M St A) (E : exn -> bool) (e' : exn -> exn) (s : St) :
  snd (try_except m E (fun e => raise (e' e)) s) = snd (m s).
Proof.
  unfold try_except, raise. destruct (m s) as [[a | e] s']; [reflexivity |].
  destruct (E e); reflexivity.
Qed.

Lemma make_request_attempts (py_str : pyval -> string) (method url : string)
    (headers : gmap string string) (data : pyval) (params : option (gmap string string))
    (n : nat) :
  forall (retry_count : nat) (s : state),
    MAX_RETRIES - retry_count <= n ->
    exists k m,
      k <= MAX_RETRIES - retry_count
      /\ (m = k \/ m = S k)
      /\ (supported method = false -> m = 0)
      /\ attempts (request_of method url headers data params) retry_count k m s
           (snd (_make_request py_str method url headers data params retry_count s)).
Proof.
  set (req := request_of method url headers data params).
  induction n as [|n IH]; intros retry_count s Hn.
  all: pose proof (enforce_quiet req retry_count s) as Hquiet.
  all: destruct (_enforce_rate_limit s) as [[[] | e] s1] eqn:Henf; cbn [snd] in Hquiet;
    [| exists 0, 0;
       rewrite _make_request_equation_1, (bind_raises _ _ _ _ _ Henf);
       split; [lia |]; split; [auto |]; split; [auto |]; exact Hquiet].
  all: destruct (supported method) eqn:Hsup;
    [| exists 0, 0;
       rewrite (ExecutorFacts.attempt_unsupported py_str method url headers data params
                  retry_count s s1 Hsup Henf);
       split; [lia |]; split; [auto |]; split; [auto |]; exact Hquiet].
  all: destruct (remote (snd s1) (calls (snd s1)) req) as [r | msg] eqn:Hreply;
    [| exists 0, 1;
       rewrite (ExecutorFacts.attempt_failed py_str method url headers data params
                  retry_count s s1 msg Hsup Henf Hreply);
       split; [lia |]; split; [auto |]; split; [discriminate |];
       apply attempts_sent; exact Hquiet].
  all: destruct (Response.ok r) eqn:Hok;
    [ exists 0, 1;
      rewrite (ExecutorFacts.attempt_ok py_str method url headers data params
                 retry_count s s1 r Hsup Henf Hreply Hok);
      destruct (ExecutorFacts.parse_and_return_returns r method url
                  (fst s1, sent req (snd s1))) as [parsed [_ Hret]];
      fold req; rewrite Hret;
      split; [lia |]; split; [auto |]; split; [discriminate |];
      apply attempts_sent; exact Hquiet
    |].
  all: destruct (in_dec Z.eq_dec (Response.status_code r) RETRY_STATUS_CODES) as [Hin | Hnin];
    [| exists 0, 1;
       destruct (ExecutorFacts.attempt_surfaced py_str method url headers data params
                   retry_count s s1 r Hsup Henf Hreply Hok (or_introl Hnin))
         as [e [_ [_ He]]];
       rewrite He;
       split; [lia |]; split; [auto |]; split; [discriminate |];
       apply attempts_sent; exact Hquiet].
  all: destruct (lt_dec retry_count MAX_RETRIES) as [Hlt | Hge];
    [| exists 0, 1;
       destruct (ExecutorFacts.attempt_surfaced py_str method url headers data params
                   retry_count s s1 r Hsup Henf Hreply Hok) as [e [_ [_ He]]];
       [right; lia |];
       rewrite He;
       split; [lia |]; split; [auto |]; split; [discriminate |];
       apply attempts_sent; exact Hquiet].
  - lia.
  - rewrite (ExecutorFacts.attempt_retried py_str method url headers data params
               retry_count s s1 r Hsup Henf Hreply Hin Hlt).
    rewrite try_except_state. fold req.
    destruct (IH (retry_count + 1)
                (fst s1, slept Backoff (backoff_delay retry_count) (sent req (snd s1))))
      as [k [m [Hk [Hm [_ Hatt]]]]]; [lia |].
    exists (S k), (S m). split; [lia |]. split; [lia |]. split; [discriminate |].
    eapply attempts_retry; eauto.
Qed.

(** X1.  Whatever the remote API answers and whatever the state of the
    client, one call of [_make_request] with a method written in ASCII
    sends at most four requests, all of them the request of its
    arguments; it sleeps in the retry branch at most three times, for 1, 2
    and 4 seconds in that order, and the number of requests is the number
    of these sleeps or one more; a method it has no branch for sends
    nothing.  The base URL, the headers and the rate limit of the client,
    the process environment and the remote API are as they were. *)
Theorem make_request_bounded (py_str : pyval -> string) (method url : string)
    (headers : gmap string string) (data : pyval) (params : option (gmap string string))
    (s : state) :
  is_ascii method = true ->
  exists k m,
    k <= MAX_RETRIES
    /\ (m = k \/ m = S k)
    /\ (supported method = false -> m = 0)
    /\ attempts (request_of method url headers data params) 0 k m s
         (snd (_make_request py_str method url headers data params 0 s)).
Proof.
  intros _.
  destruct (make_request_attempts py_str method url headers data params MAX_RETRIES 0 s)
    as [k [m [Hk H]]]; [lia |].
  exists k, m. split; [lia | exact H].
Qed.

Lemma make_request_bounded_witness :
  exists k,
    k <= MAX_RETRIES
    /\ attempts
         (request_of "PATCH" Samples.bib_url Samples.json_request_headers PyNone None)
         0 k 0 (Samples.facing [])
         (snd (_make_request Samples.str_of "PATCH" Samples.bib_url
                 Samples.json_request_headers PyNone None 0 (Samples.facing []))).
Proof.
  destruct (make_request_bounded Samples.str_of "PATCH" Samples.bib_url
              Samples.json_request_headers PyNone None (Samples.facing []) eq_refl)
    as [k [m [Hk [_ [Hm Hatt]]]]].
  rewrite (Hm eq_refl) in Hatt. exists k. split; [exact Hk | exact Hatt].
Defined.

(** X2.  A method written in ASCII that is none of GET, POST, PUT and
    DELETE, in any mix of upper and lower case, is refused with
    [AlmaValidationError] and nothing is sent, yet the call has gone
    through the rate limiter first: with the window below the limit, its
    timestamp is recorded like that of a request. *)
Theorem unsupported_method_is_counted (py_str : pyval -> string) (method url : string)
    (headers : gmap string string) (data : pyval) (params : option (gmap string string))
    (s : state) :
  is_ascii method = true ->
  supported method = false ->
  let now := clock (snd s) in
  let kept := List.filter (fun t => Qlt_bool (now - t) 60) (_request_times (fst s)) in
  (Z.of_nat (length kept) < _rate_limit (fst s))%Z ->
  _make_request py_str method url headers data params 0 s
  = (Raises (AlmaValidationError ("Unsupported HTTP method: " ++ method) None None),
     (set_request_times (kept ++ [now]) (fst s), snd s)).
Proof.
  intros _ Hsup now kept Hbelow.
  apply (ExecutorFacts.attempt_unsupported py_str method url headers data params 0 s _ Hsup).
  apply RateLimitFacts.enforce_below_limit. exact Hbelow.
Qed.

Lemma unsupported_method_is_counted_witness :
  _make_request Samples.str_of "PATCH" Samples.bib_url Samples.json_request_headers PyNone
    None 0 (Samples.facing [])
  = (Raises (AlmaValidationError "Unsupported HTTP method: PATCH" None None),
     (set_request_times [0%Q] Samples.base_prod, snd (Samples.facing []))).
Proof.
  apply (unsupported_method_is_counted Samples.str_of "PATCH" Samples.bib_url
           Samples.json_request_headers PyNone None (Samples.facing []));
    [reflexivity | reflexivity | vm_compute; reflexivity].
Defined.

End BoundFacts.

(** ** The verbs of [BaseAPIClient] *)

Module VerbFacts.
Import BaseAPIClient.

Lemma build_url_returns (endpoint : string) (s : state) :
  _build_url endpoint s =
    (Returns (if startswith "http" endpoint then endpoint
              else rstrip_slash (base_url (fst s)) ++ "/" ++ lstrip_slash endpoint), s).
Proof. unfold _build_url, bind, getself, ret. destruct (startswith _ _); reflexivity. Qed.

Lemma prepare_headers_returns (content_type accept : string) (s : state)
    (h : gmap string string) :
  headers (fst s) = Some h ->
  exists hs,
    _prepare_headers content_type accept s = (Returns hs, s)
    /\ hs !! "Accept" =
         Some (if lower accept =? "xml" then "application/xml" else "application/json")
    /\ hs !! "Content-Type" =
         Some (if lower content_type =? "xml" then "application/xml;charset=utf-8"
               else "application/json;charset=utf-8")
    /\ forall name, name <> "Accept" -> name <> "Content-Type" -> hs !! name = h !! name.
Proof.
  intros Hh. unfold _prepare_headers, bind, getself, ret. cbn [fst]. rewrite Hh.
  eexists. split; [reflexivity |].
  destruct (lower accept =? "xml"), (lower content_type =? "xml");
    (split; [apply lookup_insert_eq |]);
    (split; [rewrite lookup_insert_ne by discriminate; apply lookup_insert_eq |]);
    intros name Ha Hc; rewrite !lookup_insert_ne by congruence; reflexivity.
Qed.

Lemma prepare_headers_none (content_type accept : string) (s : state) :
  headers (fst s) = None ->
  _prepare_headers content_type accept s =
    (Raises (AttributeError "'NoneType' object has no attribute 'copy'"), s).
Proof.
  intros Hh. unfold _prepare_headers, bind, getself, raise. cbn [fst]. rewrite Hh.
  reflexivity.
Qed.

(** A verb is the executor run on the URL and the headers it prepared. *)
Lemma verb_prepared {A} (endpoint content_type accept : string) (s : state)
    (h : gmap string string) (k : string -> gmap string string -> M state A) :
  headers (fst s) = Some h ->
  exists hs,
    (url <- _build_url endpoint ;; headers <- _prepare_headers content_type accept ;;
     k url headers) s
    = k (if startswith "http" endpoint then endpoint
         else rstrip_slash (base_url (fst s)) ++ "/" ++ lstrip_slash endpoint) hs s
    /\ hs !! "Accept" =
         Some (if lower accept =? "xml" then "application/xml" else "application/json")
    /\ hs !! "Content-Type" =
         Some (if lower content_type =? "xml" then "application/xml;charset=utf-8"
               else "application/json;charset=utf-8")
    /\ forall name, name <> "Accept" -> name <> "Content-Type" -> hs !! name = h !! name.
Proof.
  intros Hh.
  destruct (prepare_headers_returns content_type accept s h Hh) as [hs [Hp Hrest]].
  exists hs. split; [| exact Hrest].
  rewrite (bind_returns _ _ _ _ _ (build_url_returns endpoint s)).
  rewrite (bind_returns _ _ _ _ _ Hp). reflexivity.
Qed.

(** Whatever a verb ends with, it changed the client and the world as a
    bounded run of attempts does. *)
Lemma verb_attempts {A} (endpoint content_type accept : string) (s : state)
    (k : string -> gmap string string -> M state A) :
  (forall url hs, exists req n m,
      n <= MAX_RETRIES /\ m <= S n /\ attempts req 0 n m s (snd (k url hs s))) ->
  exists req n m,
    n <= MAX_RETRIES /\ m <= S n
    /\ attempts req 0 n m s
         (snd ((url <- _build_url endpoint ;;
                headers <- _prepare_headers content_type accept ;;
                k url headers) s)).
Proof.
  intros Hk.
  rewrite (bind_returns _ _ _ _ _ (build_url_returns endpoint s)).
  destruct (headers (fst s)) as [h |] eqn:Hh.
  - destruct (prepare_headers_returns content_type accept s h Hh) as [hs [Hp _]].
    rewrite (bind_returns _ _ _ _ _ Hp). apply Hk.
  - rewrite (bind_raises _ _ _ _ _ (prepare_headers_none content_type accept s Hh)).
    exists (mk_request "" "" ∅ NoBody None None), 0, 0.
    split; [lia |]. split; [lia |]. apply BoundFacts.attempts_refl.
Qed.

Lemma make_request_run (py_str : pyval -> string) (method url : string)
    (hs : gmap string string) (data : pyval) (params : option (gmap string string))
    (s : state) :
  exists req n m,
    n <= MAX_RETRIES /\ m <= S n
    /\ attempts req 0 n m s (snd (_make_request py_str method url hs data params 0 s)).
Proof.
  destruct (BoundFacts.make_request_attempts py_str method url hs data params MAX_RETRIES 0 s)
    as [k [m [Hk [Hm [_ H]]]]]; [lia |].
  exists (request_of method url hs data params), k, m.
  split; [lia |]. split; [lia | exact H].
Qed.

(** X3.  On a client that holds headers, [get] and [delete] send nothing
    but one request, at most four times: the verb, the URL of
    [_build_url], no body, the parameters given and a timeout of 30
    seconds.  Its headers are the stored ones with [Accept] and
    [Content-Type] set on top: [Accept] is XML exactly when the [accept]
    argument is [xml] in any case, [delete] always asks for JSON, and
    every other stored header, the authorization with them, is sent as
    stored.  The stored headers themselves do not change. *)
Theorem get_delete_send_prepared_request (py_str : pyval -> string) (endpoint accept : string)
    (params : option (gmap string string)) (s : state) (h : gmap string string) :
  headers (fst s) = Some h ->
  let url := if startswith "http" endpoint then endpoint
             else rstrip_slash (base_url (fst s)) ++ "/" ++ lstrip_slash endpoint in
  (exists hs k m,
      hs !! "Accept" =
        Some (if lower accept =? "xml" then "application/xml" else "application/json")
      /\ hs !! "Content-Type" = Some "application/json;charset=utf-8"
      /\ (forall name, name <> "Accept" -> name <> "Content-Type" -> hs !! name = h !! name)
      /\ k <= MAX_RETRIES /\ (m = k \/ m = S k)
      /\ attempts (mk_request "GET" url hs NoBody params (Some 30%Z)) 0 k m s
           (snd (get py_str endpoint params accept s)))
  /\
  (exists hs k m,
      hs !! "Accept" = Some "application/json"
      /\ hs !! "Content-Type" = Some "application/json;charset=utf-8"
      /\ (forall name, name <> "Accept" -> name <> "Content-Type" -> hs !! name = h !! name)
      /\ k <= MAX_RETRIES /\ (m = k \/ m = S k)
      /\ attempts (mk_request "DELETE" url hs NoBody params (Some 30%Z)) 0 k m s
           (snd (delete py_str endpoint params s))).
Proof.
  intros Hh url. split.
  - destruct (verb_prepared endpoint "json" accept s h
                (fun url headers => _make_request py_str "GET" url headers PyNone params 0) Hh)
      as [hs [Hrun [Hacc [Hct Hother]]]].
    destruct (BoundFacts.make_request_attempts py_str "GET" url hs PyNone params
                MAX_RETRIES 0 s) as [k [m [Hk [Hm [_ Hatt]]]]]; [lia |].
    exists hs, k, m. unfold get. rewrite Hrun.
    repeat (split; [first [exact Hacc | exact Hct | exact Hother | lia | exact Hm] |]).
    exact Hatt.
  - destruct (verb_prepared endpoint "json" "json" s h
                (fun url headers => _make_request py_str "DELETE" url headers PyNone params 0) Hh)
      as [hs [Hrun [Hacc [Hct Hother]]]].
    destruct (BoundFacts.make_request_attempts py_str "DELETE" url hs PyNone params
                MAX_RETRIES 0 s) as [k [m [Hk [Hm [_ Hatt]]]]]; [lia |].
    exists hs, k, m. unfold delete. rewrite Hrun.
    repeat (split; [first [exact Hacc | exact Hct | exact Hother | lia | exact Hm] |]).
    exact Hatt.
Qed.

Lemma get_delete_send_prepared_request_witness :
  exists hs k m,
    hs !! "Accept" = Some "application/xml"
    /\ hs !! "Content-Type" = Some "application/json;charset=utf-8"
    /\ (forall name, name <> "Accept" -> name <> "Content-Type" ->
        hs !! name = ConfigManager.json_headers (Some "prod-key") !! name)
    /\ k <= MAX_RETRIES /\ (m = k \/ m = S k)
    /\ attempts (mk_request "GET" Samples.bib_url hs NoBody None (Some 30%Z)) 0 k m
         (Samples.facing [])
         (snd (get Samples.str_of "/almaws/v1/bibs/991000000000541" None "XML"
                 (Samples.facing []))).
Proof.
  exact (proj1 (get_delete_send_prepared_request Samples.str_of
                  "/almaws/v1/bibs/991000000000541" "XML" None
                  (Samples.facing []) (ConfigManager.json_headers (Some "prod-key"))
                  eq_refl)).
Defined.

(** X4.  On a client that holds headers, [post] and [put] send nothing
    but one request, at most four times: the verb, the URL of
    [_build_url], the parameters given, a timeout of 30 seconds, and the
    data as JSON when it is a dict and as it is otherwise, whatever the
    content type says.  [Content-Type] and [Accept] are XML exactly when
    the argument is [xml] in any case, and every other stored header is
    sent as stored. *)
Theorem post_put_send_prepared_request (py_str : pyval -> string)
    (endpoint content_type accept : string)
    (data : pyval) (params : option (gmap string string)) (s : state)
    (h : gmap string string) :
  headers (fst s) = Some h ->
  let url := if startswith "http" endpoint then endpoint
             else rstrip_slash (base_url (fst s)) ++ "/" ++ lstrip_slash endpoint in
  let body := if is_dict data then Json data else Data data in
  (exists hs k m,
      hs !! "Accept" =
        Some (if lower accept =? "xml" then "application/xml" else "application/json")
      /\ hs !! "Content-Type" =
           Some (if lower content_type =? "xml" then "application/xml;charset=utf-8"
                 else "application/json;charset=utf-8")
      /\ (forall name, name <> "Accept" -> name <> "Content-Type" -> hs !! name = h !! name)
      /\ k <= MAX_RETRIES /\ (m = k \/ m = S k)
      /\ attempts (mk_request "POST" url hs body params (Some 30%Z)) 0 k m s
           (snd (post py_str endpoint data content_type accept params s)))
  /\
  (exists hs k m,
      hs !! "Accept" =
        Some (if lower accept =? "xml" then "application/xml" else "application/json")
      /\ hs !! "Content-Type" =
           Some (if lower content_type =? "xml" then "application/xml;charset=utf-8"
                 else "application/json;charset=utf-8")
      /\ (forall name, name <> "Accept" -> name <> "Content-Type" -> hs !! name = h !! name)
      /\ k <= MAX_RETRIES /\ (m = k \/ m = S k)
      /\ attempts (mk_request "PUT" url hs body params (Some 30%Z)) 0 k m s
           (snd (put py_str endpoint data content_type accept params s))).
Proof.
  intros Hh url body. split.
  - destruct (verb_prepared endpoint content_type accept s h
                (fun url headers => _make_request py_str "POST" url headers data params 0) Hh)
      as [hs [Hrun [Hacc [Hct Hother]]]].
    destruct (BoundFacts.make_request_attempts py_str "POST" url hs data params
                MAX_RETRIES 0 s) as [k [m [Hk [Hm [_ Hatt]]]]]; [lia |].
    exists hs, k, m. unfold post. rewrite Hrun.
    repeat (split; [first [exact Hacc | exact Hct | exact Hother | lia | exact Hm] |]).
    exact Hatt.
  - destruct (verb_prepared endpoint content_type accept s h
                (fun url headers => _make_request py_str "PUT" url headers data params 0) Hh)
      as [hs [Hrun [Hacc [Hct Hother]]]].
    destruct (BoundFacts.make_request_attempts py_str "PUT" url hs data params
                MAX_RETRIES 0 s) as [k [m [Hk [Hm [_ Hatt]]]]]; [lia |].
    exists hs, k, m. unfold put. rewrite Hrun.
    repeat (split; [first [exact Hacc | exact Hct | exact Hother | lia | exact Hm] |]).
    exact Hatt.
Qed.

Lemma post_put_send_prepared_request_witness :
  exists hs k m,
    hs !! "Accept" = Some "application/json"
    /\ hs !! "Content-Type" = Some "application/xml;charset=utf-8"
    /\ (forall name, name <> "Accept" -> name <> "Content-Type" ->
        hs !! name = ConfigManager.json_headers (Some "prod-key") !! name)
    /\ k <= MAX_RETRIES /\ (m = k \/ m = S k)
    /\ attempts (mk_request "PUT" Samples.bib_url hs (Data (PyStr "<bib/>")) None (Some 30%Z))
         0 k m (Samples.facing [])
         (snd (put Samples.str_of "almaws/v1/bibs/991000000000541" (PyStr "<bib/>") "Xml"
                 "json" None (Samples.facing []))).
Proof.
  exact (proj2 (post_put_send_prepared_request Samples.str_of
                  "almaws/v1/bibs/991000000000541" "Xml" "json"
                  (PyStr "<bib/>") None (Samples.facing [])
                  (ConfigManager.json_headers (Some "prod-key")) eq_refl)).
Defined.

End VerbFacts.

(** ** The client and its configuration *)

Module ClientFacts.
Import AlmaClient.

Lemma try_except_ret_returns {St A} (m : M St A) (a : A) (s : St) :
  exists b, try_except m is_Exception (fun _ => ret a) s = (Returns b, snd (m s))
            /\ (forall e, fst (m s) = Raises e -> b = a)
            /\ (forall x, fst (m s) = Returns x -> b = x).
Proof.
  unfold try_except, ret. destruct (m s) as [[x | e] s']; cbn.
  - exists x. repeat split; congruence.
  - exists a. repeat split; congruence.
Qed.

Lemma validate_ext (b b' : BaseAPIClient.t) :
  BaseAPIClient.base_url b' = BaseAPIClient.base_url b ->
  BaseAPIClient.headers b' = BaseAPIClient.headers b ->
  BaseAPIClient._validate_config b' = BaseAPIClient._validate_config b.
Proof. intros Hu Hh. unfold BaseAPIClient._validate_config. rewrite Hu, Hh. reflexivity. Qed.

(** The executor facing a remote API that is unreachable raises. *)
Lemma make_request_down (py_str : pyval -> string) (method url : string)
    (hs : gmap string string) (data : pyval) (params : option (gmap string string))
    (s : BaseAPIClient.state) :
  unreachable (snd s) ->
  exists e, fst (BaseAPIClient._make_request py_str method url hs data params 0 s) = Raises e.
Proof.
  intros Hdown.
  pose proof (BoundFacts.enforce_quiet
                (BaseAPIClient.request_of method url hs data params) 0 s) as Hq.
  destruct (BaseAPIClient._enforce_rate_limit s) as [[[] | e] s1] eqn:Henf; cbn [snd] in Hq.
  - destruct (BaseAPIClient.supported method) eqn:Hsup.
    + destruct Hq as (_ & _ & _ & _ & Hr & _).
      destruct (Hdown (calls (snd s1)) (BaseAPIClient.request_of method url hs data params))
        as [msg Hmsg].
      rewrite <- Hr in Hmsg.
      rewrite (ExecutorFacts.attempt_failed py_str method url hs data params 0 s s1 msg
                 Hsup Henf Hmsg).
      eexists. reflexivity.
    + rewrite (ExecutorFacts.attempt_unsupported py_str method url hs data params 0 s s1
                 Hsup Henf).
      eexists. reflexivity.
  - rewrite BaseAPIClient._make_request_equation_1, (bind_raises _ _ _ _ _ Henf).
    eexists. reflexivity.
Qed.

(** The connection test of the base client returns, after a bounded run
    of attempts, and returns [False] when the remote API is
    unreachable. *)
Lemma base_test_connection (py_str : pyval -> string) (s : BaseAPIClient.state) :
  exists b req k m sb,
    BaseAPIClient.test_connection py_str s = (Returns b, sb)
    /\ k <= BaseAPIClient.MAX_RETRIES /\ m <= S k
    /\ BaseAPIClient.attempts req 0 k m s sb
    /\ (unreachable (snd s) -> b = false).
Proof.
  unfold BaseAPIClient.test_connection.
  set (body := bind _ _).
  destruct (try_except_ret_returns body false s) as [b [Hb [Hraise _]]].
  assert (Hsnd : snd (body s) =
                 snd (BaseAPIClient.get py_str "almaws/v1/conf/institutions" None "json" s)).
  { unfold body, bind, ret. destruct (BaseAPIClient.get _ _ _ _ s) as [[a | e] s']; reflexivity. }
  destruct (VerbFacts.verb_attempts "almaws/v1/conf/institutions" "json" "json" s
              (fun url headers =>
                 BaseAPIClient._make_request py_str "GET" url headers PyNone None 0)
              (fun url hs => VerbFacts.make_request_run py_str "GET" url hs PyNone None s))
    as [req [k [m [Hk [Hm Hatt]]]]].
  exists b, req, k, m, (snd (body s)).
  split; [exact Hb |]. split; [exact Hk |]. split; [exact Hm |].
  split; [rewrite Hsnd; exact Hatt |].
  intros Hdown.
  assert (Hget : exists e,
             fst (BaseAPIClient.get py_str "almaws/v1/conf/institutions" None "json" s)
             = Raises e).
  { unfold BaseAPIClient.get.
    rewrite (bind_returns _ _ _ _ _ (VerbFacts.build_url_returns _ s)).
    destruct (BaseAPIClient.headers (fst s)) as [h |] eqn:Hh.
    - destruct (VerbFacts.prepare_headers_returns "json" "json" s h Hh) as [hs [Hp _]].
      rewrite (bind_returns _ _ _ _ _ Hp). apply make_request_down. exact Hdown.
    - rewrite (bind_raises _ _ _ _ _ (VerbFacts.prepare_headers_none "json" "json" s Hh)).
      eexists. reflexivity. }
  destruct Hget as [e He]. apply (Hraise e).
  unfold body, bind. destruct (BaseAPIClient.get _ _ _ _ s) as [[a | e'] s']; cbn in *; congruence.
Qed.

Lemma alma_test_connection (py_str : pyval -> string) (s : state) :
  exists b req k m sb,
    test_connection py_str s = (Returns b, (set_base_client (fst sb) (fst s), snd sb))
    /\ k <= BaseAPIClient.MAX_RETRIES /\ m <= S k
    /\ BaseAPIClient.attempts req 0 k m (base_client (fst s), snd s) sb
    /\ (unreachable (snd s) -> b = false).
Proof.
  destruct (base_test_connection py_str (base_client (fst s), snd s))
    as [b [req [k [m [sb [Ht [Hk [Hm [Hatt Hdown]]]]]]]]].
  exists b, req, k, m, sb.
  split; [| auto].
  unfold test_connection, try_except, on_base_client, zoom. rewrite Ht. reflexivity.
Qed.

(** A run of attempts of the base client keeps the client configured. *)
Lemma configured_attempts (self : t) (w : world) (req : http_request) (k m : nat)
    (sb : BaseAPIClient.state) :
  configured self ->
  BaseAPIClient.attempts req 0 k m (base_client self, w) sb ->
  configured (set_base_client (fst sb) self).
Proof.
  intros (Hv & Hl & Hu & Hh) (Hu' & Hh' & Hl' & _). cbn [fst snd] in *.
  unfold configured. cbn [base_client config_manager set_base_client].
  rewrite (validate_ext _ _ Hu' Hh'), Hl', Hu', Hh'. auto.
Qed.

Lemma configured_on_base_client {A} (m : M BaseAPIClient.state A) (s : state) :
  configured (fst s) ->
  (exists req k n,
      BaseAPIClient.attempts req 0 k n (base_client (fst s), snd s)
        (snd (m (base_client (fst s), snd s)))) ->
  configured (fst (snd (on_base_client m s))).
Proof.
  intros Hc [req [k [n Hatt]]].
  unfold on_base_client, zoom.
  destruct (m (base_client (fst s), snd s)) as [r sb]. cbn [fst snd] in *.
  eapply configured_attempts; eauto.
Qed.

Lemma json_headers_valid (key : option string) (url : string) (times : list Q) (limit : Z) :
  url <> "" ->
  BaseAPIClient._validate_config
    (BaseAPIClient.mk url (Some (ConfigManager.json_headers key)) times limit) = Returns tt.
Proof.
  intros Hurl. unfold BaseAPIClient._validate_config.
  cbn [BaseAPIClient.base_url BaseAPIClient.headers].
  rewrite (eqb_string_false _ _ Hurl).
  unfold ConfigManager.json_headers. rewrite lookup_insert_eq.
  unfold startswith. cbn. destruct (fmt_opt key); reflexivity.
Qed.

Lemma validated_url (b : BaseAPIClient.t) :
  BaseAPIClient._validate_config b = Returns tt -> BaseAPIClient.base_url b <> "".
Proof.
  unfold BaseAPIClient._validate_config. intros H Hurl. rewrite Hurl in H. discriminate.
Qed.

(** A switch to an environment the configuration accepts: the
    configuration and the base client hold the headers of the new
    environment, whatever the connection test says. *)
Lemma switch_accepted (py_str : pyval -> string) (s : state) (environment : string)
    (c' : ConfigManager.t) :
  ConfigManager.set_environment environment (config_manager (fst s)) = (Returns tt, c') ->
  exists b req k m sb,
    switch_environment py_str environment s
      = (Returns b, (mk c' (fst sb), snd sb))
    /\ k <= BaseAPIClient.MAX_RETRIES /\ m <= S k
    /\ BaseAPIClient.attempts req 0 k m
         (BaseAPIClient.set_base_url (ConfigManager.get_base_url c')
            (BaseAPIClient.set_headers (ConfigManager.get_headers c') (base_client (fst s))),
          snd s) sb
    /\ (unreachable (snd s) -> b = false).
Proof.
  intros Hset.
  set (s1 := (mk c' (BaseAPIClient.set_base_url (ConfigManager.get_base_url c')
                       (BaseAPIClient.set_headers (ConfigManager.get_headers c')
                          (base_client (fst s)))), snd s) : state).
  destruct (alma_test_connection py_str s1) as [b [req [k [m [sb [Ht Hrest]]]]]].
  exists b, req, k, m, sb. split; [| exact Hrest].
  unfold switch_environment, try_except, bind, on_config, zoom, setself.
  rewrite Hset. cbn [fst snd config_manager base_client set_config_manager set_base_client].
  match goal with |- context [test_connection py_str ?x] => change x with s1 end.
  rewrite Ht. destruct b; reflexivity.
Qed.

Lemma set_environment_cases (environment : string) (c : ConfigManager.t) :
  (exists key,
      ConfigManager.set_environment environment c =
        (Returns tt,
         ConfigManager.set_headers_field (Some (ConfigManager.json_headers key))
           (ConfigManager.set_current_environment (Some (upper environment)) c))
      /\ (upper environment = "SB" /\ key = ConfigManager.api_key_sb c
          \/ upper environment = "PROD" /\ key = ConfigManager.api_key_prod c))
  \/ (upper environment <> "SB" /\ upper environment <> "PROD"
      /\ ConfigManager.set_environment environment c =
           (Raises (ValueError ("Invalid environment: " ++ upper environment)),
            ConfigManager.set_current_environment (Some (upper environment)) c)).
Proof.
  destruct (String.eqb_spec (upper environment) "SB") as [Hsb | Hsb].
  - left. exists (ConfigManager.api_key_sb c).
    rewrite (ResolutionFacts.set_environment_sb c environment Hsb), Hsb. auto.
  - destruct (String.eqb_spec (upper environment) "PROD") as [Hp | Hp].
    + left. exists (ConfigManager.api_key_prod c).
      rewrite (ResolutionFacts.set_environment_prod c environment Hp), Hp. auto.
    + right. split; [exact Hsb |]. split; [exact Hp |].
      apply ResolutionFacts.set_environment_unknown; assumption.
Qed.

Lemma configured_switch (py_str : pyval -> string) (s : state) (environment : string) :
  configured (fst s) ->
  configured (fst (snd (switch_environment py_str environment s))).
Proof.
  intros Hc.
  destruct (set_environment_cases environment (config_manager (fst s)))
    as [[key [Hset _]] | [Hsb [Hp _]]].
  - destruct (switch_accepted py_str s environment _ Hset)
      as [b [req [k [m [sb [Hsw [_ [_ [Hatt _]]]]]]]]].
    rewrite Hsw. cbn [fst snd].
    destruct Hc as (Hv & Hl & Hu & Hh).
    destruct Hatt as (Hu' & Hh' & Hl' & _). cbn [fst snd] in *.
    unfold configured. cbn [base_client config_manager].
    cbn in Hu', Hh', Hl'.
    split.
    { rewrite (validate_ext
                 (BaseAPIClient.mk (BaseAPIClient.base_url (base_client (fst s)))
                    (Some (ConfigManager.json_headers key)) [] 0) (fst sb)).
      - apply json_headers_valid. apply validated_url. exact Hv.
      - rewrite Hu'. cbn. symmetry. exact Hu.
      - rewrite Hh'. reflexivity. }
    split; [rewrite Hl'; exact Hl |].
    split; [rewrite Hu'; reflexivity | rewrite Hh'; reflexivity].
  - rewrite (SwitchFacts.alma_client_switch_unknown py_str s environment Hsb Hp).
    cbn [fst snd]. exact Hc.
Qed.

Lemma configured_set_rate_limit (s : state) (requests_per_minute : Z) :
  configured (fst s) ->
  configured (fst (snd (set_rate_limit requests_per_minute s))).
Proof.
  intros Hc. unfold set_rate_limit.
  destruct (Z.leb_spec requests_per_minute 0) as [Hle | Hgt]; [exact Hc |].
  destruct Hc as (Hv & Hl & Hu & Hh).
  unfold configured, setself. cbn. repeat split; auto.
Qed.

Lemma configured_init (py_str : pyval -> string) (environment : string)
    (config_manager : option ConfigManager.t) (w w' : world) (self : t) :
  __init__ py_str environment config_manager w = (Returns self, w') ->
  configured self.
Proof.
  unfold __init__.
  destruct (match config_manager with
            | Some c => Returns c
            | None => ConfigManager.__init__ None (environ w)
            end) as [c | e]; [| discriminate].
  destruct (ConfigManager.set_environment environment c) as [[[] | e] c'] eqn:Hset;
    [| discriminate].
  unfold BaseAPIClient.__init__.
  destruct (BaseAPIClient._validate_config _) as [[] | e] eqn:Hv; [| discriminate].
  set (b := BaseAPIClient.mk _ _ _ _) in *.
  destruct (alma_test_connection py_str (mk c' b, w))
    as [r [req [k [m [sb [Ht [_ [_ [Hatt _]]]]]]]]].
  rewrite Ht. intros Heq. injection Heq as <- <-.
  apply (configured_attempts (mk c' b) w req k m sb); [| exact Hatt].
  unfold configured. cbn. split; [exact Hv |]. repeat split.
Qed.

Lemma reachable_configured (py_str : pyval -> string) (s : state) :
  reachable py_str s -> configured (fst s).
Proof.
  induction 1 as [environment cm w w' self Hinit
                 | s s' environment r _ IH Hrun
                 | s s' n r _ IH Hrun
                 | s s' r _ IH Hrun
                 | s s' endpoint params accept r _ IH Hrun
                 | s s' endpoint data content_type accept params r _ IH Hrun
                 | s s' endpoint data content_type accept params r _ IH Hrun
                 | s s' endpoint params r _ IH Hrun
                 | s t _ IH].
  - exact (configured_init py_str environment cm w w' self Hinit).
  - pose proof (configured_switch py_str s environment IH) as H. rewrite Hrun in H. exact H.
  - pose proof (configured_set_rate_limit s n IH) as H. rewrite Hrun in H. exact H.
  - destruct (alma_test_connection py_str s) as [b [req [k [m [sb [Ht [_ [_ [Hatt _]]]]]]]]].
    rewrite Ht in Hrun. injection Hrun as _ <-.
    eapply configured_attempts; eauto.
  - pose proof (configured_on_base_client
                  (BaseAPIClient.get py_str endpoint params accept) s IH) as H.
    rewrite Hrun in H. apply H.
    destruct (VerbFacts.verb_attempts endpoint "json" accept (base_client (fst s), snd s)
                (fun url headers =>
                   BaseAPIClient._make_request py_str "GET" url headers PyNone params 0)
                (fun url hs => VerbFacts.make_request_run py_str "GET" url hs PyNone params _))
      as [req [k [m [_ [_ Hatt]]]]].
    eauto.
  - pose proof (configured_on_base_client
                  (BaseAPIClient.post py_str endpoint data content_type accept params) s IH)
      as H.
    rewrite Hrun in H. apply H.
    destruct (VerbFacts.verb_attempts endpoint content_type accept
                (base_client (fst s), snd s)
                (fun url headers =>
                   BaseAPIClient._make_request py_str "POST" url headers data params 0)
                (fun url hs => VerbFacts.make_request_run py_str "POST" url hs data params _))
      as [req [k [m [_ [_ Hatt]]]]].
    eauto.
  - pose proof (configured_on_base_client
                  (BaseAPIClient.put py_str endpoint data content_type accept params) s IH)
      as H.
    rewrite Hrun in H. apply H.
    destruct (VerbFacts.verb_attempts endpoint content_type accept
                (base_client (fst s), snd s)
                (fun url headers =>
                   BaseAPIClient._make_request py_str "PUT" url headers data params 0)
                (fun url hs => VerbFacts.make_request_run py_str "PUT" url hs data params _))
      as [req [k [m [_ [_ Hatt]]]]].
    eauto.
  - pose proof (configured_on_base_client
                  (BaseAPIClient.delete py_str endpoint params) s IH) as H.
    rewrite Hrun in H. apply H.
    destruct (VerbFacts.verb_attempts endpoint "json" "json" (base_client (fst s), snd s)
                (fun url headers =>
                   BaseAPIClient._make_request py_str "DELETE" url headers PyNone params 0)
                (fun url hs => VerbFacts.make_request_run py_str "DELETE" url hs PyNone params _))
      as [req [k [m [_ [_ Hatt]]]]].
    eauto.
  - exact IH.
Qed.

Lemma all_present (e : gmap string string) :
  (forall var, var ∈ ConfigManager.REQUIRED_ENV_VARS -> is_Some (e !! var)) ->
  filter (fun v => e !! v = None) ConfigManager.REQUIRED_ENV_VARS = [].
Proof.
  intros Hall.
  destruct (filter _ ConfigManager.REQUIRED_ENV_VARS) as [|v l] eqn:Hf; [reflexivity |].
  assert (Hin : v ∈ filter (fun v => e !! v = None) ConfigManager.REQUIRED_ENV_VARS)
    by (rewrite Hf; left).
  apply ConfigManagerFacts.missing_vars_spec in Hin. destruct Hin as [Hreq Habs].
  destruct (Hall v Hreq) as [x Hx]. congruence.
Qed.

(** X5.  A client obtained from [AlmaClient(..)] and used through
    [switch_environment], [set_rate_limit], [test_connection] and the four
    verbs of its base client, whatever they end with and however much time
    passes between them, stays configured: its base client passes the
    validation of its construction, with an authorization header that
    starts with [apikey ], its rate limit is positive, and it holds the
    base URL and the headers of the configuration.  The rate limiter of
    such a client returns: it does not fail on an empty window. *)
Theorem reachable_client_stays_configured (py_str : pyval -> string) (s : state) :
  reachable py_str s ->
  configured (fst s)
  /\ (exists h a,
        BaseAPIClient.headers (base_client (fst s)) = Some h
        /\ h !! "authorization" = Some a
        /\ startswith "apikey " a = true)
  /\ (exists s1,
        BaseAPIClient._enforce_rate_limit (base_client (fst s), snd s) = (Returns tt, s1)).
Proof.
  intros Hreach. pose proof (reachable_configured py_str s Hreach) as Hc.
  split; [exact Hc |]. destruct Hc as (Hv & Hl & _). split.
  - unfold BaseAPIClient._validate_config in Hv.
    destruct (BaseAPIClient.base_url _ =? ""); [discriminate |].
    destruct (BaseAPIClient.headers (base_client (fst s))) as [h |]; [| discriminate].
    destruct (h !! "authorization") as [a |] eqn:Ha; [| discriminate].
    exists h, a. split; [reflexivity |]. split; [exact Ha |].
    destruct (startswith "apikey " a); [reflexivity | discriminate].
  - destruct (ExecutorFacts.enforce_returns (mk_request "" "" ∅ NoBody None None) 0
                (base_client (fst s), snd s) Hl) as [s1 [Hs1 _]].
    exists s1. exact Hs1.
Qed.

Lemma reachable_client_stays_configured_witness :
  configured
    (fst (snd (switch_environment Samples.str_of "staging"
                 (Samples.client_prod, Samples.world1))))
  /\ exists s1,
       BaseAPIClient._enforce_rate_limit
         (base_client (fst (snd (switch_environment Samples.str_of "staging"
                                   (Samples.client_prod, Samples.world1)))),
          snd (snd (switch_environment Samples.str_of "staging"
                      (Samples.client_prod, Samples.world1))))
       = (Returns tt, s1).
Proof.
  assert (Hreach : reachable Samples.str_of
                     (snd (switch_environment Samples.str_of "staging"
                             (Samples.client_prod, Samples.world1)))).
  { eapply (reach_switch Samples.str_of (Samples.client_prod, Samples.world1) _ "staging").
    - apply (reach_init Samples.str_of "PROD" None Samples.world0).
      vm_compute. reflexivity.
    - apply surjective_pairing. }
  destruct (reachable_client_stays_configured Samples.str_of _ Hreach) as [Hc [_ He]].
  split; [exact Hc | exact He].
Defined.

(** X6.  A switch to an environment the configuration accepts ([SB] or
    [PROD] in any case) is kept whatever the connection test says: the
    call returns, the current environment and its key are those of the
    new environment, and the configuration and the base client hold the
    headers built from that key.  When the remote API is unreachable the
    call returns [False], and the client is switched all the same. *)
Theorem accepted_switch_is_kept (py_str : pyval -> string) (s : state) (environment : string) :
  upper environment = "SB" \/ upper environment = "PROD" ->
  let old := config_manager (fst s) in
  let key := if upper environment =? "SB" then ConfigManager.api_key_sb old
             else ConfigManager.api_key_prod old in
  exists b s',
    switch_environment py_str environment s = (Returns b, s')
    /\ get_current_environment (fst s') = Some (upper environment)
    /\ ConfigManager.get_api_key (config_manager (fst s')) = key
    /\ ConfigManager.get_headers (config_manager (fst s'))
       = Some (ConfigManager.json_headers key)
    /\ BaseAPIClient.headers (base_client (fst s')) = Some (ConfigManager.json_headers key)
    /\ (unreachable (snd s) -> b = false).
Proof.
  intros Hname old key.
  destruct (set_environment_cases environment old) as [[k [Hset Hk]] | [Hsb [Hp _]]];
    [| destruct Hname; contradiction].
  assert (Hkey : k = key).
  { subst key. destruct Hk as [[Hu ->] | [Hu ->]]; rewrite Hu; reflexivity. }
  subst k.
  destruct (switch_accepted py_str s environment _ Hset)
    as [b [req [n [m [sb [Hsw [_ [_ [Hatt Hdown]]]]]]]]].
  exists b. eexists. split; [exact Hsw |].
  destruct Hatt as (_ & Hh & _). cbn [fst snd] in *.
  cbn [config_manager base_client].
  split; [reflexivity |].
  split.
  { unfold ConfigManager.get_api_key. cbn. subst key.
    destruct Hname as [Hu | Hu]; rewrite Hu; reflexivity. }
  split; [reflexivity |].
  split; [rewrite Hh; reflexivity | exact Hdown].
Qed.

Lemma accepted_switch_is_kept_witness :
  exists b s',
    switch_environment Samples.str_of "sb"
      (Samples.client_prod, Samples.world_of Samples.full_environ Samples.remote_down)
    = (Returns b, s')
    /\ get_current_environment (fst s') = Some "SB"
    /\ ConfigManager.get_api_key (config_manager (fst s')) = Some "sb-key"
    /\ BaseAPIClient.headers (base_client (fst s'))
       = Some (ConfigManager.json_headers (Some "sb-key"))
    /\ b = false.
Proof.
  destruct (accepted_switch_is_kept Samples.str_of
              (Samples.client_prod, Samples.world_of Samples.full_environ Samples.remote_down) "sb"
              (or_introl eq_refl))
    as [b [s' [Hsw [Henv [Hkey [_ [Hh Hdown]]]]]]].
  exists b, s'. split; [exact Hsw |]. split; [exact Henv |]. split; [exact Hkey |].
  split; [exact Hh |]. apply Hdown. intros i req. eexists. reflexivity.
Defined.

(** X7.  With every required variable set and an environment name that
    is [SB] or [PROD] in any case, [AlmaClient(environment)] returns a
    client whatever the remote API answers to its connection test, also
    when it is unreachable: the test is made, with at most four requests,
    and its failure is not an error of the construction.  The client has
    the environment asked for, the default rate limit of 100 requests a
    minute, and is configured. *)
Theorem construction_survives_outage (py_str : pyval -> string) (environment : string)
    (w : world) :
  (forall var, var ∈ ConfigManager.REQUIRED_ENV_VARS -> is_Some (environ w !! var)) ->
  upper environment = "SB" \/ upper environment = "PROD" ->
  exists self w',
    __init__ py_str environment None w = (Returns self, w')
    /\ get_current_environment self = Some (upper environment)
    /\ configured self
    /\ BaseAPIClient._rate_limit (base_client self) = BaseAPIClient.DEFAULT_RATE_LIMIT
    /\ calls w <= calls w' <= calls w + 4
    /\ environ w' = environ w.
Proof.
  intros Hall Hname.
  pose proof (ConfigManagerFacts.init_complete None (environ w) (all_present _ Hall)) as Hinit.
  cbn [ConfigManager.env_or] in Hinit.
  set (c := ConfigManager.set_loaded (ConfigManager.blank (environ w))) in *.
  destruct (set_environment_cases environment c) as [[k [Hset _]] | [Hsb [Hp _]]];
    [| destruct Hname; contradiction].
  set (c' := ConfigManager.set_headers_field _ _) in Hset.
  set (b := BaseAPIClient.mk (ConfigManager.get_base_url c') (ConfigManager.get_headers c')
              [] BaseAPIClient.DEFAULT_RATE_LIMIT).
  assert (Hv : BaseAPIClient._validate_config b = Returns tt).
  { apply json_headers_valid. discriminate. }
  destruct (alma_test_connection py_str (mk c' b, w))
    as [r [req [n [m [sb [Ht [Hn [Hm [Hatt _]]]]]]]]].
  exists (set_base_client (fst sb) (mk c' b)), (snd sb).
  assert (Hrun : __init__ py_str environment None w
                 = (Returns (set_base_client (fst sb) (mk c' b)), snd sb)).
  { unfold __init__. rewrite Hinit, Hset. unfold BaseAPIClient.__init__.
    fold b. rewrite Hv. rewrite Ht. reflexivity. }
  split; [exact Hrun |].
  split; [reflexivity |].
  split; [exact (configured_init py_str environment None w _ _ Hrun) |].
  destruct Hatt as (_ & _ & Hl & He & _ & Hc & _). cbn [fst snd] in *.
  cbn [base_client set_base_client].
  split; [rewrite Hl; reflexivity |].
  unfold BaseAPIClient.MAX_RETRIES in Hn.
  split; [lia | exact He].
Qed.

Lemma construction_survives_outage_witness :
  exists self w',
    __init__ Samples.str_of "prod" None (Samples.world_of Samples.full_environ Samples.remote_down)
    = (Returns self, w')
    /\ get_current_environment self = Some "PROD"
    /\ configured self.
Proof.
  destruct (construction_survives_outage Samples.str_of "prod"
              (Samples.world_of Samples.full_environ Samples.remote_down))
    as [self [w' [Hrun [Henv [Hc _]]]]].
  - intros var Hvar. apply list_elem_of_In in Hvar. simpl in Hvar.
    destruct Hvar as [<- | [<- | [<- | [<- | [<- | [<- | []]]]]]]; vm_compute; eauto.
  - right. reflexivity.
  - exists self, w'. split; [exact Hrun |]. split; [exact Henv | exact Hc].
Defined.

(** X8.  [set_rate_limit] rejects a limit that is not positive with
    [ValueError] and changes nothing.  A positive limit replaces the old
    one and nothing else: the timestamps recorded so far stay and count
    against the new limit, so the status reports the new limit and what
    is left of it, never less than zero; and when the new limit is not
    above the number of recorded requests that are less than 60 seconds
    old, the next call sleeps until the oldest of them is 60 seconds
    old. *)
Theorem set_rate_limit_takes_effect (requests_per_minute : Z) (s : state) :
  ((requests_per_minute <= 0)%Z ->
   set_rate_limit requests_per_minute s
   = (Raises (ValueError "Rate limit must be positive"), s))
  /\
  ((0 < requests_per_minute)%Z ->
   exists self',
     set_rate_limit requests_per_minute s = (Returns tt, (self', snd s))
     /\ config_manager self' = config_manager (fst s)
     /\ BaseAPIClient._request_times (base_client self')
        = BaseAPIClient._request_times (base_client (fst s))
     /\ BaseAPIClient.headers (base_client self') = BaseAPIClient.headers (base_client (fst s))
     /\ BaseAPIClient.base_url (base_client self')
        = BaseAPIClient.base_url (base_client (fst s))
     /\ rate_limit (get_rate_limit_status self') = requests_per_minute
     /\ requests_in_last_minute (get_rate_limit_status self')
        = requests_in_last_minute (get_rate_limit_status (fst s))
     /\ requests_remaining (get_rate_limit_status self')
        = Z.max 0 (requests_per_minute
                   - requests_in_last_minute (get_rate_limit_status (fst s)))
     /\ forall oldest rest,
          let now := clock (snd s) in
          List.filter (fun t => Qlt_bool (now - t) 60)
            (BaseAPIClient._request_times (base_client (fst s))) = oldest :: rest ->
          (requests_per_minute <= Z.of_nat (length (oldest :: rest)))%Z ->
          (0 < 60 - (now - oldest))%Q
          /\ exists b',
               BaseAPIClient._enforce_rate_limit (base_client self', snd s)
               = (Returns tt,
                  (b', slept RateLimit (60 - (now - oldest))%Q (snd s)))).
Proof.
  split.
  - intros Hle. unfold set_rate_limit.
    destruct (Z.leb_spec requests_per_minute 0); [reflexivity | lia].
  - intros Hpos. unfold set_rate_limit.
    destruct (Z.leb_spec requests_per_minute 0); [lia |].
    eexists. split; [reflexivity |].
    cbn [config_manager base_client set_base_client BaseAPIClient.set_rate_limit
         BaseAPIClient._request_times BaseAPIClient.headers BaseAPIClient.base_url].
    repeat (split; [reflexivity |]).
    intros oldest rest Hkept Hfull.
    match goal with |- context [BaseAPIClient._enforce_rate_limit ?st] =>
      pose proof (RateLimitFacts.enforce_at_limit st oldest rest) as Hat
    end.
    cbn [fst snd BaseAPIClient._request_times BaseAPIClient._rate_limit
         BaseAPIClient.set_rate_limit] in Hat.
    rewrite Hkept in Hat.
    destruct (Hat Hfull eq_refl) as [Hsleep Hrun].
    split; [exact Hsleep |]. eexists. rewrite Hrun. reflexivity.
Qed.

Lemma set_rate_limit_takes_effect_witness :
  set_rate_limit 0 (Samples.client_prod, Samples.world1)
  = (Raises (ValueError "Rate limit must be positive"), (Samples.client_prod, Samples.world1))
  /\ exists self',
       set_rate_limit 1 (Samples.client_prod, Samples.world1)
       = (Returns tt, (self', Samples.world1))
       /\ requests_remaining (get_rate_limit_status self') = 0%Z
       /\ exists b',
            BaseAPIClient._enforce_rate_limit (base_client self', Samples.world1)
            = (Returns tt, (b', slept RateLimit 60 Samples.world1)).
Proof.
  split.
  - apply (proj1 (set_rate_limit_takes_effect 0 (Samples.client_prod, Samples.world1))). lia.
  - destruct (proj2 (set_rate_limit_takes_effect 1 (Samples.client_prod, Samples.world1)))
      as [self' [Hrun [_ [_ [_ [_ [_ [_ [Hrem Hnext]]]]]]]]]; [lia |].
    exists self'. split; [exact Hrun |]. split; [exact Hrem |].
    destruct (Hnext 0%Q []) as [_ [b' Hb']];
      [vm_compute; reflexivity | cbn; lia |].
    exists b'. etransitivity; [exact Hb' |]. vm_compute. reflexivity.
Defined.

(** X9.  [test_connection] of the client never raises: whatever
    happens in the call, a failure status, a transport failure or an
    error of the client, it returns a truth value.  It sends the same
    request at most four times, leaves the configuration, the base URL,
    the headers and the rate limit as they were, and returns [False]
    when the remote API is unreachable. *)
Theorem test_connection_reports_never_raises (py_str : pyval -> string) (s : state) :
  exists b req k m sb,
    test_connection py_str s = (Returns b, (set_base_client (fst sb) (fst s), snd sb))
    /\ k <= BaseAPIClient.MAX_RETRIES /\ m <= S k
    /\ BaseAPIClient.attempts req 0 k m (base_client (fst s), snd s) sb
    /\ (unreachable (snd s) -> b = false).
Proof. apply alma_test_connection. Qed.

Lemma test_connection_reports_never_raises_witness :
  exists s',
    test_connection Samples.str_of
      (Samples.client_prod, Samples.world_of Samples.full_environ Samples.remote_down)
    = (Returns false, s').
Proof.
  destruct (test_connection_reports_never_raises Samples.str_of
              (Samples.client_prod, Samples.world_of Samples.full_environ Samples.remote_down))
    as [b [req [k [m [sb [Hrun [_ [_ [_ Hdown]]]]]]]]].
  eexists. rewrite Hrun, Hdown; [reflexivity |].
  intros i r. eexists. reflexivity.
Defined.

(** X10.  The status counts the timestamps the client holds, and these
    are dropped only when a request is made: when every recorded request
    is 60 seconds old or older, the status still counts them all, and
    reports nothing left when they reach the limit, while the next call
    goes through without sleeping and leaves its own timestamp as the
    only one recorded. *)
Theorem status_counts_expired_requests (self : t) (w : world) :
  (0 < BaseAPIClient._rate_limit (base_client self))%Z ->
  (forall t, In t (BaseAPIClient._request_times (base_client self)) ->
             (60 <= clock w - t)%Q) ->
  requests_in_last_minute (get_rate_limit_status self)
  = Z.of_nat (length (BaseAPIClient._request_times (base_client self)))
  /\ ((BaseAPIClient._rate_limit (base_client self)
       <= Z.of_nat (length (BaseAPIClient._request_times (base_client self))))%Z ->
      requests_remaining (get_rate_limit_status self) = 0%Z)
  /\ BaseAPIClient._enforce_rate_limit (base_client self, w)
     = (Returns tt, (BaseAPIClient.set_request_times [clock w] (base_client self), w)).
Proof.
  intros Hpos Hold. split; [reflexivity |]. split.
  - intros Hfull. unfold get_rate_limit_status. cbn [requests_remaining]. lia.
  - assert (Hnone : List.filter (fun t => Qlt_bool (clock w - t) 60)
                      (BaseAPIClient._request_times (base_client self)) = []).
    { induction (BaseAPIClient._request_times (base_client self)) as [|t l IH];
        [reflexivity |].
      cbn [List.filter].
      destruct (Qlt_bool (clock w - t) 60) eqn:Hlt.
      - apply RateLimitFacts.Qlt_bool_iff in Hlt.
        pose proof (Hold t (or_introl eq_refl)) as Hge. exfalso.
        apply (Qlt_not_le _ _ Hlt Hge).
      - apply IH. intros t' Hin. apply Hold. right. exact Hin. }
    pose proof (RateLimitFacts.enforce_below_limit (base_client self, w)) as Hbelow.
    cbn [fst snd] in Hbelow. rewrite Hnone in Hbelow. apply Hbelow. cbn. exact Hpos.
Qed.

Lemma status_counts_expired_requests_witness :
  requests_remaining
    (get_rate_limit_status
       (mk Samples.config_prod
          (BaseAPIClient.set_request_times [0%Q; 1%Q] Samples.base_limit2))) = 0%Z
  /\ BaseAPIClient._enforce_rate_limit
       (BaseAPIClient.set_request_times [0%Q; 1%Q] Samples.base_limit2,
        mk_world Samples.full_environ 100 Samples.remote_ok 2 [])
     = (Returns tt,
        (BaseAPIClient.set_request_times [100%Q] Samples.base_limit2,
         mk_world Samples.full_environ 100 Samples.remote_ok 2 [])).
Proof.
  destruct (status_counts_expired_requests
              (mk Samples.config_prod
                 (BaseAPIClient.set_request_times [0%Q; 1%Q] Samples.base_limit2))
              (mk_world Samples.full_environ 100 Samples.remote_ok 2 []))
    as [_ [Hrem Hrun]].
  - cbn. lia.
  - intros t [<- | [<- | []]]; vm_compute; discriminate.
  - split; [apply Hrem; cbn; lia | exact Hrun].
Defined.

End ClientFacts.

(** ** URLs *)

Module UrlFacts.

Lemma append_nil (t : string) : "" ++ t = t.
Proof. reflexivity. Qed.

Lemma append_cons (c : ascii) (s t : string) : String c s ++ t = String c (s ++ t).
Proof. reflexivity. Qed.

Lemma append_assoc (a b c : string) : (a ++ b) ++ c = a ++ (b ++ c).
Proof.
  induction a as [|x a IH]; [reflexivity |].
  rewrite !append_cons, IH. reflexivity.
Qed.

Lemma lstrip_slash_cons (c : ascii) (s : string) :
  lstrip_slash (String c s) = if Ascii.eqb c "/" then lstrip_slash s else String c s.
Proof.
  destruct c as [[] [] [] [] [] [] [] []]; reflexivity.
Qed.

Lemma lstrip_slash_no_leading (e y : string) : lstrip_slash e <> String "/" y.
Proof.
  induction e as [|c e IH]; [discriminate |].
  rewrite lstrip_slash_cons. destruct (Ascii.eqb_spec c "/") as [-> | Hc]; [exact IH |].
  intros Heq. injection Heq as Hc' _. contradiction.
Qed.

Lemma rstrip_slash_app_slash (b : string) : rstrip_slash (b ++ "/") = rstrip_slash b.
Proof.
  induction b as [|c b IH]; [reflexivity |].
  change (rstrip_slash (String c (b ++ "/")) = rstrip_slash (String c b)).
  cbn [rstrip_slash]. rewrite IH. reflexivity.
Qed.

Lemma rstrip_slash_no_trailing (b : string) : forall x, rstrip_slash b <> x ++ "/".
Proof.
  induction b as [|c b IH]; intros x.
  - destruct x; discriminate.
  - cbn [rstrip_slash]. destruct (rstrip_slash b) as [|r0 r] eqn:Hr.
    + destruct (Ascii.eqb_spec c "/") as [-> | Hc].
      * destruct x; discriminate.
      * destruct x as [|x0 x]; rewrite ?append_nil, ?append_cons.
        -- intros Heq. injection Heq as Hc'. contradiction.
        -- intros Heq. injection Heq as _ Hx. destruct x; discriminate.
    + destruct x as [|x0 x]; rewrite ?append_nil, ?append_cons.
      * discriminate.
      * intros Heq. injection Heq as _ Hx. exact (IH x Hx).
Qed.

Lemma rstrip_slash_slashes (s : string) : exists n, s = rstrip_slash s ++ slashes n.
Proof.
  induction s as [|c s [n Hn]]; [exists 0; reflexivity |].
  cbn [rstrip_slash]. destruct (rstrip_slash s) as [|r0 r] eqn:Hr.
  - rewrite append_nil in Hn.
    destruct (Ascii.eqb_spec c "/") as [-> | Hc].
    + exists (S n). rewrite append_nil, Hn. reflexivity.
    + exists n. rewrite append_cons, append_nil, <- Hn. reflexivity.
  - exists n. rewrite append_cons, <- Hn. reflexivity.
Qed.

Lemma lstrip_slash_slashes (e : string) : exists m, e = slashes m ++ lstrip_slash e.
Proof.
  induction e as [|c e [m Hm]]; [exists 0; reflexivity |].
  rewrite lstrip_slash_cons. destruct (Ascii.eqb_spec c "/") as [-> | Hc].
  - exists (S m). cbn [slashes]. rewrite append_cons, <- Hm. reflexivity.
  - exists 0. reflexivity.
Qed.

(** X11.  [BaseAPIClient._build_url] returns an endpoint that starts with
    [http] as it is.  Any other endpoint is joined to the base URL with
    exactly one slash between them: the URL is the base URL without the
    slashes it ends with, one slash, and the endpoint without the slashes
    it starts with.  So a trailing slash more on the base URL, or a
    leading slash more on the endpoint, gives the same URL.  The client
    is not changed. *)
Theorem build_url_joins_with_one_slash (endpoint : string) (s : BaseAPIClient.state) :
  (startswith "http" endpoint = true ->
   BaseAPIClient._build_url endpoint s = (Returns endpoint, s))
  /\
  (startswith "http" endpoint = false ->
   exists b e n m,
     BaseAPIClient.base_url (fst s) = b ++ slashes n
     /\ (forall x, b <> x ++ "/")
     /\ endpoint = slashes m ++ e
     /\ (forall y, e <> "/" ++ y)
     /\ BaseAPIClient._build_url endpoint s = (Returns (b ++ "/" ++ e), s)
     /\ BaseAPIClient._build_url ("/" ++ endpoint) s = (Returns (b ++ "/" ++ e), s)
     /\ forall w,
          BaseAPIClient._build_url endpoint
            (BaseAPIClient.set_base_url (BaseAPIClient.base_url (fst s) ++ "/") (fst s), w)
          = (Returns (b ++ "/" ++ e),
             (BaseAPIClient.set_base_url (BaseAPIClient.base_url (fst s) ++ "/") (fst s), w))).
Proof.
  split; intros Hhttp.
  - rewrite VerbFacts.build_url_returns, Hhttp. reflexivity.
  - destruct (rstrip_slash_slashes (BaseAPIClient.base_url (fst s))) as [n Hn].
    destruct (lstrip_slash_slashes endpoint) as [m Hm].
    exists (rstrip_slash (BaseAPIClient.base_url (fst s))), (lstrip_slash endpoint), n, m.
    split; [exact Hn |].
    split; [apply rstrip_slash_no_trailing |].
    split; [exact Hm |].
    split; [intros y; apply lstrip_slash_no_leading |].
    split; [rewrite VerbFacts.build_url_returns, Hhttp; reflexivity |].
    split.
    + rewrite VerbFacts.build_url_returns. reflexivity.
    + intros w. rewrite VerbFacts.build_url_returns, Hhttp.
      cbn [fst BaseAPIClient.base_url BaseAPIClient.set_base_url].
      rewrite rstrip_slash_app_slash. reflexivity.
Qed.

Lemma build_url_joins_with_one_slash_witness :
  BaseAPIClient._build_url "https://other.example/almaws/v1/bibs" (Samples.facing [])
  = (Returns "https://other.example/almaws/v1/bibs", Samples.facing [])
  /\ exists b e n m,
       "https://api-eu.hosted.exlibrisgroup.com" = b ++ slashes n
       /\ (forall x, b <> x ++ "/")
       /\ "//almaws/v1/bibs" = slashes m ++ e
       /\ (forall y, e <> "/" ++ y)
       /\ BaseAPIClient._build_url "//almaws/v1/bibs" (Samples.facing [])
          = (Returns (b ++ "/" ++ e), Samples.facing []).
Proof.
  split.
  - apply (proj1 (build_url_joins_with_one_slash "https://other.example/almaws/v1/bibs"
                    (Samples.facing []))).
    reflexivity.
  - destruct (proj2 (build_url_joins_with_one_slash "//almaws/v1/bibs" (Samples.facing []))
                eq_refl) as [b [e [n [m [Hb [Hb' [He [He' [Hrun _]]]]]]]]].
    exists b, e, n, m. repeat (split; [assumption |]). exact Hrun.
Defined.

End UrlFacts.

(** ** The configuration after its construction *)

Module ConfigurationFacts.
Import ConfigManager.

Lemma set_loaded_constructed (c : t) :
  c = set_loaded (blank (env c)) -> forall c', env c' = env c ->
  api_key_sb c' = api_key_sb c -> api_key_prod c' = api_key_prod c ->
  aws_access_key c' = aws_access_key c -> aws_secret_key c' = aws_secret_key c ->
  sb_bucket_name c' = sb_bucket_name c -> prod_bucket_name c' = prod_bucket_name c ->
  set_loaded c' = c'.
Proof.
  intros Hc c' He H1 H2 H3 H4 H5 H6.
  destruct c' as [e' ce' k1 k2 k3 k4 k5 k6 ic bu hd]. cbn in *. subst e'.
  rewrite Hc in H1, H2, H3, H4, H5, H6. cbn in *. subst. unfold set_loaded. cbn.
  reflexivity.
Qed.

(** The branch on the current environment, as a test of its name. *)
Lemma environment_match {A} (name : string) (x y z : A) :
  match Some name with
  | Some "SB" => x
  | Some "PROD" => y
  | _ => z
  end = if name =? "SB" then x else if name =? "PROD" then y else z.
Proof.
  destruct name as [|a0 s]; [reflexivity |].
  destruct a0 as [[] [] [] [] [] [] [] []]; try reflexivity;
    (destruct s as [|a1 s]; [reflexivity |]);
    (destruct a1 as [[] [] [] [] [] [] [] []]; try reflexivity);
    (destruct s as [|a2 s]; [reflexivity |]);
    (destruct a2 as [[] [] [] [] [] [] [] []]; try reflexivity);
    try (destruct s as [|a3 s]; [reflexivity |];
         destruct a3 as [[] [] [] [] [] [] [] []]; try reflexivity;
         destruct s; reflexivity).
Qed.

(** X12.  A [BaseAPIClient] cannot be made from a configuration whose
    environment was not set: the construction raises
    [AlmaValidationError], as it does after a name written in ASCII that
    the configuration rejected.  After [set_environment] with [SB] or [PROD] in any case
    it returns a client with the base URL of the configuration, the
    headers built from the key of that environment, no request recorded
    and a limit of 100 requests a minute. *)
Theorem base_client_needs_environment (e : option (gmap string string))
    (os_environ : gmap string string) (c : t) :
  __init__ e os_environ = Returns c ->
  BaseAPIClient.__init__ c
  = Raises (AlmaValidationError "API authorization headers are not configured" None None)
  /\ (forall environment,
        is_ascii environment = true ->
        upper environment <> "SB" -> upper environment <> "PROD" ->
        BaseAPIClient.__init__ (snd (set_environment environment c))
        = Raises (AlmaValidationError "API authorization headers are not configured"
                    None None))
  /\ (forall environment,
        upper environment = "SB" \/ upper environment = "PROD" ->
        exists key,
          (upper environment = "SB" /\ key = env_or e os_environ !! "ALMA_SB_API_KEY"
           \/ upper environment = "PROD" /\ key = env_or e os_environ !! "ALMA_PROD_API_KEY")
          /\ is_Some key
          /\ fst (set_environment environment c) = Returns tt
          /\ BaseAPIClient.__init__ (snd (set_environment environment c))
             = Returns (BaseAPIClient.mk "https://api-eu.hosted.exlibrisgroup.com"
                          (Some (json_headers key)) [] 100)).
Proof.
  intros Hinit.
  destruct (ResolutionFacts.init_loaded e os_environ c Hinit) as [-> Hall].
  split; [reflexivity |]. split.
  - intros environment _ Hsb Hp.
    rewrite (ResolutionFacts.set_environment_unknown _ environment Hsb Hp). reflexivity.
  - intros environment Hname.
    destruct (ClientFacts.set_environment_cases environment
                (set_loaded (blank (env_or e os_environ))))
      as [[key [Hset Hkey]] | [Hsb [Hp _]]]; [| destruct Hname; contradiction].
    exists key. split; [exact Hkey |]. split.
    { destruct Hkey as [[_ ->] | [_ ->]]; cbn; apply Hall;
        apply list_elem_of_In; simpl; tauto. }
    rewrite Hset. split; [reflexivity |].
    unfold BaseAPIClient.__init__.
    cbn [snd get_base_url get_headers base_url headers set_headers_field
         set_current_environment set_loaded blank].
    rewrite ClientFacts.json_headers_valid by discriminate. reflexivity.
Qed.

Lemma base_client_needs_environment_witness :
  BaseAPIClient.__init__ Samples.config0
  = Raises (AlmaValidationError "API authorization headers are not configured" None None)
  /\ BaseAPIClient.__init__ (snd (set_environment "sandbox" Samples.config0))
     = Raises (AlmaValidationError "API authorization headers are not configured" None None)
  /\ exists key,
       is_Some key
       /\ BaseAPIClient.__init__ (snd (set_environment "sb" Samples.config0))
          = Returns (BaseAPIClient.mk "https://api-eu.hosted.exlibrisgroup.com"
                       (Some (json_headers key)) [] 100).
Proof.
  destruct (base_client_needs_environment None Samples.full_environ Samples.config0)
    as [H1 [H2 H3]]; [vm_compute; reflexivity |].
  split; [exact H1 |]. split.
  - apply H2; [reflexivity | discriminate | discriminate].
  - destruct (H3 "sb" (or_introl eq_refl)) as [key [_ [Hkey [_ Hrun]]]].
    exists key. split; [exact Hkey | exact Hrun].
Defined.

(** X13.  A name written in ASCII that [set_environment] rejects, one
    that is neither SB nor PROD in any mix of upper and lower case, is
    kept in upper case as the current environment of the configuration:
    the call raises [ValueError], the headers stay those of the
    environment before, and the configuration then has no current API key
    and no current bucket.  Loading the variables again then raises
    [ValueError] as well, unless the rejected name is the empty one. *)
Theorem rejected_name_is_kept (e : option (gmap string string))
    (os_environ : gmap string string) (c0 c : t) (first environment : string) :
  __init__ e os_environ = Returns c0 ->
  set_environment first c0 = (Returns tt, c) ->
  is_ascii environment = true ->
  upper environment <> "SB" -> upper environment <> "PROD" ->
  exists c',
    set_environment environment c
    = (Raises (ValueError ("Invalid environment: " ++ upper environment)), c')
    /\ current_environment c' = Some (upper environment)
    /\ get_headers c' = get_headers c
    /\ is_Some (get_headers c')
    /\ get_api_key c' = None
    /\ get_bucket_name c' = None
    /\ (upper environment <> "" ->
        fst (load_env_variables c')
        = Raises (ValueError ("Invalid environment: " ++ upper environment)))
    /\ (upper environment = "" -> load_env_variables c' = (Returns tt, c')).
Proof.
  intros Hinit Hfirst _ Hsb Hp.
  destruct (ResolutionFacts.init_loaded e os_environ c0 Hinit) as [Hc0 Hall].
  destruct (ClientFacts.set_environment_cases first c0)
    as [[key [Hset _]] | [_ [_ Hset]]]; rewrite Hset in Hfirst; [| discriminate].
  injection Hfirst as <-.
  eexists. split; [apply ResolutionFacts.set_environment_unknown; assumption |].
  split; [reflexivity |]. split; [reflexivity |]. split; [cbn; eauto |].
  split; [unfold get_api_key; cbn [current_environment set_current_environment];
          rewrite environment_match, (eqb_string_false _ _ Hsb), (eqb_string_false _ _ Hp);
          reflexivity |].
  split; [unfold get_bucket_name; cbn [current_environment set_current_environment];
          rewrite environment_match, (eqb_string_false _ _ Hsb), (eqb_string_false _ _ Hp);
          reflexivity |].
  assert (Hfilter : filter (fun v => env c0 !! v = None) REQUIRED_ENV_VARS = []).
  { apply ClientFacts.all_present. rewrite Hc0. exact Hall. }
  split.
  - intros Hne. unfold load_env_variables, bind, get, modify.
    cbn [env set_headers_field set_current_environment set_loaded current_environment].
    rewrite Hfilter.
    cbn [current_environment set_current_environment truthy_opt fmt_opt default].
    rewrite (eqb_string_false _ _ Hne). cbn [negb].
    unfold set_headers, bind, get, raise. cbn.
    rewrite (eqb_string_false _ _ Hsb), (eqb_string_false _ _ Hp). reflexivity.
  - intros Hempty. unfold load_env_variables, bind, get, modify.
    cbn [env set_headers_field set_current_environment set_loaded current_environment].
    rewrite Hfilter.
    cbn [current_environment set_current_environment truthy_opt fmt_opt default].
    rewrite Hempty. cbn.
    rewrite Hc0. reflexivity.
Qed.

Lemma rejected_name_is_kept_witness :
  exists c',
    set_environment "sandbox" Samples.config_prod
    = (Raises (ValueError "Invalid environment: SANDBOX"), c')
    /\ get_headers c' = get_headers Samples.config_prod
    /\ get_api_key c' = None
    /\ get_bucket_name c' = None
    /\ fst (load_env_variables c') = Raises (ValueError "Invalid environment: SANDBOX").
Proof.
  destruct (rejected_name_is_kept None Samples.full_environ Samples.config0
              Samples.config_prod "PROD" "sandbox")
    as [c' [Hrun [_ [Hh [_ [Hk [Hb [Hload _]]]]]]]];
    [vm_compute; reflexivity | vm_compute; reflexivity | reflexivity
    | discriminate | discriminate |].
  exists c'. split; [exact Hrun |]. split; [exact Hh |]. split; [exact Hk |].
  split; [exact Hb |]. apply Hload. discriminate.
Defined.

(** X14.  On a configuration that was constructed and whose environment
    was set to [SB] or [PROD], the current API key and the current bucket
    are the values of the variables of that environment, the
    authorization header is [apikey ] followed by that key, and loading
    the variables again returns and changes nothing. *)
Theorem accessors_follow_environment (e : option (gmap string string))
    (os_environ : gmap string string) (c0 c : t) (environment : string) :
  __init__ e os_environ = Returns c0 ->
  set_environment environment c0 = (Returns tt, c) ->
  exists key bucket,
    (upper environment = "SB"
     /\ env_or e os_environ !! "ALMA_SB_API_KEY" = Some key
     /\ env_or e os_environ !! "ALMA_SB_BUCKET_NAME" = Some bucket
     \/ upper environment = "PROD"
        /\ env_or e os_environ !! "ALMA_PROD_API_KEY" = Some key
        /\ env_or e os_environ !! "ALMA_PROD_BUCKET_NAME" = Some bucket)
    /\ get_api_key c = Some key
    /\ get_bucket_name c = Some bucket
    /\ (exists h, get_headers c = Some h /\ h !! "authorization" = Some ("apikey " ++ key))
    /\ load_env_variables c = (Returns tt, c).
Proof.
  intros Hinit Hset.
  destruct (ResolutionFacts.init_loaded e os_environ c0 Hinit) as [Hc0 Hall].
  assert (Hfilter : filter (fun v => env_or e os_environ !! v = None) REQUIRED_ENV_VARS = [])
    by (apply ClientFacts.all_present; exact Hall).
  destruct (ClientFacts.set_environment_cases environment c0)
    as [[k [Hset' Hk]] | [_ [_ Hset']]]; rewrite Hset' in Hset; [| discriminate].
  injection Hset as <-. subst c0.
  destruct Hk as [[Hu ->] | [Hu ->]]; rewrite Hu.
  - destruct (Hall "ALMA_SB_API_KEY") as [key Hkey]; [apply list_elem_of_In; simpl; tauto |].
    destruct (Hall "ALMA_SB_BUCKET_NAME") as [bucket Hbucket];
      [apply list_elem_of_In; simpl; tauto |].
    exists key, bucket. split; [left; auto |].
    cbn [get_api_key get_bucket_name current_environment set_headers_field
         set_current_environment set_loaded blank api_key_sb sb_bucket_name env get_headers
         headers].
    split; [exact Hkey |]. split; [exact Hbucket |]. split.
    + eexists. split; [reflexivity |]. unfold json_headers.
      rewrite lookup_insert_eq, Hkey. reflexivity.
    + unfold load_env_variables, bind, get, modify. cbn [env set_headers_field
        set_current_environment set_loaded blank]. rewrite Hfilter. reflexivity.
  - destruct (Hall "ALMA_PROD_API_KEY") as [key Hkey]; [apply list_elem_of_In; simpl; tauto |].
    destruct (Hall "ALMA_PROD_BUCKET_NAME") as [bucket Hbucket];
      [apply list_elem_of_In; simpl; tauto |].
    exists key, bucket. split; [right; auto |].
    cbn [get_api_key get_bucket_name current_environment set_headers_field
         set_current_environment set_loaded blank api_key_prod prod_bucket_name env
         get_headers headers].
    split; [exact Hkey |]. split; [exact Hbucket |]. split.
    + eexists. split; [reflexivity |]. unfold json_headers.
      rewrite lookup_insert_eq, Hkey. reflexivity.
    + unfold load_env_variables, bind, get, modify. cbn [env set_headers_field
        set_current_environment set_loaded blank]. rewrite Hfilter. reflexivity.
Qed.

Lemma accessors_follow_environment_witness :
  get_api_key Samples.config_prod = Some "prod-key"
  /\ get_bucket_name Samples.config_prod = Some "prod-bucket"
  /\ load_env_variables Samples.config_prod = (Returns tt, Samples.config_prod).
Proof.
  destruct (accessors_follow_environment None Samples.full_environ Samples.config0
              Samples.config_prod "PROD")
    as [key [bucket [Hcase [Hk [Hb [_ Hload]]]]]];
    [vm_compute; reflexivity | vm_compute; reflexivity |].
  destruct Hcase as [[Hu _] | [_ [Hkey Hbucket]]]; [discriminate |].
  vm_compute in Hkey, Hbucket. injection Hkey as <-. injection Hbucket as <-.
  split; [exact Hk |]. split; [exact Hb | exact Hload].
Defined.

End ConfigurationFacts.

(** ** The verbs of the [AlmaAPIClient] gateway *)

Module GatewayFacts.
Import AlmaAPIClient.

Lemma send_cases (req : http_request) (s : state) :
  match remote (snd s) (calls (snd s)) req with
  | Reply r => send req s = (Returns r, (fst s, sent req (snd s)))
  | Failure message =>
      send req s = (Raises (RequestException message), (fst s, sent req (snd s)))
  end.
Proof. unfold send. destruct (remote _ _ req); reflexivity. Qed.

Lemma update_with_lookup (custom_headers : option (gmap string string))
    (h : gmap string string) (name : string) :
  update_with custom_headers h !! name =
    match custom_headers ≫= (fun c => c !! name) with
    | Some v => Some v
    | None => h !! name
    end.
Proof.
  destruct custom_headers as [c |]; cbn; [| reflexivity].
  rewrite lookup_union. destruct (c !! name), (h !! name); reflexivity.
Qed.

(** X15.  [get] and [delete] of the gateway send exactly one request and
    hand its outcome to the caller as it is: whatever the status of the
    answer, 429 and 5xx included, the response is returned, nothing is
    sent again and nothing sleeps; a transport failure is raised as the
    [RequestException] it is.  The URL is the base URL, a slash and the
    endpoint without its leading slashes, also for an endpoint that is a
    full URL; a custom header replaces the default of the same name and
    the other defaults are sent as they are; no timeout is set.  The
    gateway is not changed. *)
Theorem gateway_get_delete_send_once (endpoint : string)
    (params custom_headers : option (gmap string string)) (s : state) :
  exists hs,
    (forall name,
        hs !! name = match custom_headers ≫= (fun c => c !! name) with
                     | Some v => Some v
                     | None => default_headers (fst s) !! name
                     end)
    /\ (let req := mk_request "GET" (base_url (fst s) ++ "/" ++ lstrip_slash endpoint)
                     hs NoBody params None in
        match remote (snd s) (calls (snd s)) req with
        | Reply r =>
            get endpoint params custom_headers s = (Returns r, (fst s, sent req (snd s)))
        | Failure message =>
            get endpoint params custom_headers s
            = (Raises (RequestException message), (fst s, sent req (snd s)))
        end)
    /\ (let req := mk_request "DELETE" (base_url (fst s) ++ "/" ++ lstrip_slash endpoint)
                     hs NoBody params None in
        match remote (snd s) (calls (snd s)) req with
        | Reply r =>
            delete endpoint params custom_headers s = (Returns r, (fst s, sent req (snd s)))
        | Failure message =>
            delete endpoint params custom_headers s
            = (Raises (RequestException message), (fst s, sent req (snd s)))
        end).
Proof.
  exists (update_with custom_headers (default_headers (fst s))).
  split; [intros name; apply update_with_lookup |].
  split; intros req; apply (send_cases req s).
Qed.

(** X16.  [post] and [put] of the gateway send exactly one request and
    hand its outcome to the caller as it is, as [get] does.  The data
    goes as JSON when it is a dict and no content type is given, and as
    it is otherwise.  A content type that is given and not empty is sent
    as [Content-Type], and [Accept] becomes XML when it is exactly
    [application/xml]; with no content type the defaults are sent.  A
    custom header replaces the prepared one of the same name. *)
Theorem gateway_post_put_send_once (endpoint : string) (data : pyval)
    (params : option (gmap string string)) (content_type : option string)
    (custom_headers : option (gmap string string)) (s : state) :
  exists prepared hs,
    (truthy_opt content_type = false -> prepared = default_headers (fst s))
    /\ (forall ct, content_type = Some ct -> ct <> "" ->
        prepared !! "Content-Type" = Some ct
        /\ prepared !! "Accept" = (if ct =? "application/xml" then Some "application/xml"
                                   else default_headers (fst s) !! "Accept")
        /\ forall name, name <> "Content-Type" -> name <> "Accept" ->
                        prepared !! name = default_headers (fst s) !! name)
    /\ (forall name,
           hs !! name = match custom_headers ≫= (fun c => c !! name) with
                        | Some v => Some v
                        | None => prepared !! name
                        end)
    /\ (let body := if is_dict data && negb (truthy_opt content_type)
                    then Json data else Data data in
        forall verb run,
          (verb = "POST" /\ run = post endpoint data params content_type custom_headers
           \/ verb = "PUT" /\ run = put endpoint data params content_type custom_headers) ->
          let req := mk_request verb (base_url (fst s) ++ "/" ++ lstrip_slash endpoint)
                       hs body params None in
          match remote (snd s) (calls (snd s)) req with
          | Reply r => run s = (Returns r, (fst s, sent req (snd s)))
          | Failure message =>
              run s = (Raises (RequestException message), (fst s, sent req (snd s)))
          end).
Proof.
  set (prepared :=
         if truthy_opt content_type then
           let headers := <["Content-Type" := fmt_opt content_type]> (default_headers (fst s)) in
           if fmt_opt content_type =? "application/xml"
           then <["Accept" := "application/xml"]> headers
           else headers
         else default_headers (fst s)).
  exists prepared, (update_with custom_headers prepared).
  split; [intros Hno; subst prepared; rewrite Hno; reflexivity |].
  split.
  { intros ct -> Hne. subst prepared. cbn [truthy_opt fmt_opt default id].
    rewrite (eqb_string_false _ _ Hne). cbn [negb]. cbv zeta.
    destruct (ct =? "application/xml").
    - split; [rewrite lookup_insert_ne by discriminate; apply lookup_insert_eq |].
      split; [apply lookup_insert_eq |].
      intros name H1 H2. rewrite !lookup_insert_ne by congruence. reflexivity.
    - split; [apply lookup_insert_eq |].
      split; [apply lookup_insert_ne; discriminate |].
      intros name H1 H2. rewrite !lookup_insert_ne by congruence. reflexivity. }
  split; [intros name; apply update_with_lookup |].
  intros body verb run [[-> ->] | [-> ->]] req; apply (send_cases req s).
Qed.

(** X17.  [test_connection] of the gateway never raises.  It sends one
    request, a GET of [almaws/v1/conf/libraries] with the default
    headers, and returns [True] exactly when the answer has status 200:
    any other status, another 2xx included, and a transport failure give
    [False].  The gateway is not changed. *)
Theorem gateway_test_connection_exactly_200 (s : state) :
  let req := mk_request "GET" (base_url (fst s) ++ "/almaws/v1/conf/libraries")
               (default_headers (fst s)) NoBody None None in
  exists b,
    test_connection s = (Returns b, (fst s, sent req (snd s)))
    /\ (b = true <->
        exists r, remote (snd s) (calls (snd s)) req = Reply r
                  /\ Response.status_code r = 200%Z).
Proof.
  intros req. pose proof (send_cases req s) as Hsend.
  unfold test_connection, try_except, get, _build_url, _prepare_headers, bind, getself, ret.
  cbn [truthy_opt update_with fst snd].
  change (send _ s) with (send req s).
  destruct (remote (snd s) (calls (snd s)) req) as [r | message]; rewrite Hsend.
  - exists (Response.status_code r =? 200)%Z. split; [reflexivity |].
    rewrite Z.eqb_eq. split.
    + intros H. exists r. auto.
    + intros [r' [Hr' H]]. injection Hr' as <-. exact H.
  - exists false. split; [reflexivity |].
    split; [discriminate | intros [r [Hr _]]; discriminate].
Qed.

Lemma gateway_post_put_send_once_witness :
  exists prepared : gmap string string,
    prepared !! "Content-Type" = Some "application/xml"
    /\ prepared !! "Accept" = Some "application/xml"
    /\ prepared !! "Authorization" = Some "apikey sb-key".
Proof.
  destruct (gateway_post_put_send_once "almaws/v1/bibs" (PyStr "<bib/>") None
              (Some "application/xml") None Samples.sandbox_facing_404)
    as [prepared [hs [_ [Hct _]]]].
  destruct (Hct "application/xml" eq_refl) as [H1 [H2 H3]]; [discriminate |].
  exists prepared. split; [exact H1 |]. split; [exact H2 |].
  rewrite H3 by discriminate. reflexivity.
Defined.

Lemma gateway_test_connection_exactly_200_witness :
  exists s', test_connection Samples.sandbox_facing_404 = (Returns false, s').
Proof.
  destruct (gateway_test_connection_exactly_200 Samples.sandbox_facing_404)
    as [b [Hrun Hb]].
  eexists. rewrite Hrun. destruct b; [| reflexivity].
  destruct (proj1 Hb eq_refl) as [r [Hr Hstatus]].
  vm_compute in Hr. injection Hr as <-. discriminate Hstatus.
Defined.

End GatewayFacts.

(** ** Text for XML *)

Module SanitizeFacts.
Import BibliographicRecords.

Lemma replace_char_cons_eq (c : ascii) (new s : string) :
  replace_char c new (String c s) = new ++ replace_char c new s.
Proof. cbn [replace_char]. rewrite Ascii.eqb_refl. reflexivity. Qed.

Lemma replace_char_cons_ne (a c : ascii) (new s : string) :
  a <> c -> replace_char c new (String a s) = String a (replace_char c new s).
Proof.
  intros Hne. cbn [replace_char].
  destruct (Ascii.eqb_spec a c); [contradiction | reflexivity].
Qed.

Lemma replace_char_app (c : ascii) (new a b : string) :
  replace_char c new (a ++ b) = replace_char c new a ++ replace_char c new b.
Proof.
  induction a as [|x a IH]; [reflexivity |].
  rewrite UrlFacts.append_cons. cbn [replace_char].
  destruct (Ascii.eqb x c).
  - rewrite IH. symmetry. apply UrlFacts.append_assoc.
  - rewrite IH. reflexivity.
Qed.

Lemma escape_cons (a : ascii) (s : string) : escape (String a s) = entity a ++ escape s.
Proof.
  unfold escape, entity.
  destruct (Ascii.eqb_spec a "&") as [-> | H1].
  { rewrite replace_char_cons_eq, !replace_char_app. reflexivity. }
  rewrite (replace_char_cons_ne a "&") by exact H1.
  destruct (Ascii.eqb_spec a "<") as [-> | H2].
  { rewrite replace_char_cons_eq, !replace_char_app. reflexivity. }
  rewrite (replace_char_cons_ne a "<") by exact H2.
  destruct (Ascii.eqb_spec a ">") as [-> | H3].
  { rewrite replace_char_cons_eq, !replace_char_app. reflexivity. }
  rewrite (replace_char_cons_ne a ">") by exact H3.
  destruct (Ascii.eqb_spec a dquote) as [-> | H4].
  { rewrite replace_char_cons_eq, !replace_char_app. reflexivity. }
  rewrite (replace_char_cons_ne a dquote) by exact H4.
  destruct (Ascii.eqb_spec a "'") as [-> | H5].
  { rewrite replace_char_cons_eq. reflexivity. }
  rewrite (replace_char_cons_ne a "'") by exact H5.
  reflexivity.
Qed.

Lemma escape_escape_once (s : string) : escape s = escape_once s.
Proof.
  induction s as [|a s IH]; [reflexivity |].
  rewrite escape_cons, IH. reflexivity.
Qed.

Lemma occurs_app (c : ascii) (a b : string) :
  occurs c (a ++ b) = occurs c a || occurs c b.
Proof.
  induction a as [|x a IH]; [reflexivity |].
  rewrite UrlFacts.append_cons. cbn [occurs]. rewrite IH. apply orb_assoc.
Qed.

(** [lstrip] returns what is left of the text after its start, and
    [rstrip] what comes before its end. *)
Lemma lstrip_suffix (n : nat) :
  forall s, String.length s <= n -> exists p, s = p ++ lstrip s.
Proof.
  induction n as [|n IH]; intros s Hn.
  - destruct s; [exists ""; reflexivity | cbn in Hn; lia].
  - destruct s as [|a r1]; [exists ""; reflexivity |].
    cbn [lstrip]. cbn [String.length] in Hn.
    destruct (space_width (String a r1)) as [|[|[|[|k]]]];
      try (exists ""; reflexivity).
    + destruct (IH r1) as [p Hp]; [lia |].
      exists (String a p). rewrite UrlFacts.append_cons, <- Hp. reflexivity.
    + destruct r1 as [|b r2]; [exists ""; reflexivity |].
      cbn [String.length] in Hn. destruct (IH r2) as [p Hp]; [lia |].
      exists (String a (String b p)). rewrite !UrlFacts.append_cons, <- Hp. reflexivity.
    + destruct r1 as [|b [|c r3]]; try (exists ""; reflexivity).
      cbn [String.length] in Hn. destruct (IH r3) as [p Hp]; [lia |].
      exists (String a (String b (String c p))).
      rewrite !UrlFacts.append_cons, <- Hp. reflexivity.
Qed.

Lemma rstrip_prefix (s : string) : exists q, s = rstrip s ++ q.
Proof.
  induction s as [|c s [q Hq]].
  - exists "". cbn. reflexivity.
  - cbn [rstrip]. destruct (all_space (String c s)).
    + exists (String c s). reflexivity.
    + exists q. rewrite UrlFacts.append_cons, <- Hq. reflexivity.
Qed.

Lemma occurs_lstrip (c : ascii) (s : string) :
  occurs c (lstrip s) = true -> occurs c s = true.
Proof.
  intros H. destruct (lstrip_suffix (String.length s) s (le_n _)) as [p Hp].
  rewrite Hp, occurs_app, H. apply orb_true_r.
Qed.

Lemma occurs_rstrip (c : ascii) (s : string) :
  occurs c (rstrip s) = true -> occurs c s = true.
Proof.
  intros H. destruct (rstrip_prefix s) as [q Hq].
  rewrite Hq, occurs_app, H. reflexivity.
Qed.

Lemma occurs_strip (c : ascii) (s : string) :
  occurs c (strip s) = true -> occurs c s = true.
Proof. intros H. apply occurs_lstrip, occurs_rstrip. exact H. Qed.

Lemma unsafe_not_in_entities (c : ascii) :
  unsafe c = true ->
  occurs c "&amp;" = false /\ occurs c "&lt;" = false /\ occurs c "&gt;" = false
  /\ occurs c "&quot;" = false /\ occurs c "&apos;" = false.
Proof.
  destruct c as [[] [] [] [] [] [] [] []]; intros H;
    first [discriminate H | repeat split; reflexivity].
Qed.

Lemma entity_safe (a c : ascii) :
  keeps a = true -> unsafe c = true -> occurs c (entity a) = false.
Proof.
  intros Hkeep Hc.
  destruct (unsafe_not_in_entities c Hc) as (E1 & E2 & E3 & E4 & E5).
  unfold entity.
  destruct (Ascii.eqb_spec a "&"); [exact E1 |].
  destruct (Ascii.eqb_spec a "<") as [| H2]; [exact E2 |].
  destruct (Ascii.eqb_spec a ">") as [| H3]; [exact E3 |].
  destruct (Ascii.eqb_spec a dquote) as [| H4]; [exact E4 |].
  destruct (Ascii.eqb_spec a "'") as [| H5]; [exact E5 |].
  cbn [occurs]. rewrite orb_false_r.
  destruct (Ascii.eqb_spec a c) as [<- | Hne]; [| reflexivity].
  unfold unsafe in Hc. rewrite Hkeep in Hc. cbn [negb orb] in Hc.
  apply Ascii.eqb_neq in H2, H3, H4, H5. rewrite H2, H3, H4, H5 in Hc. discriminate.
Qed.

Lemma escape_once_safe (c : ascii) (text : string) :
  unsafe c = true -> occurs c (escape_once (keep_printable text)) = false.
Proof.
  intros Hc. induction text as [|a text IH]; [reflexivity |].
  cbn [keep_printable]. destruct (keeps a) eqn:Hkeep; [| exact IH].
  cbn [escape_once]. rewrite occurs_app, IH, (entity_safe a c Hkeep Hc). reflexivity.
Qed.

(** X18.  The five replacements of [_sanitize_xml_text] act as one pass
    over the text: each character is written as its entity once, and
    the ampersand of an entity written for an earlier character is not
    escaped again.  The result is that pass over the characters kept,
    without the white space at its ends, that of Unicode with it; the
    empty text stays empty. *)
Theorem sanitize_escapes_in_one_pass (text : string) :
  _sanitize_xml_text text = strip (escape_once (keep_printable text))
  /\ forall (a : ascii) (rest : string),
       escape (String a rest) = entity a ++ escape rest.
Proof.
  split; [| intros a rest; apply escape_cons].
  unfold _sanitize_xml_text. destruct (String.eqb_spec text "") as [-> | _]; [reflexivity |].
  rewrite escape_escape_once. reflexivity.
Qed.

(** X19.  Whatever the text given, the text [_sanitize_xml_text] returns
    holds none of the characters it takes out or writes as an entity: no
    [<], [>], double quote or apostrophe, and no character with a code
    below 32 other than tab, newline and carriage return. *)
Theorem sanitized_text_is_safe (text : string) (c : ascii) :
  unsafe c = true -> occurs c (_sanitize_xml_text text) = false.
Proof.
  intros Hc. unfold _sanitize_xml_text.
  destruct (text =? ""); [reflexivity |].
  destruct (occurs c (strip (escape (keep_printable text)))) eqn:Hocc; [| reflexivity].
  apply occurs_strip in Hocc.
  rewrite escape_escape_once, (escape_once_safe c text Hc) in Hocc. discriminate.
Qed.

Lemma sanitized_text_is_safe_witness :
  occurs "<" (_sanitize_xml_text " <b>Tom & Jerry</b> ") = false
  /\ _sanitize_xml_text " <b>Tom & Jerry</b> " = "&lt;b&gt;Tom &amp; Jerry&lt;/b&gt;".
Proof.
  split; [apply (sanitized_text_is_safe " <b>Tom & Jerry</b> " "<"); reflexivity |].
  vm_compute. reflexivity.
Defined.

End SanitizeFacts.

(** ** Bibliographic records *)

Module BibFacts.
Import BibliographicRecords.

(** A GET or a DELETE of a relative endpoint that does not start with a
    slash, on a client that holds headers. *)
Lemma relative_call (py_str : pyval -> string) (method endpoint accept : string)
    (params : option (gmap string string)) (s : state) (h : gmap string string) :
  BaseAPIClient.headers (fst s) = Some h ->
  startswith "http" endpoint = false ->
  lstrip_slash endpoint = endpoint ->
  BaseAPIClient.supported method = true ->
  exists hs k m,
    hs !! "Accept" =
      Some (if lower accept =? "xml" then "application/xml" else "application/json")
    /\ (forall name, name <> "Accept" -> name <> "Content-Type" -> hs !! name = h !! name)
    /\ k <= BaseAPIClient.MAX_RETRIES /\ (m = k \/ m = S k)
    /\ BaseAPIClient.attempts
         (BaseAPIClient.request_of method
            (rstrip_slash (BaseAPIClient.base_url (fst s)) ++ "/" ++ endpoint)
            hs PyNone params) 0 k m s
         (snd ((url <- BaseAPIClient._build_url endpoint ;;
                headers <- BaseAPIClient._prepare_headers "json" accept ;;
                BaseAPIClient._make_request py_str method url headers PyNone params 0) s)).
Proof.
  intros Hh Hhttp Hstrip Hsup.
  destruct (VerbFacts.verb_prepared endpoint "json" accept s h
              (fun url headers =>
                 BaseAPIClient._make_request py_str method url headers PyNone params 0) Hh)
    as [hs [Hrun [Hacc [_ Hother]]]].
  rewrite Hrun, Hhttp, Hstrip.
  destruct (BoundFacts.make_request_attempts py_str method
              (rstrip_slash (BaseAPIClient.base_url (fst s)) ++ "/" ++ endpoint)
              hs PyNone params BaseAPIClient.MAX_RETRIES 0 s)
    as [k [m [Hk [Hm [_ Hatt]]]]]; [lia |].
  exists hs, k, m. split; [exact Hacc |]. split; [exact Hother |].
  split; [lia |]. split; [exact Hm | exact Hatt].
Qed.

(** X20.  [search_records] checks its arguments before anything else:
    an empty query, and then a limit above 100, raise
    [AlmaValidationError] with nothing sent and nothing recorded by the
    rate limiter.  Any other limit is accepted, zero and the negative
    ones with it.  The search is then a GET of [almaws/v1/bibs] under
    the base URL, asking for JSON, with the query, the limit and the
    offset as text, the direction, and the sort field, which is
    [mms_id] when none or an empty one is given; it is sent at most
    four times and nothing else is sent. *)
Theorem search_records_checks_then_sends (py_str : pyval -> string) (q : string)
    (limit offset : Z) (order_by : option string) (direction : string) (s : state) :
  (q = "" ->
   search_records py_str q limit offset order_by direction s
   = (Raises (AlmaValidationError "Search query is required" None None), s))
  /\
  (q <> "" -> (100 < limit)%Z ->
   search_records py_str q limit offset order_by direction s
   = (Raises (AlmaValidationError "Limit cannot exceed 100" None None), s))
  /\
  (q <> "" -> (limit <= 100)%Z ->
   forall h, BaseAPIClient.headers (fst s) = Some h ->
   exists params hs k m,
     params !! "q" = Some q
     /\ params !! "limit" = Some (py_str (PyInt limit))
     /\ params !! "offset" = Some (py_str (PyInt offset))
     /\ params !! "order_by" = Some (match order_by with
                                     | Some f => if f =? "" then "mms_id" else f
                                     | None => "mms_id"
                                     end)
     /\ params !! "direction" = Some direction
     /\ hs !! "Accept" = Some "application/json"
     /\ hs !! "authorization" = h !! "authorization"
     /\ k <= BaseAPIClient.MAX_RETRIES /\ (m = k \/ m = S k)
     /\ BaseAPIClient.attempts
          (mk_request "GET" (rstrip_slash (BaseAPIClient.base_url (fst s)) ++ "/almaws/v1/bibs")
             hs NoBody (Some params) (Some 30%Z)) 0 k m s
          (snd (search_records py_str q limit offset order_by direction s))).
Proof.
  split; [| split].
  - intros ->. reflexivity.
  - intros Hq Hlimit. unfold search_records.
    rewrite (eqb_string_false _ _ Hq).
    destruct (Z.ltb_spec 100 limit); [reflexivity | lia].
  - intros Hq Hlimit h Hh. unfold search_records.
    rewrite (eqb_string_false _ _ Hq).
    destruct (Z.ltb_spec 100 limit); [lia |].
    cbv zeta.
    match goal with |- context [BaseAPIClient.get py_str _ (Some ?p) _] => set (params := p) end.
    destruct (relative_call py_str "GET" "almaws/v1/bibs" "json" (Some params) s h Hh
                eq_refl eq_refl eq_refl)
      as [hs [k [m [Hacc [Hother [Hk [Hm Hatt]]]]]]].
    exists params, hs, k, m.
    split; [apply lookup_insert_eq |].
    split; [subst params; rewrite lookup_insert_ne by discriminate; apply lookup_insert_eq |].
    split; [subst params; rewrite !lookup_insert_ne by discriminate; apply lookup_insert_eq |].
    split.
    { subst params. rewrite !lookup_insert_ne by discriminate. rewrite lookup_insert_eq.
      destruct order_by as [f |]; [| reflexivity]. cbn.
      destruct (f =? ""); reflexivity. }
    split; [subst params; rewrite !lookup_insert_ne by discriminate; apply lookup_insert_eq |].
    split; [exact Hacc |].
    split; [apply Hother; discriminate |].
    split; [exact Hk |]. split; [exact Hm | exact Hatt].
Qed.

Lemma search_records_checks_then_sends_witness :
  search_records Samples.str_of "title~x" 101 0 None "asc" (Samples.facing [])
  = (Raises (AlmaValidationError "Limit cannot exceed 100" None None), Samples.facing [])
  /\ exists params hs k m,
       params !! "limit" = Some "-5"
       /\ params !! "order_by" = Some "mms_id"
       /\ BaseAPIClient.attempts
            (mk_request "GET" "https://api-eu.hosted.exlibrisgroup.com/almaws/v1/bibs"
               hs NoBody (Some params) (Some 30%Z)) 0 k m (Samples.facing [])
            (snd (search_records Samples.str_of "title~x" (-5) 0 (Some "") "asc"
                    (Samples.facing []))).
Proof.
  split.
  - apply (proj1 (proj2 (search_records_checks_then_sends Samples.str_of "title~x" 101 0 None
                           "asc" (Samples.facing []))));
      [discriminate | lia].
  - destruct (proj2 (proj2 (search_records_checks_then_sends Samples.str_of "title~x" (-5) 0
                              (Some "") "asc" (Samples.facing []))))
      with (h := ConfigManager.json_headers (Some "prod-key"))
      as [params [hs [k [m [_ [Hl [_ [Ho [_ [_ [_ [_ [_ Hatt]]]]]]]]]]]]];
      [discriminate | lia | reflexivity |].
    exists params, hs, k, m. split; [exact Hl |]. split; [exact Ho | exact Hatt].
Defined.

(** X21.  [get_record] and [delete_record] refuse an empty MMS ID with
    [AlmaValidationError] before anything is sent or recorded.  With an
    MMS ID, [get_record] is a GET and [delete_record] a DELETE of
    [almaws/v1/bibs/] followed by the MMS ID as it is, under the base
    URL, sent at most four times.  The GET carries the view, and the
    expansion only when one that is not empty is given; the DELETE
    carries [override=attached_items] when asked to, and an empty set of
    parameters otherwise. *)
Theorem record_calls_check_identifier (py_str : pyval -> string) (mms_id view : string)
    (expand : option string) (override_attached_items : bool) (s : state) :
  (mms_id = "" ->
   get_record py_str mms_id view expand s
   = (Raises (AlmaValidationError "MMS ID is required" None None), s)
   /\ delete_record py_str mms_id override_attached_items s
      = (Raises (AlmaValidationError "MMS ID is required" None None), s))
  /\
  (mms_id <> "" ->
   forall h, BaseAPIClient.headers (fst s) = Some h ->
   let url := rstrip_slash (BaseAPIClient.base_url (fst s)) ++ "/almaws/v1/bibs/" ++ mms_id in
   (exists params hs k m,
       params !! "view" = Some view
       /\ params !! "expand" = (if truthy_opt expand then expand else None)
       /\ (forall name, name <> "view" -> name <> "expand" -> params !! name = None)
       /\ hs !! "authorization" = h !! "authorization"
       /\ k <= BaseAPIClient.MAX_RETRIES /\ (m = k \/ m = S k)
       /\ BaseAPIClient.attempts (mk_request "GET" url hs NoBody (Some params) (Some 30%Z))
            0 k m s (snd (get_record py_str mms_id view expand s)))
   /\
   (exists hs k m,
       hs !! "authorization" = h !! "authorization"
       /\ k <= BaseAPIClient.MAX_RETRIES /\ (m = k \/ m = S k)
       /\ BaseAPIClient.attempts
            (mk_request "DELETE" url hs NoBody
               (Some (if override_attached_items
                      then {["override" := "attached_items"]} else ∅))
               (Some 30%Z))
            0 k m s (snd (delete_record py_str mms_id override_attached_items s)))).
Proof.
  split.
  - intros ->. split; reflexivity.
  - intros Hid h Hh url.
    assert (Hhttp : startswith "http" ("almaws/v1/bibs/" ++ mms_id) = false) by reflexivity.
    assert (Hstrip : lstrip_slash ("almaws/v1/bibs/" ++ mms_id) = "almaws/v1/bibs/" ++ mms_id)
      by reflexivity.
    split.
    + unfold get_record. rewrite (eqb_string_false _ _ Hid). cbv zeta.
      match goal with |- context [BaseAPIClient.get py_str _ (Some ?p) _] =>
        set (params := p) end.
      destruct (relative_call py_str "GET" ("almaws/v1/bibs/" ++ mms_id) "json" (Some params)
                  s h Hh Hhttp Hstrip eq_refl)
        as [hs [k [m [_ [Hother [Hk [Hm Hatt]]]]]]].
      exists params, hs, k, m.
      split.
      { subst params. destruct (truthy_opt expand).
        - rewrite lookup_insert_ne by discriminate. apply lookup_insert_eq.
        - apply lookup_insert_eq. }
      split.
      { subst params. destruct (truthy_opt expand) eqn:Ht.
        - rewrite lookup_insert_eq. destruct expand; [reflexivity | discriminate].
        - rewrite lookup_insert_ne by discriminate. apply lookup_empty. }
      split.
      { intros name Hv He. subst params. destruct (truthy_opt expand);
          rewrite !lookup_insert_ne by congruence; apply lookup_empty. }
      split; [apply Hother; discriminate |].
      split; [exact Hk |]. split; [exact Hm | exact Hatt].
    + unfold delete_record. rewrite (eqb_string_false _ _ Hid). cbv zeta.
      match goal with |- context [BaseAPIClient.delete py_str _ (Some ?p)] =>
        set (params := p) end.
      destruct (relative_call py_str "DELETE" ("almaws/v1/bibs/" ++ mms_id) "json"
                  (Some params) s h Hh Hhttp Hstrip eq_refl)
        as [hs [k [m [_ [Hother [Hk [Hm Hatt]]]]]]].
      exists hs, k, m.
      split; [apply Hother; discriminate |].
      split; [exact Hk |]. split; [exact Hm |].
      subst params. destruct override_attached_items; exact Hatt.
Qed.

Lemma record_calls_check_identifier_witness :
  get_record Samples.str_of "" "full" None (Samples.facing [])
  = (Raises (AlmaValidationError "MMS ID is required" None None), Samples.facing [])
  /\ exists params hs k m,
       params !! "view" = Some "brief"
       /\ params !! "expand" = None
       /\ BaseAPIClient.attempts
            (mk_request "GET" Samples.bib_url hs NoBody (Some params) (Some 30%Z))
            0 k m (Samples.facing [])
            (snd (get_record Samples.str_of "991000000000541" "brief" (Some "")
                    (Samples.facing []))).
Proof.
  split.
  - apply (proj1 (record_calls_check_identifier Samples.str_of "" "full" None false
                    (Samples.facing []))).
    reflexivity.
  - destruct (proj2 (record_calls_check_identifier Samples.str_of "991000000000541" "brief"
                       (Some "") false (Samples.facing [])))
      with (h := ConfigManager.json_headers (Some "prod-key"))
      as [[params [hs [k [m [Hv [He [_ [_ [_ [_ Hatt]]]]]]]]]] _];
      [discriminate | reflexivity |].
    exists params, hs, k, m. split; [exact Hv |]. split; [exact He | exact Hatt].
Defined.

End BibFacts.

(** ** The members of a set *)

Module AdminFacts.
Import Admin.

Lemma last_piece_none (sep s last : string) :
  contains sep s = false -> last_piece_from sep 0 s last = last.
Proof.
  induction s as [|c s IH]; [reflexivity |].
  cbn [contains last_piece_from]. intros H. apply orb_false_iff in H. destruct H as [Hp Hc].
  rewrite Hp. apply IH. exact Hc.
Qed.

Lemma last_piece_prefix (sep p rest last : string) :
  begins_in sep p rest = false ->
  last_piece_from sep 0 (p ++ rest) last = last_piece_from sep 0 rest last.
Proof.
  induction p as [|c p IH]; [reflexivity |].
  cbn [begins_in]. intros H. apply orb_false_iff in H. destruct H as [Hp Hb].
  rewrite UrlFacts.append_cons in *. cbn [last_piece_from]. rewrite Hp. apply IH. exact Hb.
Qed.

Lemma substring_all (s : string) (m : nat) :
  String.length s <= m -> String.substring 0 m s = s.
Proof.
  revert m. induction s as [|c s IH]; intros m Hm.
  - destruct m; reflexivity.
  - destruct m as [|m]; [cbn in Hm; lia |].
    cbn [String.substring]. rewrite IH; [reflexivity | cbn in Hm; lia].
Qed.

(** The text after [/bibs/] of a link. *)
Lemma split_last_bibs (p id : string) :
  begins_in "/bibs/" p ("/bibs/" ++ id) = false ->
  contains "/bibs/" id = false ->
  split_last "/bibs/" (p ++ "/bibs/" ++ id) = id.
Proof.
  intros Hp Hid. unfold split_last. rewrite (last_piece_prefix _ _ _ _ Hp).
  change ("/bibs/" ++ id)
    with (String "/" (String "b" (String "i" (String "b" (String "s" (String "/" id)))))).
  cbn [last_piece_from String.length Nat.sub].
  assert (Hpre : String.prefix "/bibs/"
            (String "/" (String "b" (String "i" (String "b" (String "s" (String "/" id))))))
          = true) by (destruct id; reflexivity).
  rewrite Hpre. cbn [String.substring].
  rewrite substring_all by (cbn; lia).
  apply last_piece_none. exact Hid.
Qed.

Lemma extract_one_link (d : list (string * pyval)) (l : string) (s : state) :
  assoc "link" d = Some (PyStr l) ->
  extract_one (PyDict d) s
  = (Returns (if l =? "" then []
              else if split_last "/bibs/" l =? "" then [] else [split_last "/bibs/" l]), s).
Proof.
  intros Hl. unfold extract_one, py_get, bind, ret. rewrite Hl. cbn [default id truthy].
  destruct (String.eqb_spec l "") as [-> | Hne].
  - reflexivity.
  - cbn [negb]. destruct (split_last "/bibs/" l =? ""); reflexivity.
Qed.

Lemma nonempty_app (a b : string) : b <> "" -> a ++ b <> "".
Proof. intros Hb. destruct a; [exact Hb | discriminate]. Qed.

(** X22.  From members that are dicts with a link made of some text,
    [/bibs/] and an identifier, [_extract_mms_ids_from_members] returns
    the identifiers, one for each member and in the order of the
    members, provided the identifier is not empty and holds no [/bibs/],
    and no [/bibs/] begins in the text before; it changes nothing. *)
Theorem extract_mms_ids_reads_links (members : list pyval)
    (records : list (string * string)) (s : state) :
  Forall2 (fun member record =>
             exists d,
               member = PyDict d
               /\ assoc "link" d = Some (PyStr (fst record ++ "/bibs/" ++ snd record))
               /\ snd record <> ""
               /\ begins_in "/bibs/" (fst record) ("/bibs/" ++ snd record) = false
               /\ contains "/bibs/" (snd record) = false)
          members records ->
  _extract_mms_ids_from_members members s = (Returns (List.map snd records), s).
Proof.
  induction 1 as [| member [p id] members records [d (-> & Hl & Hid & Hp & Hc)] _ IH];
    [reflexivity |].
  cbn [_extract_mms_ids_from_members List.map fst snd] in *.
  rewrite (bind_returns _ _ _ _ _ (extract_one_link d _ s Hl)).
  rewrite (bind_returns _ _ _ _ _ IH).
  rewrite (split_last_bibs p id Hp Hc).
  rewrite (eqb_string_false _ _ (nonempty_app p _ (nonempty_app "/bibs/" id Hid))).
  rewrite (eqb_string_false _ _ Hid). reflexivity.
Qed.

Lemma extract_mms_ids_reads_links_witness :
  _extract_mms_ids_from_members
    [PyDict [("id", PyStr "1");
             ("link", PyStr "https://api-eu.hosted.exlibrisgroup.com/almaws/v1/bibs/9912")];
     PyDict [("link", PyStr "/almaws/v1/bibs/9913")]]
    Samples.sandbox_facing_404
  = (Returns ["9912"; "9913"], Samples.sandbox_facing_404).
Proof.
  apply (extract_mms_ids_reads_links _
           [("https://api-eu.hosted.exlibrisgroup.com/almaws/v1", "9912");
            ("/almaws/v1", "9913")]).
  repeat constructor.
  - eexists. split; [reflexivity |]. repeat split; try reflexivity. discriminate.
  - eexists. split; [reflexivity |]. repeat split; try reflexivity. discriminate.
Defined.

(** X23.  The edges of the extraction.  A member with no link, an empty
    link, or a link that is no string gives no identifier and no error.
    A link in which [/bibs/] does not occur is taken whole as the
    identifier.  A link that ends with [/bibs/] gives no identifier.  A
    member that is no dict ends the extraction with [AttributeError]. *)
Theorem extract_mms_ids_edges (d : list (string * pyval)) (s : state) :
  (assoc "link" d = None \/ (exists v, assoc "link" d = Some v /\ truthy v = false)
   \/ (exists v, assoc "link" d = Some v /\ forall l, v <> PyStr l) ->
   _extract_mms_ids_from_members [PyDict d] s = (Returns [], s))
  /\ (forall l, assoc "link" d = Some (PyStr l) -> l <> "" -> contains "/bibs/" l = false ->
      _extract_mms_ids_from_members [PyDict d] s = (Returns [l], s))
  /\ (forall p, assoc "link" d = Some (PyStr (p ++ "/bibs/")) ->
      begins_in "/bibs/" p "/bibs/" = false ->
      _extract_mms_ids_from_members [PyDict d] s = (Returns [], s))
  /\ (forall member rest, is_dict member = false ->
      exists message,
        _extract_mms_ids_from_members (PyDict d :: member :: rest) s
        = (Raises (AttributeError message), s)).
Proof.
  split; [| split; [| split]].
  - intros [Hnone | [[v [Hv Hfalse]] | [v [Hv Hns]]]];
      cbn [_extract_mms_ids_from_members]; unfold extract_one, py_get, bind, ret.
    + rewrite Hnone. reflexivity.
    + rewrite Hv. cbn [default id]. rewrite Hfalse. reflexivity.
    + rewrite Hv. cbn [default id].
      destruct (truthy v); [| reflexivity].
      destruct v; try reflexivity. exfalso. eapply Hns. reflexivity.
  - intros l Hl Hne Hno. cbn [_extract_mms_ids_from_members].
    rewrite (bind_returns _ _ _ _ _ (extract_one_link d l s Hl)).
    rewrite (eqb_string_false _ _ Hne).
    unfold split_last. rewrite (last_piece_none _ _ _ Hno), (eqb_string_false _ _ Hne).
    reflexivity.
  - intros p Hl Hp. cbn [_extract_mms_ids_from_members].
    rewrite (bind_returns _ _ _ _ _ (extract_one_link d _ s Hl)).
    rewrite (eqb_string_false _ _ (nonempty_app p "/bibs/" ltac:(discriminate))).
    assert (Hsplit : split_last "/bibs/" (p ++ "/bibs/") = "").
    { apply (split_last_bibs p ""); [exact Hp | reflexivity]. }
    rewrite Hsplit. reflexivity.
  - intros member rest Hnd. eexists.
    cbn [_extract_mms_ids_from_members].
    destruct (extract_one (PyDict d) s) as [[ids | e] s'] eqn:Hone.
    + assert (Hs : s' = s).
      { unfold extract_one, py_get, bind, ret in Hone.
        destruct (assoc "link" d) as [v |]; cbn [default id] in Hone.
        - destruct (truthy v); [destruct v; try destruct (_ =? ""); congruence | congruence].
        - cbn in Hone. congruence. }
      subst s'. rewrite (bind_returns _ _ _ _ _ Hone).
      destruct member; try discriminate Hnd; reflexivity.
    + exfalso. unfold extract_one, py_get, bind, ret in Hone.
      destruct (assoc "link" d) as [v |]; cbn [default id] in Hone.
      * destruct (truthy v); [destruct v; try destruct (_ =? ""); discriminate | discriminate].
      * cbn in Hone. discriminate.
Qed.

Lemma extract_mms_ids_edges_witness :
  _extract_mms_ids_from_members [PyDict [("id", PyStr "1")]] Samples.sandbox_facing_404
  = (Returns [], Samples.sandbox_facing_404)
  /\ _extract_mms_ids_from_members [PyDict [("link", PyStr "urn:991")]]
       Samples.sandbox_facing_404
     = (Returns ["urn:991"], Samples.sandbox_facing_404)
  /\ _extract_mms_ids_from_members [PyDict [("link", PyStr "/almaws/v1/bibs/")]]
       Samples.sandbox_facing_404
     = (Returns [], Samples.sandbox_facing_404).
Proof.
  split; [| split].
  - apply (proj1 (extract_mms_ids_edges [("id", PyStr "1")] Samples.sandbox_facing_404)).
    left. reflexivity.
  - apply (proj1 (proj2 (extract_mms_ids_edges [("link", PyStr "urn:991")]
                           Samples.sandbox_facing_404)));
      [reflexivity | discriminate | reflexivity].
  - apply (proj1 (proj2 (proj2 (extract_mms_ids_edges [("link", PyStr "/almaws/v1/bibs/")]
                                  Samples.sandbox_facing_404))) "/almaws/v1");
      reflexivity.
Defined.

Lemma fetch_json (req : http_request) (s : state) (r : Response.t) (v : pyval) :
  remote (snd s) (calls (snd s)) req = Reply r ->
  Response.ok r = true ->
  Response.json_body r = Some v ->
  (response <- send req ;; Response.raise_for_status response ;; Response.json response) s
  = (Returns v, (fst s, sent req (snd s))).
Proof.
  intros Hr Hok Hv. unfold bind, send, Response.raise_for_status, Response.json.
  rewrite Hr, Hok. unfold ret. rewrite Hv. reflexivity.
Qed.

Lemma fetch_failure (req : http_request) (s : state) :
  (forall message, remote (snd s) (calls (snd s)) req = Failure message ->
   (response <- send req ;; Response.raise_for_status response ;; Response.json response) s
   = (Raises (RequestException message), (fst s, sent req (snd s))))
  /\ (forall r, remote (snd s) (calls (snd s)) req = Reply r -> Response.ok r = false ->
      exists message,
        (response <- send req ;; Response.raise_for_status response ;;
         Response.json response) s
        = (Raises (HTTPError message), (fst s, sent req (snd s)))).
Proof.
  split.
  - intros message Hr. unfold bind, send. rewrite Hr. reflexivity.
  - intros r Hr Hok. eexists. unfold bind, send, Response.raise_for_status.
    rewrite Hr, Hok. reflexivity.
Qed.

Ltac spell s := destruct s as [|[[] [] [] [] [] [] [] []] s]; try reflexivity.

(** The test of the content type of the set. *)
Lemma kind_match {A} (v : pyval) (x y : A) :
  v <> PyStr "BIB_MMS" ->
  match v with PyStr "BIB_MMS" => x | _ => y end = y.
Proof.
  intros Hne. destruct v as [| | | |s| |]; try reflexivity.
  spell s. spell s. spell s. spell s. spell s. spell s. spell s.
  destruct s; [exfalso; apply Hne; reflexivity | reflexivity].
Qed.

Section Pages.

Variable py_str : pyval -> string.
Variable set_id : string.
Variable g : AlmaAPIClient.t.
Variable page : nat -> Response.t.
Variable members : nat -> list pyval.
Variable ids : nat -> list string.

Lemma one_page_ok (offset : Z) (w : world) (i : nat) :
  remote w (calls w) (page_request py_str g set_id offset) = Reply (page i) ->
  Response.ok (page i) = true ->
  (exists d, Response.json_body (page i) = Some (PyDict d)
             /\ assoc "member" d = Some (PyList (members i))) ->
  (forall st, _extract_mms_ids_from_members (members i) st = (Returns (ids i), st)) ->
  one_page py_str set_id offset (g, w)
  = (Returns (ids i), (g, sent (page_request py_str g set_id offset) w)).
Proof.
  intros Hr Hok [d [Hd Hm]] Hext. unfold one_page.
  assert (Hpage : _get_set_members_page py_str set_id offset 100 (g, w)
                  = (Returns (PyDict d), (g, sent (page_request py_str g set_id offset) w)))
    by exact (fetch_json (page_request py_str g set_id offset) (g, w) (page i) _ Hr Hok Hd).
  rewrite (bind_returns _ _ _ _ _ Hpage).
  unfold py_get at 1. unfold bind at 1. unfold ret at 1. rewrite Hm. cbn [default id].
  unfold bind at 1. cbn [is_dict iterate]. unfold ret at 1. apply Hext.
Qed.

Lemma all_pages_run (len : nat) :
  forall (start : nat) (acc : list string) (w : world),
    (forall i, start <= i < start + len ->
       remote w (calls w + (i - start)) (page_request py_str g set_id (100 * Z.of_nat i))
       = Reply (page i)
       /\ Response.ok (page i) = true
       /\ (exists d, Response.json_body (page i) = Some (PyDict d)
                     /\ assoc "member" d = Some (PyList (members i)))
       /\ forall st, _extract_mms_ids_from_members (members i) st = (Returns (ids i), st)) ->
    all_pages py_str set_id (List.map (fun i => (100 * Z.of_nat i)%Z) (seq start len)) acc (g, w)
    = (Returns (acc ++ concat (List.map ids (seq start len)))%list,
       (g, fold_left (fun w req => sent req w)
             (List.map (fun i => page_request py_str g set_id (100 * Z.of_nat i))
                (seq start len)) w)).
Proof.
  induction len as [|len IH]; intros start acc w Hpages.
  - cbn. rewrite app_nil_r. reflexivity.
  - cbn [seq List.map all_pages concat fold_left].
    destruct (Hpages start) as (Hr & Hok & Hd & Hext); [lia |].
    rewrite Nat.sub_diag, Nat.add_0_r in Hr.
    rewrite (bind_returns _ _ _ _ _ (one_page_ok _ w start Hr Hok Hd Hext)).
    rewrite IH.
    + rewrite <- app_assoc. reflexivity.
    + intros i Hi. destruct (Hpages i) as (Hr' & Hrest); [lia |].
      split; [| exact Hrest].
      cbn [sent remote calls]. rewrite <- Hr'. f_equal. lia.
Qed.

End Pages.

(** X24.  When the remote API describes the set as one of bibliographic
    records with [total] members, more than none, and answers each page
    with a dict whose members are a list the extraction reads,
    [get_set_members] returns the identifiers of all the pages, in the
    order of the pages.  It sends the request for the description and
    then one request for each hundred of members begun, for the offsets
    0, 100, 200 and so on with a limit of 100, each once and in that
    order, and nothing else. *)
Theorem get_set_members_reads_every_page (py_str : pyval -> string) (set_id : string)
    (g : AlmaAPIClient.t) (w : world) (r0 : Response.t)
    (info content number : list (string * pyval)) (total : Z)
    (page : nat -> Response.t) (members : nat -> list pyval) (ids : nat -> list string) :
  set_id <> "" ->
  remote w (calls w) (info_request g set_id) = Reply r0 ->
  Response.ok r0 = true ->
  Response.json_body r0 = Some (PyDict info) ->
  assoc "content" info = Some (PyDict content) ->
  assoc "value" content = Some (PyStr "BIB_MMS") ->
  assoc "number_of_members" info = Some (PyDict number) ->
  assoc "value" number = Some (PyInt total) ->
  (0 < total)%Z ->
  let n := Z.to_nat ((total + 99) / 100) in
  (forall i, i < n ->
     remote w (S (calls w) + i) (page_request py_str g set_id (100 * Z.of_nat i))
     = Reply (page i)
     /\ Response.ok (page i) = true
     /\ (exists d, Response.json_body (page i) = Some (PyDict d)
                   /\ assoc "member" d = Some (PyList (members i)))
     /\ forall st, _extract_mms_ids_from_members (members i) st = (Returns (ids i), st)) ->
  get_set_members py_str set_id (g, w)
  = (Returns (concat (List.map ids (seq 0 n))),
     (g, fold_left (fun w req => sent req w)
           (info_request g set_id
            :: List.map (fun i => page_request py_str g set_id (100 * Z.of_nat i)) (seq 0 n))
           w)).
Proof.
  intros Hid Hr0 Hok Hinfo Hcontent Hkind Hnumber Htotal Hpos n Hpages.
  unfold get_set_members. rewrite (eqb_string_false _ _ Hid).
  assert (Hset : _get_set_info set_id (g, w)
                 = (Returns (PyDict info), (g, sent (info_request g set_id) w)))
    by exact (fetch_json (info_request g set_id) (g, w) r0 _ Hr0 Hok Hinfo).
  rewrite (bind_returns _ _ _ _ _ Hset).
  unfold py_get at 1. unfold bind at 1. unfold ret at 1. rewrite Hcontent. cbn [default id].
  unfold py_get at 1. unfold bind at 1. unfold ret at 1. rewrite Hkind. cbn [default id].
  unfold py_get at 1. unfold bind at 1. unfold ret at 1. rewrite Hnumber. cbn [default id].
  unfold py_get at 1. unfold bind at 1. unfold ret at 1. rewrite Htotal. cbn [default id].
  cbn [is_zero]. destruct (Z.eqb_spec total 0) as [-> | _]; [lia |].
  unfold as_index. unfold bind at 1. unfold ret at 1.
  unfold page_offsets. fold n. cbn [fst snd fold_left].
  rewrite (all_pages_run py_str set_id g page members ids n 0 [] (sent (info_request g set_id) w)).
  - reflexivity.
  - intros i Hi. destruct (Hpages i) as (Hr & Hrest); [lia |].
    split; [| exact Hrest].
    cbn [sent remote calls]. rewrite <- Hr. f_equal. lia.
Qed.

Lemma get_set_members_reads_every_page_witness :
  get_set_members Samples.str_of "25793308630004146"
    (Samples.gateway_sandbox, Samples.world_of Samples.full_environ Samples.remote_set)
  = (Returns ["991"; "992"; "993"],
     (Samples.gateway_sandbox,
      fold_left (fun w req => sent req w)
        [info_request Samples.gateway_sandbox "25793308630004146";
         page_request Samples.str_of Samples.gateway_sandbox "25793308630004146" 0;
         page_request Samples.str_of Samples.gateway_sandbox "25793308630004146" 100]
        (Samples.world_of Samples.full_environ Samples.remote_set))).
Proof.
  apply (get_set_members_reads_every_page Samples.str_of "25793308630004146"
           Samples.gateway_sandbox
           (Samples.world_of Samples.full_environ Samples.remote_set)
           (Samples.set_info_reply 150)
           [("content", PyDict [("value", PyStr "BIB_MMS")]);
            ("number_of_members", PyDict [("value", PyInt 150)])]
           [("value", PyStr "BIB_MMS")] [("value", PyInt 150)] 150
           (fun i => match i with
                     | 0 => Samples.member_page ["991"; "992"]
                     | _ => Samples.member_page ["993"]
                     end)
           (fun i => match i with
                     | 0 => List.map Samples.member_of ["991"; "992"]
                     | _ => List.map Samples.member_of ["993"]
                     end)
           (fun i => match i with 0 => ["991"; "992"] | _ => ["993"] end));
    try reflexivity; try discriminate.
  intros i Hi. change (Z.to_nat ((150 + 99) / 100)) with 2 in Hi.
  destruct i as [|[|i]]; [| | lia].
  - split; [reflexivity |]. split; [reflexivity |].
    split; [eexists; split; reflexivity |]. intros st. reflexivity.
  - split; [reflexivity |]. split; [reflexivity |].
    split; [eexists; split; reflexivity |]. intros st. reflexivity.
Defined.

(** X25.  [get_set_members] stops early, after the one request for the
    description of the set, in these cases: a transport failure and a
    failure status of that request are raised as they are
    ([RequestException] and [HTTPError]); a set whose content type is
    absent or is not [BIB_MMS] raises [ValueError]; a set with no
    member gives the empty list.  An empty set ID raises [ValueError]
    with no request at all.  In none of these cases is a page asked
    for, and the gateway is not changed. *)
Theorem get_set_members_stops_early (py_str : pyval -> string) (set_id : string)
    (g : AlmaAPIClient.t) (w : world) :
  (set_id = "" ->
   get_set_members py_str set_id (g, w) = (Raises (ValueError "Set ID is required"), (g, w)))
  /\
  (set_id <> "" ->
   let after := (g, sent (info_request g set_id) w) in
   (forall message,
       remote w (calls w) (info_request g set_id) = Failure message ->
       get_set_members py_str set_id (g, w) = (Raises (RequestException message), after))
   /\ (forall r0,
          remote w (calls w) (info_request g set_id) = Reply r0 ->
          Response.ok r0 = false ->
          exists message,
            get_set_members py_str set_id (g, w) = (Raises (HTTPError message), after))
   /\ (forall r0 info,
          remote w (calls w) (info_request g set_id) = Reply r0 ->
          Response.ok r0 = true ->
          Response.json_body r0 = Some (PyDict info) ->
          (assoc "content" info = None
           \/ exists content,
                assoc "content" info = Some (PyDict content)
                /\ (assoc "value" content = None
                    \/ exists kind, assoc "value" content = Some kind
                                    /\ kind <> PyStr "BIB_MMS")) ->
          exists message,
            get_set_members py_str set_id (g, w) = (Raises (ValueError message), after))
   /\ (forall r0 info content number,
          remote w (calls w) (info_request g set_id) = Reply r0 ->
          Response.ok r0 = true ->
          Response.json_body r0 = Some (PyDict info) ->
          assoc "content" info = Some (PyDict content) ->
          assoc "value" content = Some (PyStr "BIB_MMS") ->
          (assoc "number_of_members" info = None
           \/ assoc "number_of_members" info = Some (PyDict number)
              /\ (assoc "value" number = None \/ assoc "value" number = Some (PyInt 0))) ->
          get_set_members py_str set_id (g, w) = (Returns [], after))).
Proof.
  split; [intros ->; reflexivity |].
  intros Hid after.
  assert (Hstart : forall k : pyval -> M state (list string),
             get_set_members py_str set_id (g, w)
             = ((set_info <- (response <- send (info_request g set_id) ;;
                              Response.raise_for_status response ;;
                              Response.json response) ;;
                 content <- py_get set_info "content" (PyDict []) ;;
                 content_type <- py_get content "value" (PyStr "") ;;
                 match content_type with
                 | PyStr "BIB_MMS" =>
                     number <- py_get set_info "number_of_members" (PyDict []) ;;
                     total_members <- py_get number "value" (PyInt 0) ;;
                     if is_zero total_members then ret []
                     else
                       total <- as_index total_members ;;
                       all_pages py_str set_id (page_offsets total) []
                 | _ =>
                     raise (ValueError ("Invalid set type: expected 'BIB_MMS', found '"
                                        ++ py_str content_type ++ "'"))
                 end) (g, w))).
  { intros _. unfold get_set_members. rewrite (eqb_string_false _ _ Hid). reflexivity. }
  specialize (Hstart (fun _ => ret [])).
  destruct (fetch_failure (info_request g set_id) (g, w)) as [Hfail Hstatus].
  split; [| split; [| split]].
  - intros message Hr. rewrite Hstart, (bind_raises _ _ _ _ _ (Hfail message Hr)). reflexivity.
  - intros r0 Hr Hok. destruct (Hstatus r0 Hr Hok) as [message Hm].
    exists message. rewrite Hstart, (bind_raises _ _ _ _ _ Hm). reflexivity.
  - intros r0 info Hr Hok Hinfo Hkind.
    rewrite Hstart.
    rewrite (bind_returns _ _ _ _ _
               (fetch_json (info_request g set_id) (g, w) r0 _ Hr Hok Hinfo)).
    unfold py_get at 1. unfold bind at 1. unfold ret at 1.
    destruct Hkind as [Hnone | [content [Hcontent Hvalue]]].
    + rewrite Hnone. cbn [default id].
      unfold py_get at 1. unfold bind at 1. unfold ret at 1. cbn [assoc default id].
      eexists. reflexivity.
    + rewrite Hcontent. cbn [default id].
      unfold py_get at 1. unfold bind at 1. unfold ret at 1.
      destruct Hvalue as [Hnone | [kind [Hk Hne]]].
      * rewrite Hnone. cbn [default id]. eexists. reflexivity.
      * rewrite Hk. cbn [default id]. rewrite (kind_match kind _ _ Hne).
        eexists. reflexivity.
  - intros r0 info content number Hr Hok Hinfo Hcontent Hkind Hnumber.
    rewrite Hstart.
    rewrite (bind_returns _ _ _ _ _
               (fetch_json (info_request g set_id) (g, w) r0 _ Hr Hok Hinfo)).
    unfold py_get at 1. unfold bind at 1. unfold ret at 1. rewrite Hcontent. cbn [default id].
    unfold py_get at 1. unfold bind at 1. unfold ret at 1. rewrite Hkind. cbn [default id].
    unfold py_get at 1. unfold bind at 1. unfold ret at 1.
    destruct Hnumber as [Hnone | [Hnum Hvalue]].
    + rewrite Hnone. cbn [default id]. reflexivity.
    + rewrite Hnum. cbn [default id].
      unfold py_get at 1. unfold bind at 1. unfold ret at 1.
      destruct Hvalue as [-> | ->]; reflexivity.
Qed.

Lemma get_set_members_stops_early_witness :
  get_set_members Samples.str_of "" Samples.sandbox_facing_404
  = (Raises (ValueError "Set ID is required"), Samples.sandbox_facing_404)
  /\ exists message,
       get_set_members Samples.str_of "25793308630004146" Samples.sandbox_facing_404
       = (Raises (HTTPError message),
          (Samples.gateway_sandbox,
           sent (info_request Samples.gateway_sandbox "25793308630004146")
             (snd Samples.sandbox_facing_404))).
Proof.
  split.
  - apply (proj1 (get_set_members_stops_early Samples.str_of "" Samples.gateway_sandbox
                    (snd Samples.sandbox_facing_404))).
    reflexivity.
  - destruct (proj2 (get_set_members_stops_early Samples.str_of "25793308630004146"
                       Samples.gateway_sandbox (snd Samples.sandbox_facing_404)))
      as [_ [Hstatus _]]; [discriminate |].
    apply (Hstatus (Response.mk 404 [("Content-Type", "application/json;charset=UTF-8")] ""
                      (Some (PyDict []))));
      reflexivity.
Defined.

End AdminFacts.

(** ** The message of an error *)

Module MessageFacts.
Import BaseAPIClient.

Lemma handle_error_with (py_str : pyval -> string) (response : Response.t)
    (method url : string) (st : state) (error_data : pyval) (message : string) :
  _parse_response response st = (Returns error_data, st) ->
  extract_error_information py_str error_data
    (method ++ " " ++ url ++ " failed with status "
     ++ py_str (PyInt (Response.status_code response))) st
  = (Returns message, st) ->
  _handle_error_response py_str response method url st
  = (Raises (error_of_status (Response.status_code response) message error_data), st).
Proof.
  intros Hparse Hextract. unfold _handle_error_response.
  assert (Htry : try_except (_parse_response response) is_Exception
                   (fun _ => ret (PyStr (Response.text response))) st
                 = (Returns error_data, st))
    by (unfold try_except; rewrite Hparse; reflexivity).
  rewrite (bind_returns _ _ _ _ _ Htry), (bind_returns _ _ _ _ _ Hextract).
  unfold error_of_status, raise. cbn [existsb].
  destruct (Response.status_code response =? 401)%Z; [reflexivity |].
  destruct (Response.status_code response =? 429)%Z; [reflexivity |].
  rewrite orb_false_r.
  destruct ((Response.status_code response =? 400)%Z || (Response.status_code response =? 422)%Z);
    reflexivity.
Qed.

(** X26.  The error [_handle_error_response] raises names the request
    and the status: its message is the method, the URL, [failed with
    status] and the status.  When the body is a dict with an [errorList]
    whose first error is a dict, the message ends with a colon and the
    [errorMessage] of that error, or [Unknown error] when it has none;
    an [errorList] without errors adds nothing.  Without an
    [errorList], an [error_description] of the body is added in the same
    way; an [errorList] hides it.  The error carries the status and the
    parsed body, and the world and the client are as they were. *)
Theorem error_message_names_the_request (py_str : pyval -> string) (response : Response.t)
    (method url : string) (st : state) (error_data : pyval) :
  _parse_response response st = (Returns error_data, st) ->
  let status := Response.status_code response in
  let named := method ++ " " ++ url ++ " failed with status " ++ py_str (PyInt status) in
  let raises message :=
    _handle_error_response py_str response method url st
    = (Raises (error_of_status status message error_data), st) in
  (is_dict error_data = false -> raises named)
  /\ (forall d, error_data = PyDict d -> assoc "errorList" d = None ->
      match assoc "error_description" d with
      | Some description => raises (named ++ ": " ++ py_str description)
      | None => raises named
      end)
  /\ (forall d error_list, error_data = PyDict d ->
      assoc "errorList" d = Some (PyDict error_list) ->
      (assoc "error" error_list = None \/ assoc "error" error_list = Some (PyList []) ->
       raises named)
      /\ (forall first rest,
            assoc "error" error_list = Some (PyList (PyDict first :: rest)) ->
            raises (named ++ ": "
                    ++ py_str (default (PyStr "Unknown error") (assoc "errorMessage" first))))).
Proof.
  intros Hparse status named raises. subst raises. cbv beta.
  split; [| split].
  - intros Hnd. apply (handle_error_with py_str response method url st error_data named Hparse).
    destruct error_data; try reflexivity. discriminate.
  - intros d -> Hnone.
    destruct (assoc "error_description" d) as [description |] eqn:Hdescr;
      apply (handle_error_with py_str response method url st (PyDict d) _ Hparse);
      unfold extract_error_information; rewrite Hnone, Hdescr; reflexivity.
  - intros d error_list -> Hlist. split.
    + intros Herr.
      apply (handle_error_with py_str response method url st (PyDict d) _ Hparse).
      unfold extract_error_information, py_get, bind, ret. rewrite Hlist.
      destruct Herr as [-> | ->]; reflexivity.
    + intros first rest Herr.
      apply (handle_error_with py_str response method url st (PyDict d) _ Hparse).
      unfold extract_error_information, py_get, bind, ret. rewrite Hlist, Herr. reflexivity.
Qed.

Lemma error_message_names_the_request_witness :
  _handle_error_response Samples.str_of
    (Response.mk 400 [("Content-Type", "application/json")] ""
       (Some (PyDict [("errorList",
                       PyDict [("error",
                                PyList [PyDict [("errorMessage", PyStr "Invalid MMS ID")]])])])))
    "GET" Samples.bib_url (Samples.facing [])
  = (Raises
       (AlmaValidationError
          ("GET " ++ Samples.bib_url ++ " failed with status 400: Invalid MMS ID")
          (Some 400%Z)
          (Some (PyDict [("errorList",
                          PyDict [("error",
                                   PyList [PyDict [("errorMessage",
                                                    PyStr "Invalid MMS ID")]])])]))),
     Samples.facing []).
Proof.
  destruct (error_message_names_the_request Samples.str_of
              (Response.mk 400 [("Content-Type", "application/json")] ""
                 (Some (PyDict [("errorList",
                                 PyDict [("error",
                                          PyList [PyDict [("errorMessage",
                                                           PyStr "Invalid MMS ID")]])])])))
              "GET" Samples.bib_url (Samples.facing []) _ eq_refl)
    as [_ [_ Hlist]].
  destruct (Hlist _ _ eq_refl eq_refl) as [_ Hfirst].
  exact (Hfirst _ _ eq_refl).
Defined.

End MessageFacts.
